(** * Copilot metrics agent: aggregation, top-N bucketing, query dispatch, refresh

    A shallow embedding of the dashboard server (the Express application with
    [handleQuery] and [generateReports]) and of the MCP server ([mcp/index.js]).

    Conventions of the embedding.

    - Numbers.  Every metric of the data model is an integer count, held in [Z]
      (a JavaScript double is exact on integers below 2^53).  Where the source
      rounds a quotient ([Math.round(a / b)], [Math.round(a / b * 10000) / 100],
      [x.toFixed(1)]) the embedding rounds the exact rational quotient, half up.
      A percentage [Math.round(x * 10000) / 100] is kept as its integer number
      of hundredths.
    - Strings are [string]s of 8-bit characters; [toLowerCase], [\w], [\s] and
      [\d] are the ASCII ones.
    - A JavaScript object used as a dictionary is an association list in
      insertion order, which is the order [Object.entries] enumerates keys that
      are not canonical array indices; category names and days are taken not
      to be names that every object inherits (such as [constructor]).
    - The module-level [records] variable is an explicit argument. *)

From Stdlib Require Import ZArith List String Ascii Bool Lia Permutation Sorted.
From Stdlib Require Import DecimalString.
From Stdlib Require OrderedTypeEx.
Import ListNotations.
Local Open Scope Z_scope.

(* ------------------------------------------------------------------------- *)
(** ** JavaScript primitives used by the sources *)

Module JS.

(** [x || 0] for a numeric property that may be missing. *)
Definition orZero (o : option Z) : Z :=
  match o with Some v => v | None => 0 end.

(** [xs || []] for an array property that may be missing. *)
Definition orNil {A : Type} (o : option (list A)) : list A :=
  match o with Some l => l | None => [] end.

(** Relative index of [Array.prototype.slice]. *)
Definition rel_index (len k : Z) : Z :=
  if k <? 0 then Z.max (len + k) 0 else Z.min k len.

(** [l.slice(s, e)]. *)
Definition slice {A : Type} (l : list A) (s e : Z) : list A :=
  let len := Z.of_nat (List.length l) in
  let from := rel_index len s in
  let upto := rel_index len e in
  firstn (Z.to_nat (upto - from)) (skipn (Z.to_nat from) l).

(** [l.slice(s)]. *)
Definition slice_from {A : Type} (l : list A) (s : Z) : list A :=
  slice l s (Z.of_nat (List.length l)).

(** [l.reduce(f, init)]. *)
Definition reduce {A B : Type} (f : B -> A -> B) (init : B) (l : list A) : B :=
  fold_left f l init.

(** [l.reduce(f)] without an initial value: a TypeError on the empty array,
    here [None]. *)
Definition reduce1 {A : Type} (f : A -> A -> A) (l : list A) : option A :=
  match l with
  | [] => None
  | x :: l' => Some (fold_left f l' x)
  end.

(** [Array.prototype.sort(cmp)] is stable; [x] stays in front of [y] when
    [cmp x y <= 0].  Insertion from the right realises exactly that order. *)
Fixpoint insert {A : Type} (cmp : A -> A -> Z) (x : A) (l : list A) : list A :=
  match l with
  | [] => [x]
  | y :: l' => if cmp x y <=? 0 then x :: l else y :: insert cmp x l'
  end.

Definition sort {A : Type} (cmp : A -> A -> Z) (l : list A) : list A :=
  fold_right (insert cmp) [] l.

(** Comparison of strings by code unit, the order of [sort()] without a
    comparator and of [<] on strings; [localeCompare] is taken to be the same
    order (it is on ISO dates). *)
Definition str_cmp (a b : string) : Z :=
  match String.compare a b with Lt => -1 | Eq => 0 | Gt => 1 end.

Definition str_lt (a b : string) : bool := str_cmp a b <? 0.

(** [l.includes(x)] on an array of strings. *)
Definition mem (x : string) (l : list string) : bool :=
  existsb (String.eqb x) l.

(** The property names that every object inherits from [Object.prototype].
    On an object literal without an own property [k], [o[k]] for such a [k]
    is the inherited value: a function, or the prototype itself for
    [__proto__]; it is truthy and has no [push]. *)
Definition inherited (k : string) : bool :=
  mem k
    [ "constructor"%string; "__proto__"%string; "hasOwnProperty"%string;
      "isPrototypeOf"%string; "propertyIsEnumerable"%string;
      "toLocaleString"%string; "toString"%string; "valueOf"%string;
      "__defineGetter__"%string; "__defineSetter__"%string;
      "__lookupGetter__"%string; "__lookupSetter__"%string ].

(** [Array.from(new Set(l))]: first occurrences, in order. *)
Fixpoint dedup (l : list string) : list string :=
  match l with
  | [] => []
  | x :: l' => x :: filter (fun y => negb (String.eqb x y)) (dedup l')
  end.

(** [Math.max(...l)]; [None] stands for [-Infinity], the value on no argument. *)
Definition max_of (l : list Z) : option Z :=
  match l with
  | [] => None
  | x :: l' => Some (fold_left Z.max l' x)
  end.

(** [Math.round(a / b)]: the nearest integer, ties towards +Infinity. *)
Definition round_div (a b : Z) : Z := (2 * a + b) / (2 * b).

(** *** Objects as insertion-ordered dictionaries *)

Definition obj (V : Type) : Type := list (string * V).

Fixpoint get {V : Type} (o : obj V) (k : string) : option V :=
  match o with
  | [] => None
  | (k', v) :: o' => if String.eqb k k' then Some v else get o' k
  end.

(** [o[k] = f(o[k])], with [o[k]] read as [init] when [k] is not yet a key;
    a new key goes last. *)
Fixpoint upsert {V : Type} (k : string) (init : V) (f : V -> V) (o : obj V)
  : obj V :=
  match o with
  | [] => [(k, f init)]
  | (k', v) :: o' =>
      if String.eqb k k' then (k', f v) :: o' else (k', v) :: upsert k init f o'
  end.

(** [o[k] = v]. *)
Definition put {V : Type} (k : string) (v : V) (o : obj V) : obj V :=
  upsert k v (fun _ => v) o.

Definition keys {V : Type} (o : obj V) : list string := map fst o.
Definition values {V : Type} (o : obj V) : list V := map snd o.

(** *** Strings *)

Definition nl : string := String (ascii_of_nat 10) EmptyString.

Definition cat (a b : string) : string := String.append a b.

(** [lines.join('\n')]. *)
Definition join_lines (lines : list string) : string := String.concat nl lines.

Definition lower_ascii (c : ascii) : ascii :=
  let n := nat_of_ascii c in
  if ((65 <=? n) && (n <=? 90))%nat then ascii_of_nat (n + 32) else c.

Fixpoint toLowerCase (s : string) : string :=
  match s with
  | EmptyString => EmptyString
  | String c s' => String (lower_ascii c) (toLowerCase s')
  end.

(** [s.includes(sub)]. *)
Fixpoint includes (s sub : string) : bool :=
  String.prefix sub s
  || match s with
     | EmptyString => false
     | String _ s' => includes s' sub
     end.

(** [\w], [\d], [\s] and the line terminators that [.] refuses. *)
Definition is_digit (c : ascii) : bool :=
  let n := nat_of_ascii c in ((48 <=? n) && (n <=? 57))%nat.

Definition is_word (c : ascii) : bool :=
  let n := nat_of_ascii c in
  (((65 <=? n) && (n <=? 90)) || ((97 <=? n) && (n <=? 122))
   || ((48 <=? n) && (n <=? 57)) || (n =? 95))%nat.

Definition is_space (c : ascii) : bool :=
  let n := nat_of_ascii c in (((9 <=? n) && (n <=? 13)) || (n =? 32))%nat.

Definition is_line_terminator (c : ascii) : bool :=
  let n := nat_of_ascii c in ((n =? 10) || (n =? 13))%nat.

Definition head (s : string) : option ascii :=
  match s with EmptyString => None | String c _ => Some c end.

Definition word_opt (o : option ascii) : bool :=
  match o with Some c => is_word c | None => false end.

(** [\b] between the character before the position and the text after it. *)
Definition boundary (prev : option ascii) (rest : string) : bool :=
  xorb (word_opt prev) (word_opt (head rest)).

(** Match the literal [lit] at the start of [s], ignoring ASCII case; on
    success the last character consumed and the rest of [s]. *)
Fixpoint strip_ci (lit s : string) (last : option ascii)
  : option (option ascii * string) :=
  match lit with
  | EmptyString => Some (last, s)
  | String a lit' =>
      match s with
      | EmptyString => None
      | String c s' =>
          if Ascii.eqb (lower_ascii a) (lower_ascii c)
          then strip_ci lit' s' (Some c) else None
      end
  end.

Fixpoint take_while (p : ascii -> bool) (s : string) : string :=
  match s with
  | EmptyString => EmptyString
  | String c s' => if p c then String c (take_while p s') else EmptyString
  end.

Fixpoint drop_while (p : ascii -> bool) (s : string) : string :=
  match s with
  | EmptyString => EmptyString
  | String c s' => if p c then drop_while p s' else s
  end.

(** [String(n)] and [parseInt(digits, 10)] on integers. *)
Definition num_str (z : Z) : string := NilZero.string_of_int (Z.to_int z).

Fixpoint parse_digits (s : string) (acc : Z) : Z :=
  match s with
  | EmptyString => acc
  | String c s' => parse_digits s' (10 * acc + (Z.of_nat (nat_of_ascii c) - 48))
  end.

Definition parseInt (digits : string) : Z := parse_digits digits 0.

(** Thousands separators of [toLocaleString('en-US')], on reversed digits. *)
Fixpoint commas (rev_digits : list ascii) (k : nat) : list ascii :=
  match rev_digits with
  | [] => []
  | d :: rest =>
      match rest with
      | [] => [d]
      | _ :: _ =>
          match k with
          | 2%nat => d :: ","%char :: commas rest 0
          | _ => d :: commas rest (S k)
          end
      end
  end.

(** [n.toLocaleString('en-US')] on an integer. *)
Definition toLocaleString (z : Z) : string :=
  let digits := list_ascii_of_string (num_str (Z.abs z)) in
  let grouped := string_of_list_ascii (rev (commas (rev digits) 0)) in
  if z <? 0 then String "-"%char grouped else grouped.

(** [(a / b * scale).toFixed(1)] for integers [a], [b] and [scale > 0]:
    ["NaN"] and ["Infinity"] on a zero divisor, otherwise the magnitude of the
    quotient rounded to one decimal, with the sign of the quotient. *)
Definition fixed1 (scale a b : Z) : string :=
  if b =? 0 then
    (if a =? 0 then "NaN"%string
     else if a <? 0 then "-Infinity"%string else "Infinity"%string)
  else
    let t := round_div (10 * scale * Z.abs a) (Z.abs b) in
    let body := cat (num_str (t / 10)) (cat "."%string (num_str (t mod 10))) in
    if a * b <? 0 then String "-"%char body else body.

End JS.


(* ------------------------------------------------------------------------- *)
(** ** Data model: the daily records served by the metrics API *)

(** One entry of a [totals_by_*] array.  An entry carries the key fields of the
    array it sits in ([feature], [language], [model], [ide]); a numeric field
    may be missing. *)
Module Entry.
Record t : Type := mk {
  feature : string;
  language : string;
  model : string;
  ide : string;
  user_initiated_interaction_count : option Z;
  code_generation_activity_count : option Z;
  code_acceptance_activity_count : option Z;
  loc_added_sum : option Z;
  loc_deleted_sum : option Z;
  loc_suggested_to_add_sum : option Z
}.
End Entry.

Module Rec.
Record t : Type := mk {
  day : string;
  daily_active_users : option Z;
  user_initiated_interaction_count : option Z;
  code_generation_activity_count : option Z;
  code_acceptance_activity_count : option Z;
  loc_added_sum : option Z;
  loc_deleted_sum : option Z;
  totals_by_feature : option (list Entry.t);
  totals_by_language_feature : option (list Entry.t);
  totals_by_model_feature : option (list Entry.t);
  totals_by_ide : option (list Entry.t);
  totals_by_language_model : option (list Entry.t)
}.
End Rec.

(** Exceptions: a computation returns or throws. *)
Inductive JsError : Type := TypeError (msg : string).

Inductive Exn (A : Type) : Type :=
| Return (a : A)
| Throw (e : JsError).
Arguments Return {A} a.
Arguments Throw {A} e.

Definition bind {A B : Type} (m : Exn A) (k : A -> Exn B) : Exn B :=
  match m with
  | Return a => k a
  | Throw e => Throw e
  end.

Notation "x <- m ;; k" := (bind m (fun x => k))
  (at level 61, m at next level, right associativity).

(** [l.map(f)] when [f] may throw: elements are visited left to right. *)
Fixpoint mapM {A B : Type} (f : A -> Exn B) (l : list A) : Exn (list B) :=
  match l with
  | [] => Return []
  | x :: l' => y <- f x ;; ys <- mapM f l' ;; Return (y :: ys)
  end.

(** [l.map((x, idx) => f(x, idx))]. *)
Fixpoint mapi_from {A B : Type} (f : A -> Z -> B) (i : Z) (l : list A) : list B :=
  match l with
  | [] => []
  | x :: l' => f x i :: mapi_from f (i + 1) l'
  end.

Definition mapi {A B : Type} (f : A -> Z -> B) (l : list A) : list B :=
  mapi_from f 0 l.

(* ------------------------------------------------------------------------- *)
(** ** The dashboard server: aggregation helpers *)

Module DayRow.
Record t : Type := mk
  { day : string; interactions : Z; codeGenerated : Z; locAdded : Z;
    activeUsers : Z }.
End DayRow.

Module FeatureRow.
Record t : Type := mk
  { feature : string; interactions : Z; codeGenerated : Z; locAdded : Z }.
End FeatureRow.

Module LanguageRow.
Record t : Type := mk { language : string; codeGenerated : Z; locAdded : Z }.
End LanguageRow.

Module ModelRow.
Record t : Type := mk { model : string; interactions : Z; codeGenerated : Z }.
End ModelRow.

(** The objects [aggregateByIDE] builds: [{ ide, interactions, codeGenerated }]. *)
Module IdeRow.
Record t : Type := mk { ide : string; interactions : Z; codeGenerated : Z }.
(** There is no [users] property: reading it yields [undefined]. *)
Definition users (_ : t) : option Z := None.
End IdeRow.

Module TopUser.
Record t : Type := mk
  { login : string; interactions : Z; codeGenerated : Z; locAdded : Z;
    daysActive : Z }.
End TopUser.

Module UserTrend.
Record t : Type := mk { day : string; interactions : Z; codeGenerated : Z }.
End UserTrend.

Module UserData.
Record t : Type := mk
  { login : string; interactions : Z; codeGenerated : Z; locAdded : Z;
    locDeleted : Z; daysActive : Z; usedAgent : bool; usedChat : bool;
    dailyTrends : list UserTrend.t }.
End UserData.

Module DauPoint.
Record t : Type := mk { day : string; users : Z }.
End DauPoint.

(** [avg] and [rate] below are numbers with two decimals, in hundredths. *)
Module AvgPoint.
Record t : Type := mk { day : string; avg : Z }.
End AvgPoint.

Module Completion.
Record t : Type := mk { day : string; shown : Z; accepted : Z }.
End Completion.

Module RatePoint.
Record t : Type := mk { day : string; rate : Z }.
End RatePoint.

Module ModelCount.
Record t : Type := mk { model : string; count : Z }.
End ModelCount.

Module LanguageCount.
Record t : Type := mk { language : string; count : Z }.
End LanguageCount.

Module LocPoint.
Record t : Type := mk { day : string; added : Z; deleted : Z }.
End LocPoint.

Module SuggestedAdded.
Record t : Type := mk { suggested : Z; added : Z }.
End SuggestedAdded.

Module AddedDeleted.
Record t : Type := mk { added : Z; deleted : Z }.
End AddedDeleted.

Module ModelSA.
Record t : Type := mk { model : string; suggested : Z; added : Z }.
End ModelSA.

Module ModelAD.
Record t : Type := mk { model : string; added : Z; deleted : Z }.
End ModelAD.

Module LanguageSA.
Record t : Type := mk { language : string; suggested : Z; added : Z }.
End LanguageSA.

Module LanguageAD.
Record t : Type := mk { language : string; added : Z; deleted : Z }.
End LanguageAD.

(** [{ days, series }]: per key, one value per day. *)
Module DaySeries.
Record t : Type := mk { days : list string; series : JS.obj (list Z) }.
End DaySeries.

(** [{ label, data }] with [data] in hundredths of a percent. *)
Module PctDataset.
Record t : Type := mk { label : string; data : list Z }.
End PctDataset.

Module PctMatrix.
Record t : Type := mk { labels : list string; datasets : list PctDataset.t }.
End PctMatrix.

(** The result of [topN]. *)
Module TopN.
Record t (A : Type) : Type := mk { top : list A; otherVal : Z }.
Arguments mk {A} top otherVal.
Arguments top {A} t.
Arguments otherVal {A} t.
End TopN.

(** A number placed in a chart: a count, a value kept in hundredths, or
    [undefined]. *)
Inductive num : Type :=
| Int (z : Z)
| Hundredths (h : Z)
| Undefined.

Inductive ChartType : Type := line | bar | pie | doughnut.

Module Dataset.
Record t : Type := mk { label : string; data : list num }.
End Dataset.

(** A chart specification; [title] is absent on a [chartData] object and
    [stacked] is [false] where the source leaves it out. *)
Module Chart.
Record t : Type := mk
  { title : option string; type : ChartType; stacked : bool;
    labels : list string; datasets : list Dataset.t }.
End Chart.

(** What [handleQuery] returns and what [preGeneratedReports] stores:
    [chartData] is [None] for [null], [chartsData] is [None] when the property
    is not there. *)
Module Response.
Record t : Type := mk
  { markdown : string; chartData : option Chart.t;
    chartsData : option (list Chart.t) }.
End Response.

Module Dashboard.

Definition FEATURE_DISPLAY : JS.obj string :=
  [ ("chat_panel_agent_mode", "Agent Mode");
    ("chat_panel_ask_mode", "Ask Mode");
    ("chat_panel_edit_mode", "Edit Mode");
    ("chat_panel_custom_mode", "Custom Mode");
    ("chat_inline", "Inline Chat");
    ("code_completion", "Code Completion");
    ("agent_edit", "Agent Edit");
    ("chat_panel_unknown_mode", "Unknown Mode") ]%string.

Definition AGENT_FEATURES : list string :=
  [ "agent_edit"; "chat_panel_agent_mode"; "chat_panel_custom_mode";
    "chat_panel_edit_mode" ]%string.

Definition USER_INITIATED_FEATURES : list string :=
  [ "code_completion"; "chat_panel_ask_mode"; "chat_inline" ]%string.

Definition CHAT_MODES : list string :=
  [ "chat_panel_agent_mode"; "chat_panel_ask_mode"; "chat_panel_edit_mode";
    "chat_panel_custom_mode"; "chat_inline" ]%string.

(** [FEATURE_DISPLAY[f]] for a chat mode [f] (always a key of the table). *)
Definition display (f : string) : string :=
  match JS.get FEATURE_DISPLAY f with Some d => d | None => f end.

(** [FEATURE_DISPLAY[f] || f]. *)
Definition display_or (f : string) : string :=
  match JS.get FEATURE_DISPLAY f with
  | Some d => if String.eqb d "" then f else d
  | None => f
  end.

(** [topN(arr, key, n)]: [key] is the projection [x => x[key]]. *)
Definition topN {A : Type} (key : A -> Z) (arr : list A) (n : Z) : TopN.t A :=
  let sorted := JS.sort (fun a b => key b - key a) arr in
  let top := JS.slice sorted 0 n in
  let rest := JS.slice_from sorted n in
  let otherVal := JS.reduce (fun s x => s + key x) 0 rest in
  TopN.mk top otherVal.

Definition aggregateTopUsers (limit : Z) : list TopUser.t := [].

Definition getUserData (username : string) : option UserData.t := None.

Definition fmt (n : Z) : string := JS.toLocaleString n.

(** [fmt(x)] where [x] may be [undefined]: the method call on [undefined]
    throws. *)
Definition fmt_opt (x : option Z) : Exn string :=
  match x with
  | Some n => Return (fmt n)
  | None =>
      Throw (TypeError "Cannot read properties of undefined (reading 'toLocaleString')")
  end.

(** [fmt(Math.max(...xs))]: [-Infinity] prints as the localized infinity
    sign. *)
Definition fmt_max (m : option Z) : string :=
  match m with
  | Some n => fmt n
  | None => "-∞"%string
  end.

Definition fmtShort (n : Z) : string :=
  if n >=? 1000000000 then JS.cat (JS.fixed1 1 n 1000000000) "b"
  else if n >=? 1000000 then JS.cat (JS.fixed1 1 n 1000000) "m"
  else if n >=? 1000 then JS.cat (JS.fixed1 1 n 1000) "k"
  else JS.num_str n.

Section Aggregation.

Variable records : list Rec.t.

(** [for (const r of records) for (const e of (r[field] || [])) body]. *)
Definition for_entries {S : Type} (field : Rec.t -> option (list Entry.t))
    (body : S -> Entry.t -> S) (init : S) : S :=
  fold_left (fun s r => fold_left body (JS.orNil (field r)) s) records init.

Definition falsy (o : option string) : bool :=
  match o with
  | None => true
  | Some s => String.eqb s ""
  end.

Definition getDateRange : option string * option string :=
  fold_left
    (fun (p : option string * option string) r =>
       let (start, fin) := p in
       let start' :=
         match start with
         | Some s =>
             if falsy start || JS.str_lt (Rec.day r) s then Some (Rec.day r)
             else start
         | None => Some (Rec.day r)
         end in
       let fin' :=
         match fin with
         | Some e =>
             if falsy fin || JS.str_lt e (Rec.day r) then Some (Rec.day r)
             else fin
         | None => Some (Rec.day r)
         end in
       (start', fin'))
    records (None, None).

(** The pseudo-set of [getUniqueUsers]: only its [size]. *)
Definition getUniqueUsers : Z :=
  JS.reduce (fun m r => Z.max m (JS.orZero (Rec.daily_active_users r))) 0 records.

Definition sumField (field : Rec.t -> option Z) : Z :=
  JS.reduce (fun s r => s + JS.orZero (field r)) 0 records.

Definition countUsersWhere (predicate : Rec.t -> bool) : Z :=
  fold_left (fun count r => if predicate r then count + 1 else count) records 0.

Definition aggregateByDay : list DayRow.t :=
  let days :=
    fold_left
      (fun (days : JS.obj (Z * Z * Z * Z)) r =>
         JS.upsert (Rec.day r) (0, 0, 0, 0)
           (fun '(i, c, l, _) =>
              (i + JS.orZero (Rec.user_initiated_interaction_count r),
               c + JS.orZero (Rec.code_generation_activity_count r),
               l + JS.orZero (Rec.loc_added_sum r),
               JS.orZero (Rec.daily_active_users r)))
           days)
      records [] in
  JS.sort (fun a b => JS.str_cmp (DayRow.day a) (DayRow.day b))
    (map (fun '(day, (i, c, l, a)) => DayRow.mk day i c l a) days).

Definition aggregateByFeature : list FeatureRow.t :=
  let features :=
    for_entries Rec.totals_by_feature
      (fun (features : JS.obj (Z * Z * Z)) f =>
         JS.upsert (Entry.feature f) (0, 0, 0)
           (fun '(i, c, l) =>
              (i + JS.orZero (Entry.user_initiated_interaction_count f),
               c + JS.orZero (Entry.code_generation_activity_count f),
               l + JS.orZero (Entry.loc_added_sum f)))
           features)
      [] in
  JS.sort
    (fun a b => FeatureRow.interactions b - FeatureRow.interactions a)
    (map (fun '(feature, (i, c, l)) => FeatureRow.mk feature i c l) features).

Definition aggregateByLanguage : list LanguageRow.t :=
  let langs :=
    for_entries Rec.totals_by_language_feature
      (fun (langs : JS.obj (Z * Z)) l =>
         JS.upsert (Entry.language l) (0, 0)
           (fun '(c, a) =>
              (c + JS.orZero (Entry.code_generation_activity_count l),
               a + JS.orZero (Entry.loc_added_sum l)))
           langs)
      [] in
  JS.slice
    (JS.sort
       (fun a b => LanguageRow.codeGenerated b - LanguageRow.codeGenerated a)
       (map (fun '(language, (c, a)) => LanguageRow.mk language c a) langs))
    0 15.

Definition aggregateByModel : list ModelRow.t :=
  let models :=
    for_entries Rec.totals_by_model_feature
      (fun (models : JS.obj (Z * Z)) m =>
         JS.upsert (Entry.model m) (0, 0)
           (fun '(i, c) =>
              (i + JS.orZero (Entry.user_initiated_interaction_count m),
               c + JS.orZero (Entry.code_generation_activity_count m)))
           models)
      [] in
  JS.slice
    (JS.sort
       (fun a b => ModelRow.interactions b - ModelRow.interactions a)
       (map (fun '(model, (i, c)) => ModelRow.mk model i c) models))
    0 15.

Definition aggregateByIDE : list IdeRow.t :=
  let ides :=
    for_entries Rec.totals_by_ide
      (fun (ides : JS.obj (Z * Z)) i =>
         JS.upsert (Entry.ide i) (0, 0)
           (fun '(n, c) =>
              (n + JS.orZero (Entry.user_initiated_interaction_count i),
               c + JS.orZero (Entry.code_generation_activity_count i)))
           ides)
      [] in
  JS.sort
    (fun a b => IdeRow.interactions b - IdeRow.interactions a)
    (map (fun '(ide, (n, c)) => IdeRow.mk ide n c) ides).

Definition getSortedDays : list string :=
  JS.sort JS.str_cmp (JS.dedup (map Rec.day records)).

Definition getRecordsByDay : JS.obj (list Rec.t) :=
  fold_left
    (fun byDay r => JS.upsert (Rec.day r) [] (fun l => l ++ [r]) byDay)
    records [].

(** [byDay[day]] for a day of [getSortedDays], which is always a key. *)
Definition recordsOf (byDay : JS.obj (list Rec.t)) (day : string) : list Rec.t :=
  JS.orNil (JS.get byDay day).

Definition aggregateDailyActiveUsers : list DauPoint.t :=
  map
    (fun day =>
       let rec := find (fun r => String.eqb (Rec.day r) day) records in
       DauPoint.mk day
         match rec with
         | Some r => JS.orZero (Rec.daily_active_users r)
         | None => 0
         end)
    getSortedDays.

(** [dauByDay[r.day] = r.daily_active_users || 0] over all records. *)
Definition dauByDay : JS.obj Z :=
  fold_left
    (fun dau r => JS.put (Rec.day r) (JS.orZero (Rec.daily_active_users r)) dau)
    records [].

Definition aggregateWeeklyActiveUsers : list DauPoint.t :=
  let days := getSortedDays in
  mapi
    (fun day idx =>
       let windowDays := JS.slice days (Z.max 0 (idx - 6)) (idx + 1) in
       let sum :=
         JS.reduce (fun s d => s + JS.orZero (JS.get dauByDay d)) 0 windowDays in
       DauPoint.mk day (JS.round_div sum (Z.of_nat (List.length windowDays))))
    days.

(** [rec.daily_active_users || 1]. *)
Definition orOne (o : option Z) : Z :=
  match o with
  | Some v => if v =? 0 then 1 else v
  | None => 1
  end.

Definition aggregateAvgChatRequestsPerActiveUser : list AvgPoint.t :=
  map
    (fun day =>
       match find (fun r => String.eqb (Rec.day r) day) records with
       | None => AvgPoint.mk day 0
       | Some rec =>
           let totalChat :=
             fold_left
               (fun totalChat f =>
                  if negb (String.eqb (Entry.feature f) "code_completion")
                  then totalChat + JS.orZero (Entry.user_initiated_interaction_count f)
                  else totalChat)
               (JS.orNil (Rec.totals_by_feature rec)) 0 in
           let dau := orOne (Rec.daily_active_users rec) in
           AvgPoint.mk day (JS.round_div (100 * totalChat) dau)
       end)
    getSortedDays.

(** One value per key of [series], appended for the current day. *)
Definition push_all (series : JS.obj (list Z)) (names : list string)
    (value : string -> Z) : JS.obj (list Z) :=
  fold_left
    (fun series name => JS.upsert name [] (fun l => l ++ [value name]) series)
    names series.

Definition aggregateRequestsPerChatMode : DaySeries.t :=
  let byDay := getRecordsByDay in
  let days := getSortedDays in
  let series0 :=
    fold_left (fun series feat => JS.put (display feat) [] series) CHAT_MODES [] in
  let series :=
    fold_left
      (fun series day =>
         let counts0 :=
           fold_left (fun counts feat => JS.put (display feat) 0 counts)
             CHAT_MODES [] in
         let counts :=
           fold_left
             (fun counts r =>
                fold_left
                  (fun counts f =>
                     if JS.mem (Entry.feature f) CHAT_MODES
                     then JS.upsert (display (Entry.feature f)) 0
                            (fun v => v + JS.orZero (Entry.user_initiated_interaction_count f))
                            counts
                     else counts)
                  (JS.orNil (Rec.totals_by_feature r)) counts)
             (recordsOf byDay day) counts0 in
         push_all series (JS.keys series)
           (fun name => JS.orZero (JS.get counts name)))
      days series0 in
  DaySeries.mk days series.

Definition aggregateCodeCompletions : list Completion.t :=
  let byDay := getRecordsByDay in
  map
    (fun day =>
       let '(shown, accepted) :=
         fold_left
           (fun acc r =>
              fold_left
                (fun '(shown, accepted) f =>
                   if String.eqb (Entry.feature f) "code_completion"
                   then (shown + JS.orZero (Entry.code_generation_activity_count f),
                         accepted + JS.orZero (Entry.code_acceptance_activity_count f))
                   else (shown, accepted))
                (JS.orNil (Rec.totals_by_feature r)) acc)
           (recordsOf byDay day) (0, 0) in
       Completion.mk day shown accepted)
    getSortedDays.

(** [Math.round((part / total) * 10000) / 100], in hundredths. *)
Definition pct (part total : Z) : Z := JS.round_div (10000 * part) total.

Definition aggregateCodeCompletionAcceptanceRate : list RatePoint.t :=
  map
    (fun d =>
       RatePoint.mk (Completion.day d)
         (if Completion.shown d >? 0
          then pct (Completion.accepted d) (Completion.shown d) else 0))
    aggregateCodeCompletions.

(** The shared shape of [aggregateModelUsagePerDay] and
    [aggregateLanguageUsagePerDay]: [field] is the array read, [key] the
    category of an entry and [cnt] the amount it contributes.  The body is cut
    into the values it computes on the way: the five categories with the
    largest totals over all records ([topModels], [topLangs]), a day's counts
    per series key ([dayCounts]) and a day's share of one key. *)
Section UsagePerDay.

Variable field : Rec.t -> option (list Entry.t).
Variable key : Entry.t -> string.
Variable cnt : Entry.t -> Z.

Definition categoryTotals : JS.obj Z :=
  for_entries field
    (fun (totals : JS.obj Z) m => JS.upsert (key m) 0 (fun v => v + cnt m) totals)
    [].

Definition topKeys : list string :=
  let sorted := JS.sort (fun a b => snd b - snd a) categoryTotals in
  map fst (JS.slice sorted 0 5).

Definition dayCounts (dayRecords : list Rec.t) : JS.obj Z :=
  let dayCounts0 :=
    JS.put "Other" 0
      (fold_left (fun dayCounts m => JS.put m 0 dayCounts) topKeys []) in
  fold_left
    (fun dayCounts r =>
       fold_left
         (fun dayCounts m =>
            if JS.mem (key m) topKeys
            then JS.upsert (key m) 0 (fun v => v + cnt m) dayCounts
            else JS.upsert "Other" 0 (fun v => v + cnt m) dayCounts)
         (JS.orNil (field r)) dayCounts)
    dayRecords dayCounts0.

Definition dayShare (dayCounts : JS.obj Z) (k : string) : Z :=
  let total := JS.reduce Z.add 0 (JS.values dayCounts) in
  if total >? 0 then pct (JS.orZero (JS.get dayCounts k)) total else 0.

Definition usagePerDay : DaySeries.t :=
  let byDay := getRecordsByDay in
  let days := getSortedDays in
  let series0 :=
    JS.put "Other" [] (fold_left (fun series m => JS.put m [] series) topKeys []) in
  let series :=
    fold_left
      (fun series day =>
         push_all series (topKeys ++ ["Other"%string])
           (dayShare (dayCounts (recordsOf byDay day))))
      days series0 in
  DaySeries.mk days series.

End UsagePerDay.

Definition aggregateModelUsagePerDay : DaySeries.t :=
  usagePerDay Rec.totals_by_model_feature Entry.model
    (fun m =>
       JS.orZero (Entry.user_initiated_interaction_count m)
       + JS.orZero (Entry.code_generation_activity_count m)).

Definition aggregateLanguageUsagePerDay : DaySeries.t :=
  usagePerDay Rec.totals_by_language_feature Entry.language
    (fun l => JS.orZero (Entry.code_generation_activity_count l)).

Definition aggregateChatModelDistribution : list ModelCount.t :=
  let modelCounts :=
    for_entries Rec.totals_by_model_feature
      (fun (modelCounts : JS.obj Z) m =>
         if negb (String.eqb (Entry.feature m) "code_completion")
         then JS.upsert (Entry.model m) 0
                (fun v => v + JS.orZero (Entry.user_initiated_interaction_count m))
                modelCounts
         else modelCounts)
      [] in
  JS.sort (fun a b => ModelCount.count b - ModelCount.count a)
    (map (fun '(model, count) => ModelCount.mk model count) modelCounts).

(** The shared shape of [aggregateModelUsagePerChatMode] and
    [aggregateModelUsagePerLanguage] once the rows ([labels]), the columns
    ([topModels]) and the filled table [data] are known. *)
Definition pctMatrix (labels topModels : list string)
    (data : JS.obj (JS.obj Z)) : PctMatrix.t :=
  let seriesKeys := topModels ++ ["Other"%string] in
  let datasets :=
    map
      (fun model =>
         PctDataset.mk model
           (map
              (fun feat =>
                 let row := match JS.get data feat with Some r => r | None => [] end in
                 let total := JS.reduce Z.add 0 (JS.values row) in
                 if total >? 0 then pct (JS.orZero (JS.get row model)) total else 0)
              labels))
      seriesKeys in
  PctMatrix.mk labels datasets.

(** [data[row][col] += cnt] on a table whose rows exist. *)
Definition add_cell (row col : string) (cnt : Z) (data : JS.obj (JS.obj Z))
  : JS.obj (JS.obj Z) :=
  JS.upsert row [] (fun r => JS.upsert col 0 (fun v => v + cnt) r) data.

(** The table with a zero for every row of [rows] and every column of
    [topModels] and ['Other']. *)
Definition zero_table (rows topModels : list string) : JS.obj (JS.obj Z) :=
  fold_left
    (fun data row =>
       JS.put row
         (JS.put "Other" 0 (fold_left (fun r m => JS.put m 0 r) topModels []))
         data)
    rows [].

Definition aggregateModelUsagePerChatMode : PctMatrix.t :=
  let modelTotals :=
    for_entries Rec.totals_by_model_feature
      (fun (modelTotals : JS.obj Z) m =>
         if JS.mem (Entry.feature m) CHAT_MODES
         then JS.upsert (Entry.model m) 0
                (fun v => v + JS.orZero (Entry.user_initiated_interaction_count m))
                modelTotals
         else modelTotals)
      [] in
  let sorted := JS.sort (fun a b => snd b - snd a) modelTotals in
  let topModels := map fst (JS.slice sorted 0 5) in
  let data0 := zero_table (map display CHAT_MODES) topModels in
  let data :=
    for_entries Rec.totals_by_model_feature
      (fun data m =>
         if JS.mem (Entry.feature m) CHAT_MODES then
           let displayFeat := display (Entry.feature m) in
           let cnt := JS.orZero (Entry.user_initiated_interaction_count m) in
           if JS.mem (Entry.model m) topModels
           then add_cell displayFeat (Entry.model m) cnt data
           else add_cell displayFeat "Other" cnt data
         else data)
      data0 in
  pctMatrix (map display CHAT_MODES) topModels data.

Definition aggregateLanguageDistribution : list LanguageCount.t :=
  let langCounts :=
    for_entries Rec.totals_by_language_feature
      (fun (langCounts : JS.obj Z) l =>
         JS.upsert (Entry.language l) 0
           (fun v => v + JS.orZero (Entry.code_generation_activity_count l))
           langCounts)
      [] in
  JS.sort (fun a b => LanguageCount.count b - LanguageCount.count a)
    (map (fun '(language, count) => LanguageCount.mk language count) langCounts).

Definition aggregateModelUsagePerLanguage : PctMatrix.t :=
  let langTotals :=
    for_entries Rec.totals_by_language_model
      (fun (langTotals : JS.obj Z) l =>
         JS.upsert (Entry.language l) 0
           (fun v => v + JS.orZero (Entry.code_generation_activity_count l))
           langTotals)
      [] in
  let sortedLangs := JS.sort (fun a b => snd b - snd a) langTotals in
  let topLangs := map fst (JS.slice sortedLangs 0 5) in
  let modelTotals :=
    for_entries Rec.totals_by_language_model
      (fun (modelTotals : JS.obj Z) l =>
         if JS.mem (Entry.language l) topLangs
         then JS.upsert (Entry.model l) 0
                (fun v => v + JS.orZero (Entry.code_generation_activity_count l))
                modelTotals
         else modelTotals)
      [] in
  let sortedModels := JS.sort (fun a b => snd b - snd a) modelTotals in
  let topModels := map fst (JS.slice sortedModels 0 5) in
  let data0 := zero_table topLangs topModels in
  let data :=
    for_entries Rec.totals_by_language_model
      (fun data l =>
         if JS.mem (Entry.language l) topLangs then
           let cnt := JS.orZero (Entry.code_generation_activity_count l) in
           if JS.mem (Entry.model l) topModels
           then add_cell (Entry.language l) (Entry.model l) cnt data
           else add_cell (Entry.language l) "Other" cnt data
         else data)
      data0 in
  pctMatrix topLangs topModels data.

Definition aggregateDailyLocAddedDeleted : list LocPoint.t :=
  let byDay := getRecordsByDay in
  map
    (fun day =>
       let '(added, deleted) :=
         fold_left
           (fun '(added, deleted) r =>
              (added + JS.orZero (Rec.loc_added_sum r),
               deleted + JS.orZero (Rec.loc_deleted_sum r)))
           (recordsOf byDay day) (0, 0) in
       LocPoint.mk day added deleted)
    getSortedDays.

Definition aggregateUserInitiatedCodeChanges : SuggestedAdded.t :=
  let '(suggested, added) :=
    for_entries Rec.totals_by_feature
      (fun '(suggested, added) f =>
         if JS.mem (Entry.feature f) USER_INITIATED_FEATURES
         then (suggested + JS.orZero (Entry.loc_suggested_to_add_sum f),
               added + JS.orZero (Entry.loc_added_sum f))
         else (suggested, added))
      (0, 0) in
  SuggestedAdded.mk suggested added.

Definition aggregateAgentInitiatedCodeChanges : AddedDeleted.t :=
  let '(added, deleted) :=
    for_entries Rec.totals_by_feature
      (fun '(added, deleted) f =>
         if JS.mem (Entry.feature f) AGENT_FEATURES
         then (added + JS.orZero (Entry.loc_added_sum f),
               deleted + JS.orZero (Entry.loc_deleted_sum f))
         else (added, deleted))
      (0, 0) in
  AddedDeleted.mk added deleted.

(** The four [aggregate...CodeChangesBy...] helpers: entries of [field] that
    pass [keep] are summed per [key] over two numeric fields, and the rows are
    sorted by the sum of both, descending. *)
Definition codeChangesBy (field : Rec.t -> option (list Entry.t))
    (keep : Entry.t -> bool) (key : Entry.t -> string)
    (fst_field snd_field : Entry.t -> option Z) : list (string * (Z * Z)) :=
  let acc :=
    for_entries field
      (fun (acc : JS.obj (Z * Z)) m =>
         if keep m
         then JS.upsert (key m) (0, 0)
                (fun '(x, y) =>
                   (x + JS.orZero (fst_field m), y + JS.orZero (snd_field m)))
                acc
         else acc)
      [] in
  JS.sort
    (fun a b =>
       (fst (snd b) + snd (snd b)) - (fst (snd a) + snd (snd a)))
    acc.

Definition aggregateUserCodeChangesByModel : list ModelSA.t :=
  map (fun '(model, (s, a)) => ModelSA.mk model s a)
    (codeChangesBy Rec.totals_by_model_feature
       (fun m => negb (JS.mem (Entry.feature m) AGENT_FEATURES))
       Entry.model Entry.loc_suggested_to_add_sum Entry.loc_added_sum).

Definition aggregateAgentCodeChangesByModel : list ModelAD.t :=
  map (fun '(model, (a, d)) => ModelAD.mk model a d)
    (codeChangesBy Rec.totals_by_model_feature
       (fun m => JS.mem (Entry.feature m) AGENT_FEATURES)
       Entry.model Entry.loc_added_sum Entry.loc_deleted_sum).

Definition aggregateUserCodeChangesByLanguage : list LanguageSA.t :=
  map (fun '(language, (s, a)) => LanguageSA.mk language s a)
    (codeChangesBy Rec.totals_by_language_feature
       (fun l => negb (JS.mem (Entry.feature l) AGENT_FEATURES))
       Entry.language Entry.loc_suggested_to_add_sum Entry.loc_added_sum).

Definition aggregateAgentCodeChangesByLanguage : list LanguageAD.t :=
  map (fun '(language, (a, d)) => LanguageAD.mk language a d)
    (codeChangesBy Rec.totals_by_language_feature
       (fun l => JS.mem (Entry.feature l) AGENT_FEATURES)
       Entry.language Entry.loc_added_sum Entry.loc_deleted_sum).

End Aggregation.

(** *** Report generation *)

Local Open Scope string_scope.
Local Open Scope list_scope.

(** A template literal: the pieces in order. *)
Definition tpl (pieces : list string) : string := String.concat "" pieces.

(** [${x}] for a string that may be [null]. *)
Definition str_or_null (o : option string) : string :=
  match o with Some s => s | None => "null" end.

Definition chart (title : string) (type : ChartType) (stacked : bool)
    (labels : list string) (datasets : list Dataset.t) : Chart.t :=
  Chart.mk (Some title) type stacked labels datasets.

Definition series_datasets (series : JS.obj (list Z)) (unit : Z -> num)
  : list Dataset.t :=
  map (fun '(label, data) => Dataset.mk label (map unit data)) series.

Definition pct_datasets (m : PctMatrix.t) : list Dataset.t :=
  map (fun d => Dataset.mk (PctDataset.label d) (map Hundredths (PctDataset.data d)))
    (PctMatrix.datasets m).

(** [records.length > 0 ? Math.round(sum of daily_active_users / records.length) : 0]. *)
Definition avgDailyActiveUsers (records : list Rec.t) : Z :=
  if Z.of_nat (List.length records) >? 0
  then JS.round_div
         (JS.reduce (fun s r => s + JS.orZero (Rec.daily_active_users r)) 0 records)
         (Z.of_nat (List.length records))
  else 0.

Section Reports.

Variable records : list Rec.t.

Definition copilotUsageReport : Response.t :=
  let dailyActive := aggregateDailyActiveUsers records in
  let weeklyActive := aggregateWeeklyActiveUsers records in
  let avgChat := aggregateAvgChatRequestsPerActiveUser records in
  let chatMode := aggregateRequestsPerChatMode records in
  let completions := aggregateCodeCompletions records in
  let acceptRate := aggregateCodeCompletionAcceptanceRate records in
  let modelPerDay := aggregateModelUsagePerDay records in
  let chatModelDist := aggregateChatModelDistribution records in
  let modelPerChatMode := aggregateModelUsagePerChatMode records in
  let langPerDay := aggregateLanguageUsagePerDay records in
  let langDist := aggregateLanguageDistribution records in
  let modelPerLang := aggregateModelUsagePerLanguage records in
  let maxDau :=
    JS.reduce (fun m r => Z.max m (JS.orZero (Rec.daily_active_users r))) 0 records in
  let avgDau := avgDailyActiveUsers records in
  let '(totalActivity, agentActivity) :=
    for_entries records Rec.totals_by_feature
      (fun '(totalActivity, agentActivity) f =>
         let act :=
           JS.orZero (Entry.user_initiated_interaction_count f)
           + JS.orZero (Entry.code_generation_activity_count f) in
         (totalActivity + act,
          if JS.mem (Entry.feature f) AGENT_FEATURES
          then agentActivity + act else agentActivity))
      (0, 0) in
  let agentAdoptionPct :=
    if totalActivity >? 0 then JS.fixed1 100 agentActivity totalActivity
    else "0.0" in
  let mostUsedChatModel :=
    match chatModelDist with
    | m :: _ => ModelCount.model m
    | [] => "N/A"
    end in
  Response.mk
    (JS.join_lines
       [ "# Copilot IDE Usage";
         "";
         "| Avg Daily Active Users | Peak DAU | Agent Activity | Most Used Chat Model |";
         "|:---:|:---:|:---:|:---:|";
         tpl [ "| **"; fmt avgDau; "** | **"; fmt maxDau; "** | **";
               agentAdoptionPct; "%** of total | **"; mostUsedChatModel;
               "** |" ] ])
    None
    (Some
       [ chart "IDE Daily Active Users" line false
           (map DauPoint.day dailyActive)
           [ Dataset.mk "Active Users"
               (map (fun d => Int (DauPoint.users d)) dailyActive) ];
         chart "IDE Weekly Active Users" line false
           (map DauPoint.day weeklyActive)
           [ Dataset.mk "Weekly Active Users"
               (map (fun d => Int (DauPoint.users d)) weeklyActive) ];
         chart "Average Chat Requests per Active User" line false
           (map AvgPoint.day avgChat)
           [ Dataset.mk "Avg Requests"
               (map (fun d => Hundredths (AvgPoint.avg d)) avgChat) ];
         chart "Requests per Chat Mode" bar true
           (DaySeries.days chatMode)
           (series_datasets (DaySeries.series chatMode) Int);
         chart "Code Completions" line false
           (map Completion.day completions)
           [ Dataset.mk "Shown"
               (map (fun d => Int (Completion.shown d)) completions);
             Dataset.mk "Accepted"
               (map (fun d => Int (Completion.accepted d)) completions) ];
         chart "Code Completions Acceptance Rate" line false
           (map RatePoint.day acceptRate)
           [ Dataset.mk "Acceptance Rate (%)"
               (map (fun d => Hundredths (RatePoint.rate d)) acceptRate) ];
         chart "Model Usage per Day" bar true
           (DaySeries.days modelPerDay)
           (series_datasets (DaySeries.series modelPerDay) Hundredths);
         chart "Chat Model Usage" pie false
           (map ModelCount.model chatModelDist)
           [ Dataset.mk "Interactions"
               (map (fun d => Int (ModelCount.count d)) chatModelDist) ];
         chart "Model Usage per Chat Mode" bar false
           (PctMatrix.labels modelPerChatMode)
           (pct_datasets modelPerChatMode);
         chart "Language Usage per Day" bar true
           (DaySeries.days langPerDay)
           (series_datasets (DaySeries.series langPerDay) Hundredths);
         chart "Language Usage" pie false
           (map LanguageCount.language langDist)
           [ Dataset.mk "Code Generations"
               (map (fun d => Int (LanguageCount.count d)) langDist) ];
         chart "Model Usage per Language" bar false
           (PctMatrix.labels modelPerLang)
           (pct_datasets modelPerLang) ]).

Definition codeGenerationReport (totalLocAdded totalLocDeleted totalDays : Z)
  : Response.t :=
  let dailyLoc := aggregateDailyLocAddedDeleted records in
  let userChanges := aggregateUserInitiatedCodeChanges records in
  let agentChanges := aggregateAgentInitiatedCodeChanges records in
  let userByModel := aggregateUserCodeChangesByModel records in
  let agentByModel := aggregateAgentCodeChangesByModel records in
  let userByLang := aggregateUserCodeChangesByLanguage records in
  let agentByLang := aggregateAgentCodeChangesByLanguage records in
  let totalLocChanged := totalLocAdded + totalLocDeleted in
  let agentLocTotal :=
    AddedDeleted.added agentChanges + AddedDeleted.deleted agentChanges in
  let agentContribPct :=
    if totalLocChanged >? 0 then JS.fixed1 100 agentLocTotal totalLocChanged
    else "0.0" in
  let avgAgentDeletedPerDay :=
    if totalDays >? 0
    then JS.round_div (AddedDeleted.deleted agentChanges) totalDays else 0 in
  Response.mk
    (JS.join_lines
       [ "# IDE Code Generation";
         "";
         "| Lines of Code Changed with AI | Agent Contribution | Avg Agent Deletions/Day |";
         "|:---:|:---:|:---:|";
         tpl [ "| **"; fmtShort totalLocChanged; "** ("; fmt totalLocChanged;
               ") | **"; agentContribPct; "%** | **";
               fmt avgAgentDeletedPerDay; "** |" ] ])
    None
    (Some
       [ chart "Daily Total of Lines Added and Deleted" bar false
           (map LocPoint.day dailyLoc)
           [ Dataset.mk "Added" (map (fun d => Int (LocPoint.added d)) dailyLoc);
             Dataset.mk "Deleted"
               (map (fun d => Int (LocPoint.deleted d)) dailyLoc) ];
         chart "User-Initiated Code Changes" bar false
           [ "Suggested to Add"; "Actually Added" ]
           [ Dataset.mk "Lines of Code"
               [ Int (SuggestedAdded.suggested userChanges);
                 Int (SuggestedAdded.added userChanges) ] ];
         chart "Agent-Initiated Code Changes" bar false
           [ "Added"; "Deleted" ]
           [ Dataset.mk "Lines of Code"
               [ Int (AddedDeleted.added agentChanges);
                 Int (AddedDeleted.deleted agentChanges) ] ];
         chart "User-Initiated Code Changes per Model" bar false
           (map ModelSA.model userByModel)
           [ Dataset.mk "Suggested"
               (map (fun m => Int (ModelSA.suggested m)) userByModel);
             Dataset.mk "Added"
               (map (fun m => Int (ModelSA.added m)) userByModel) ];
         chart "Agent-Initiated Code Changes per Model" bar false
           (map ModelAD.model agentByModel)
           [ Dataset.mk "Added"
               (map (fun m => Int (ModelAD.added m)) agentByModel);
             Dataset.mk "Deleted"
               (map (fun m => Int (ModelAD.deleted m)) agentByModel) ];
         chart "User-Initiated Code Changes per Language" bar false
           (map LanguageSA.language userByLang)
           [ Dataset.mk "Suggested"
               (map (fun l => Int (LanguageSA.suggested l)) userByLang);
             Dataset.mk "Added"
               (map (fun l => Int (LanguageSA.added l)) userByLang) ];
         chart "Agent-Initiated Code Changes per Language" bar false
           (map LanguageAD.language agentByLang)
           [ Dataset.mk "Added"
               (map (fun l => Int (LanguageAD.added l)) agentByLang);
             Dataset.mk "Deleted"
               (map (fun l => Int (LanguageAD.deleted l)) agentByLang) ] ]).

(** The totals [generateReports] computes once and shares between reports. *)
Definition agentAndChatActivity : Z * Z :=
  for_entries records Rec.totals_by_feature
    (fun '(totalAgentActivity, totalChatActivity) f =>
       (if JS.mem (Entry.feature f) AGENT_FEATURES
        then totalAgentActivity
             + (JS.orZero (Entry.user_initiated_interaction_count f)
                + JS.orZero (Entry.code_generation_activity_count f))
        else totalAgentActivity,
        if JS.mem (Entry.feature f) CHAT_MODES
        then totalChatActivity + JS.orZero (Entry.user_initiated_interaction_count f)
        else totalChatActivity))
    (0, 0).

Definition executiveSummaryReport (period : option string * option string)
    (allUsers totalInteractions totalCodeGenerated totalLocAdded totalLocDeleted
     totalAgentActivity totalChatActivity totalDays : Z) : Response.t :=
  let activeUsers := allUsers in
  Response.mk
    (JS.join_lines
       [ "# 📊 Executive Summary";
         tpl [ "**Period:** "; str_or_null (fst period); " to ";
               str_or_null (snd period); JS.nl ];
         "| Metric | Value |";
         "|--------|-------|";
         tpl [ "| Peak Daily Active Users | "; fmt allUsers; " |" ];
         tpl [ "| Total Interactions | "; fmt totalInteractions; " |" ];
         tpl [ "| Code Generations | "; fmt totalCodeGenerated; " |" ];
         tpl [ "| Lines Added | "; fmt totalLocAdded; " |" ];
         tpl [ "| Lines Deleted | "; fmt totalLocDeleted; " |" ];
         tpl [ "| Agent Activity (interactions) | "; fmt totalAgentActivity; " |" ];
         tpl [ "| Chat Activity (interactions) | "; fmt totalChatActivity; " |" ];
         "";
         "## Key Insights";
         tpl [ "- Average **";
               if activeUsers >? 0
               then JS.fixed1 1 totalInteractions activeUsers else "0";
               "** interactions per active user per day." ];
         tpl [ "- Agent features account for **";
               if totalInteractions >? 0
               then JS.fixed1 100 totalAgentActivity
                      (totalInteractions + totalCodeGenerated)
               else "0";
               "%** of total activity." ];
         tpl [ "- Average **";
               if activeUsers >? 0
               then JS.num_str (JS.round_div totalLocAdded totalDays) else "0";
               "** lines of code added per day." ] ])
    (Some
       (Chart.mk None doughnut false
          [ "Interactions"; "Code Generations" ]
          [ Dataset.mk "Activity Split"
              [ Int totalInteractions; Int totalCodeGenerated ] ]))
    None.

(** [trends.reduce(pick)] has no initial value: on no trend at all it throws. *)
Definition reduce_or_throw {A : Type} (f : A -> A -> A) (l : list A) : Exn A :=
  match JS.reduce1 f l with
  | Some a => Return a
  | None => Throw (TypeError "Reduce of empty array with no initial value")
  end.

Definition usageTrendsReport (period : option string * option string)
    (trends : list DayRow.t) : Exn Response.t :=
  let rows :=
    map
      (fun t =>
         tpl [ "| "; DayRow.day t; " | "; fmt (DayRow.activeUsers t); " | ";
               fmt (DayRow.interactions t); " | "; fmt (DayRow.codeGenerated t);
               " | "; fmt (DayRow.locAdded t); " |" ])
      trends in
  let peakUsers := fmt_max (JS.max_of (map DayRow.activeUsers trends)) in
  peakUsersRow <-
    reduce_or_throw
      (fun a b => if DayRow.activeUsers a >? DayRow.activeUsers b then a else b)
      trends ;;
  let peakInteractions := fmt_max (JS.max_of (map DayRow.interactions trends)) in
  peakInteractionsRow <-
    reduce_or_throw
      (fun a b => if DayRow.interactions a >? DayRow.interactions b then a else b)
      trends ;;
  Return
    (Response.mk
       (JS.join_lines
          ([ "# 📈 Usage Trends";
             tpl [ "**Period:** "; str_or_null (fst period); " to ";
                   str_or_null (snd period); JS.nl ];
             "| Day | Active Users | Interactions | Code Generated | LOC Added |";
             "|-----|-------------|-------------|----------------|-----------|" ]
           ++ rows
           ++ [ "";
                "## Summary";
                tpl [ "- Peak active users: **"; peakUsers; "** on ";
                      DayRow.day peakUsersRow ];
                tpl [ "- Peak interactions: **"; peakInteractions; "** on ";
                      DayRow.day peakInteractionsRow ] ]))
       (Some
          (Chart.mk None line false
             (map DayRow.day trends)
             [ Dataset.mk "Active Users"
                 (map (fun t => Int (DayRow.activeUsers t)) trends);
               Dataset.mk "Interactions"
                 (map (fun t => Int (DayRow.interactions t)) trends) ]))
       None).

Definition featureAdoptionReport (features : list FeatureRow.t) : Response.t :=
  let first := List.hd_error features in
  Response.mk
    (JS.join_lines
       ([ "# 🤖 Feature Adoption";
          JS.cat JS.nl "| Feature | Interactions | Code Generated | LOC Added |";
          "|---------|-------------|----------------|-----------|" ]
        ++ map
             (fun f =>
                tpl [ "| "; FeatureRow.feature f; " | ";
                      fmt (FeatureRow.interactions f); " | ";
                      fmt (FeatureRow.codeGenerated f); " | ";
                      fmt (FeatureRow.locAdded f); " |" ])
             features
        ++ [ "";
             "## Insights";
             tpl [ "- Most used feature: **";
                   match first with
                   | Some f => FeatureRow.feature f
                   | None => "undefined"
                   end;
                   "** with ";
                   fmt match first with
                       | Some f => FeatureRow.interactions f
                       | None => 0
                       end;
                   " interactions." ];
             tpl [ "- "; JS.num_str (Z.of_nat (List.length features));
                   " distinct features in use across the organization." ] ]))
    (Some
       (Chart.mk None bar false
          (map FeatureRow.feature features)
          [ Dataset.mk "Interactions"
              (map (fun f => Int (FeatureRow.interactions f)) features);
            Dataset.mk "Code Generated"
              (map (fun f => Int (FeatureRow.codeGenerated f)) features) ]))
    None.

Definition languageBreakdownReport (languages : list LanguageRow.t)
  : Response.t :=
  Response.mk
    (JS.join_lines
       ([ "# 💻 Language Breakdown";
          tpl [ JS.nl; "Top 15 languages by code generation activity."; JS.nl ];
          "| Language | Code Generated | LOC Added |";
          "|----------|----------------|-----------|" ]
        ++ map
             (fun l =>
                tpl [ "| "; LanguageRow.language l; " | ";
                      fmt (LanguageRow.codeGenerated l); " | ";
                      fmt (LanguageRow.locAdded l); " |" ])
             languages))
    (Some
       (Chart.mk None bar false
          (map LanguageRow.language languages)
          [ Dataset.mk "Code Generated"
              (map (fun l => Int (LanguageRow.codeGenerated l)) languages);
            Dataset.mk "LOC Added"
              (map (fun l => Int (LanguageRow.locAdded l)) languages) ]))
    None.

Definition modelUsageReport (models : list ModelRow.t) : Response.t :=
  Response.mk
    (JS.join_lines
       ([ "# 🧠 Model Usage";
          tpl [ JS.nl; "Top 15 models by interaction count."; JS.nl ];
          "| Model | Interactions | Code Generated |";
          "|-------|-------------|----------------|" ]
        ++ map
             (fun m =>
                tpl [ "| "; ModelRow.model m; " | ";
                      fmt (ModelRow.interactions m); " | ";
                      fmt (ModelRow.codeGenerated m); " |" ])
             models))
    (Some
       (Chart.mk None bar false
          (map ModelRow.model models)
          [ Dataset.mk "Interactions"
              (map (fun m => Int (ModelRow.interactions m)) models);
            Dataset.mk "Code Generated"
              (map (fun m => Int (ModelRow.codeGenerated m)) models) ]))
    None.

Definition ideDistributionReport (ides : list IdeRow.t) : Response.t :=
  Response.mk
    (JS.join_lines
       ([ "# 🖥️ IDE Distribution";
          JS.cat JS.nl "| IDE | Interactions | Code Generated |";
          "|-----|-------------|----------------|" ]
        ++ map
             (fun i =>
                tpl [ "| "; IdeRow.ide i; " | "; fmt (IdeRow.interactions i);
                      " | "; fmt (IdeRow.codeGenerated i); " |" ])
             ides))
    (Some
       (Chart.mk None pie false
          (map IdeRow.ide ides)
          [ Dataset.mk "Interactions"
              (map (fun i => Int (IdeRow.interactions i)) ides) ]))
    None.

Definition topUsersReport (allUsers totalInteractions totalCodeGenerated : Z)
  : Response.t :=
  Response.mk
    (JS.join_lines
       [ "# 🏆 Top Users";
         tpl [ JS.nl;
               "> Per-user data is not available in enterprise-level reports. This report requires the user-level Copilot metrics export.";
               JS.nl ];
         "## Enterprise Summary";
         "| Metric | Value |";
         "|--------|-------|";
         tpl [ "| Peak Daily Active Users | "; fmt allUsers; " |" ];
         tpl [ "| Total Interactions | "; fmt totalInteractions; " |" ];
         tpl [ "| Total Code Generations | "; fmt totalCodeGenerated; " |" ] ])
    None
    None.

(** [generateReports()]: the reports are assigned to [preGeneratedReports]
    one after the other, so an exception leaves the earlier assignments in
    place.  The result is the store afterwards and how the call ended. *)
Definition generateReports (preGeneratedReports : JS.obj Response.t)
  : JS.obj Response.t * Exn unit :=
  let period := getDateRange records in
  let allUsers := getUniqueUsers records in
  let totalInteractions := sumField records Rec.user_initiated_interaction_count in
  let totalCodeGenerated := sumField records Rec.code_generation_activity_count in
  let totalLocAdded := sumField records Rec.loc_added_sum in
  let totalLocDeleted := sumField records Rec.loc_deleted_sum in
  let totalDays := Z.of_nat (List.length records) in
  let '(totalAgentActivity, totalChatActivity) := agentAndChatActivity in
  let trends := aggregateByDay records in
  let features := aggregateByFeature records in
  let languages := aggregateByLanguage records in
  let models := aggregateByModel records in
  let ides := aggregateByIDE records in
  let topUsers := aggregateTopUsers 20 in
  let store := JS.put "copilot-usage" copilotUsageReport preGeneratedReports in
  let store :=
    JS.put "code-generation"
      (codeGenerationReport totalLocAdded totalLocDeleted totalDays) store in
  let store :=
    JS.put "executive-summary"
      (executiveSummaryReport period allUsers totalInteractions
         totalCodeGenerated totalLocAdded totalLocDeleted totalAgentActivity
         totalChatActivity totalDays)
      store in
  match usageTrendsReport period trends with
  | Throw e => (store, Throw e)
  | Return usageTrends =>
      let store := JS.put "usage-trends" usageTrends store in
      let store := JS.put "feature-adoption" (featureAdoptionReport features) store in
      let store :=
        JS.put "language-breakdown" (languageBreakdownReport languages) store in
      let store := JS.put "model-usage" (modelUsageReport models) store in
      let store := JS.put "ide-distribution" (ideDistributionReport ides) store in
      let store :=
        JS.put "top-users"
          (topUsersReport allUsers totalInteractions totalCodeGenerated) store in
      (store, Return tt)
  end.

End Reports.

(** *** Query handler *)

Definition report_verbs : list string :=
  [ "generate"; "create"; "build"; "make"; "produce"; "give me" ].

Definition report_nouns : list string :=
  [ "report"; "dashboard"; "breakdown"; "analysis"; "overview" ].


(** A word-bounded alternative ([\b], one of [alts], [\b]) at the current
    position, case-insensitively: for every alternative that matches, the last
    character consumed and the text after it. *)
Definition word_alt (alts : list string) (prev : option ascii) (s : string)
  : list (option ascii * string) :=
  if JS.boundary prev s then
    flat_map
      (fun lit =>
         match JS.strip_ci lit s None with
         | Some (last, rest) => if JS.boundary last rest then [(last, rest)] else []
         | None => []
         end)
      alts
  else [].

(** The tail of the report pattern from the current position: any run of
    characters other than line terminators, then a word-bounded noun. *)
Fixpoint scan_noun (prev : option ascii) (s : string) : bool :=
  match word_alt report_nouns prev s with
  | _ :: _ => true
  | [] =>
      match s with
      | EmptyString => false
      | String c s' =>
          if JS.is_line_terminator c then false else scan_noun (Some c) s'
      end
  end.

(** The whole report pattern, tried at every start position: a word-bounded
    verb, then [scan_noun]. *)
Fixpoint scan_verb (prev : option ascii) (s : string) : bool :=
  existsb (fun '(last, rest) => scan_noun last rest) (word_alt report_verbs prev s)
  || match s with
     | EmptyString => false
     | String c s' => scan_verb (Some c) s'
     end.

(** The [isReport] test of [handleQuery]: the case-insensitive pattern
    "word-bounded verb, anything on the same line, word-bounded noun". *)
Definition isReport (prompt : string) : bool := scan_verb None prompt.

(** The mention pattern of [handleQuery]: an at-sign, a word character, then
    word characters or hyphens; the captured handle of the leftmost match. *)
Fixpoint userMatch (prompt : string) : option string :=
  match prompt with
  | EmptyString => None
  | String c rest =>
      if Ascii.eqb c "@" && JS.word_opt (JS.head rest)
      then Some (JS.take_while (fun x => JS.is_word x || Ascii.eqb x "-") rest)
      else userMatch rest
  end.

(** The literal [lit] at the start of [s]: the text after it. *)
Fixpoint strip (lit s : string) : option string :=
  match lit with
  | EmptyString => Some s
  | String a lit' =>
      match s with
      | EmptyString => None
      | String c s' => if Ascii.eqb a c then strip lit' s' else None
      end
  end.

(** The limit pattern of [handleQuery] ([top], white space, digits): the
    captured digits of the leftmost match. *)
Fixpoint limitMatch (lower : string) : option string :=
  let here :=
    match strip "top" lower with
    | Some after =>
        match JS.head after with
        | Some c =>
            if JS.is_space c then
              match JS.take_while JS.is_digit (JS.drop_while JS.is_space after) with
              | EmptyString => None
              | digits => Some digits
              end
            else None
        | None => None
        end
    | None => None
    end in
  match here with
  | Some digits => Some digits
  | None =>
      match lower with
      | EmptyString => None
      | String _ rest => limitMatch rest
      end
  end.

Section Query.

Variable records : list Rec.t.

Definition languageReport : Response.t :=
  let langDist := aggregateLanguageDistribution records in
  let langPerDay := aggregateLanguageUsagePerDay records in
  let userByLang := JS.slice (aggregateUserCodeChangesByLanguage records) 0 10 in
  let agentByLang := JS.slice (aggregateAgentCodeChangesByLanguage records) 0 10 in
  let top := JS.slice langDist 0 10 in
  Response.mk
    (JS.join_lines
       ([ "# Language Adoption Report";
          JS.cat JS.nl "| Language | Code Generations | % of Total |";
          "|----------|-----------------|------------|" ]
        ++ map
             (fun l =>
                let total :=
                  JS.reduce (fun s x => s + LanguageCount.count x) 0 langDist in
                tpl [ "| "; LanguageCount.language l; " | ";
                      fmt (LanguageCount.count l); " | ";
                      JS.fixed1 100 (LanguageCount.count l) total; "% |" ])
             top))
    None
    (Some
       [ chart "Language Distribution" pie false
           (map LanguageCount.language top)
           [ Dataset.mk "Code Generations"
               (map (fun l => Int (LanguageCount.count l)) top) ];
         chart "Language Usage Trend (%)" bar true
           (DaySeries.days langPerDay)
           (series_datasets (DaySeries.series langPerDay) Hundredths);
         chart "User-Initiated LOC by Language" bar false
           (map LanguageSA.language userByLang)
           [ Dataset.mk "Suggested"
               (map (fun l => Int (LanguageSA.suggested l)) userByLang);
             Dataset.mk "Added"
               (map (fun l => Int (LanguageSA.added l)) userByLang) ];
         chart "Agent-Initiated LOC by Language" bar false
           (map LanguageAD.language agentByLang)
           [ Dataset.mk "Added"
               (map (fun l => Int (LanguageAD.added l)) agentByLang);
             Dataset.mk "Deleted"
               (map (fun l => Int (LanguageAD.deleted l)) agentByLang) ] ]).

Definition modelReport : Response.t :=
  let modelDist := aggregateChatModelDistribution records in
  let modelPerDay := aggregateModelUsagePerDay records in
  let modelPerChat := aggregateModelUsagePerChatMode records in
  let agentByModel := JS.slice (aggregateAgentCodeChangesByModel records) 0 10 in
  let top := JS.slice modelDist 0 10 in
  Response.mk
    (JS.join_lines
       ([ "# Model Usage Report";
          JS.cat JS.nl "| Model | Interactions | % of Total |";
          "|-------|-------------|------------|" ]
        ++ map
             (fun m =>
                let total :=
                  JS.reduce (fun s x => s + ModelCount.count x) 0 modelDist in
                tpl [ "| "; ModelCount.model m; " | "; fmt (ModelCount.count m);
                      " | "; JS.fixed1 100 (ModelCount.count m) total; "% |" ])
             top))
    None
    (Some
       [ chart "Chat Model Distribution" pie false
           (map ModelCount.model top)
           [ Dataset.mk "Interactions"
               (map (fun m => Int (ModelCount.count m)) top) ];
         chart "Model Usage Trend (%)" bar true
           (DaySeries.days modelPerDay)
           (series_datasets (DaySeries.series modelPerDay) Hundredths);
         chart "Model Usage per Chat Mode (%)" bar false
           (PctMatrix.labels modelPerChat)
           (pct_datasets modelPerChat);
         chart "Agent LOC by Model" bar false
           (map ModelAD.model agentByModel)
           [ Dataset.mk "Added"
               (map (fun m => Int (ModelAD.added m)) agentByModel);
             Dataset.mk "Deleted"
               (map (fun m => Int (ModelAD.deleted m)) agentByModel) ] ]).

Definition userVsAgentChart (userChanges : SuggestedAdded.t)
    (agentChanges : AddedDeleted.t) : Chart.t :=
  chart "User vs Agent Code Changes" bar false
    [ "User Suggested"; "User Added"; "Agent Added"; "Agent Deleted" ]
    [ Dataset.mk "Lines of Code"
        [ Int (SuggestedAdded.suggested userChanges);
          Int (SuggestedAdded.added userChanges);
          Int (AddedDeleted.added agentChanges);
          Int (AddedDeleted.deleted agentChanges) ] ].

Definition featureReport : Response.t :=
  let features := aggregateByFeature records in
  let chatMode := aggregateRequestsPerChatMode records in
  let agentChanges := aggregateAgentInitiatedCodeChanges records in
  let userChanges := aggregateUserInitiatedCodeChanges records in
  let totalLoc :=
    sumField records Rec.loc_added_sum + sumField records Rec.loc_deleted_sum in
  let agentPct :=
    if totalLoc >? 0
    then JS.fixed1 100
           (AddedDeleted.added agentChanges + AddedDeleted.deleted agentChanges)
           totalLoc
    else "0" in
  Response.mk
    (JS.join_lines
       ([ "# Feature & Agent Adoption Report";
          JS.cat JS.nl "| Feature | Interactions | Code Generated | LOC Added |";
          "|---------|-------------|----------------|-----------|" ]
        ++ map
             (fun f =>
                tpl [ "| "; display_or (FeatureRow.feature f); " | ";
                      fmt (FeatureRow.interactions f); " | ";
                      fmt (FeatureRow.codeGenerated f); " | ";
                      fmt (FeatureRow.locAdded f); " |" ])
             features
        ++ [ tpl [ JS.nl; "> **Agent Contribution:** "; agentPct;
                   "% of all lines changed" ] ]))
    None
    (Some
       [ chart "Interactions by Feature" bar false
           (map (fun f => display_or (FeatureRow.feature f)) features)
           [ Dataset.mk "Interactions"
               (map (fun f => Int (FeatureRow.interactions f)) features) ];
         chart "Requests per Chat Mode (Daily)" bar true
           (DaySeries.days chatMode)
           (series_datasets (DaySeries.series chatMode) Int);
         userVsAgentChart userChanges agentChanges;
         chart "Feature LOC Contribution" pie false
           (map (fun f => display_or (FeatureRow.feature f)) features)
           [ Dataset.mk "LOC Added"
               (map (fun f => Int (FeatureRow.locAdded f)) features) ] ]).

Definition trendReport : Response.t :=
  let dailyActive := aggregateDailyActiveUsers records in
  let weeklyActive := aggregateWeeklyActiveUsers records in
  let avgChat := aggregateAvgChatRequestsPerActiveUser records in
  let completions := aggregateCodeCompletions records in
  Response.mk
    (JS.join_lines
       [ "# Usage Trends Report";
         tpl [ JS.nl; "**Period:** "; str_or_null (fst (getDateRange records));
               " to "; str_or_null (snd (getDateRange records)) ];
         tpl [ JS.nl; "- Peak daily active users: **";
               fmt_max (JS.max_of (map DauPoint.users dailyActive)); "**" ];
         tpl [ "- Peak weekly active users: **";
               fmt_max (JS.max_of (map DauPoint.users weeklyActive)); "**" ];
         tpl [ "- Average chat requests per user: **";
               JS.fixed1 1
                 (JS.reduce (fun s d => s + AvgPoint.avg d) 0 avgChat)
                 (100 * Z.of_nat (List.length avgChat));
               "**" ] ])
    None
    (Some
       [ chart "Daily Active Users" line false
           (map DauPoint.day dailyActive)
           [ Dataset.mk "Active Users"
               (map (fun d => Int (DauPoint.users d)) dailyActive) ];
         chart "Weekly Active Users (7-day rolling)" line false
           (map DauPoint.day weeklyActive)
           [ Dataset.mk "Weekly Active"
               (map (fun d => Int (DauPoint.users d)) weeklyActive) ];
         chart "Avg Chat Requests per Active User" line false
           (map AvgPoint.day avgChat)
           [ Dataset.mk "Avg Requests"
               (map (fun d => Hundredths (AvgPoint.avg d)) avgChat) ];
         chart "Code Completions (Shown vs Accepted)" line false
           (map Completion.day completions)
           [ Dataset.mk "Shown"
               (map (fun d => Int (Completion.shown d)) completions);
             Dataset.mk "Accepted"
               (map (fun d => Int (Completion.accepted d)) completions) ] ]).

Definition codeReport : Response.t :=
  let dailyLoc := aggregateDailyLocAddedDeleted records in
  let userChanges := aggregateUserInitiatedCodeChanges records in
  let agentChanges := aggregateAgentInitiatedCodeChanges records in
  let agentByModel := JS.slice (aggregateAgentCodeChangesByModel records) 0 8 in
  Response.mk
    (JS.join_lines
       [ "# Code Generation Report";
         JS.cat JS.nl "| Metric | Value |";
         "|--------|-------|";
         tpl [ "| Total Lines Added | "; fmt (sumField records Rec.loc_added_sum);
               " |" ];
         tpl [ "| Total Lines Deleted | ";
               fmt (sumField records Rec.loc_deleted_sum); " |" ];
         tpl [ "| User-Initiated Suggested | ";
               fmt (SuggestedAdded.suggested userChanges); " |" ];
         tpl [ "| User-Initiated Added | ";
               fmt (SuggestedAdded.added userChanges); " |" ];
         tpl [ "| Agent Added | "; fmt (AddedDeleted.added agentChanges); " |" ];
         tpl [ "| Agent Deleted | "; fmt (AddedDeleted.deleted agentChanges);
               " |" ] ])
    None
    (Some
       [ chart "Daily Lines Added & Deleted" bar false
           (map LocPoint.day dailyLoc)
           [ Dataset.mk "Added" (map (fun d => Int (LocPoint.added d)) dailyLoc);
             Dataset.mk "Deleted"
               (map (fun d => Int (LocPoint.deleted d)) dailyLoc) ];
         userVsAgentChart userChanges agentChanges;
         chart "Agent Code Changes by Model" bar false
           (map ModelAD.model agentByModel)
           [ Dataset.mk "Added"
               (map (fun m => Int (ModelAD.added m)) agentByModel);
             Dataset.mk "Deleted"
               (map (fun m => Int (ModelAD.deleted m)) agentByModel) ] ]).

Definition customReport : Response.t :=
  let dailyActive := aggregateDailyActiveUsers records in
  let features := aggregateByFeature records in
  let modelDist := JS.slice (aggregateChatModelDistribution records) 0 8 in
  let langDist := JS.slice (aggregateLanguageDistribution records) 0 8 in
  Response.mk
    (JS.join_lines
       [ "# Custom Report";
         tpl [ JS.nl; "**Period:** "; str_or_null (fst (getDateRange records));
               " to "; str_or_null (snd (getDateRange records)) ];
         JS.cat JS.nl "| Metric | Value |";
         "|--------|-------|";
         tpl [ "| Active Users | ";
               fmt (countUsersWhere records
                      (fun r =>
                         JS.orZero (Rec.user_initiated_interaction_count r) >? 0));
               " |" ];
         tpl [ "| Total Interactions | ";
               fmt (sumField records Rec.user_initiated_interaction_count); " |" ];
         tpl [ "| Code Generations | ";
               fmt (sumField records Rec.code_generation_activity_count); " |" ];
         tpl [ "| Lines Added | "; fmt (sumField records Rec.loc_added_sum);
               " |" ] ])
    None
    (Some
       [ chart "Daily Active Users" line false
           (map DauPoint.day dailyActive)
           [ Dataset.mk "Active Users"
               (map (fun d => Int (DauPoint.users d)) dailyActive) ];
         chart "Feature Usage" bar false
           (map (fun f => display_or (FeatureRow.feature f)) features)
           [ Dataset.mk "Interactions"
               (map (fun f => Int (FeatureRow.interactions f)) features) ];
         chart "Model Distribution" pie false
           (map ModelCount.model modelDist)
           [ Dataset.mk "Interactions"
               (map (fun m => Int (ModelCount.count m)) modelDist) ];
         chart "Language Distribution" pie false
           (map LanguageCount.language langDist)
           [ Dataset.mk "Code Generations"
               (map (fun l => Int (LanguageCount.count l)) langDist) ] ]).

(** The branch for a mention of [@handle]. *)
Definition userReport (handle : string) : Response.t :=
  match getUserData handle with
  | None =>
      Response.mk (tpl [ "No data found for user **@"; handle; "**." ]) None None
  | Some userData =>
      Response.mk
        (JS.join_lines
           [ tpl [ "# User Report: @"; UserData.login userData ];
             JS.cat JS.nl "| Metric | Value |";
             "|--------|-------|";
             tpl [ "| Total Interactions | "; fmt (UserData.interactions userData);
                   " |" ];
             tpl [ "| Code Generations | "; fmt (UserData.codeGenerated userData);
                   " |" ];
             tpl [ "| LOC Added | "; fmt (UserData.locAdded userData); " |" ];
             tpl [ "| LOC Deleted | "; fmt (UserData.locDeleted userData); " |" ];
             tpl [ "| Days Active | "; JS.num_str (UserData.daysActive userData);
                   " |" ];
             tpl [ "| Used Agent | ";
                   if UserData.usedAgent userData then "Yes" else "No"; " |" ];
             tpl [ "| Used Chat | ";
                   if UserData.usedChat userData then "Yes" else "No"; " |" ] ])
        (Some
           (Chart.mk None line false
              (map UserTrend.day (UserData.dailyTrends userData))
              [ Dataset.mk "Interactions"
                  (map (fun d => Int (UserTrend.interactions d))
                     (UserData.dailyTrends userData));
                Dataset.mk "Code Generated"
                  (map (fun d => Int (UserTrend.codeGenerated d))
                     (UserData.dailyTrends userData)) ]))
        None
  end.

(** The branch for "top ... user". *)
Definition topUsersResponse (lower : string) : Response.t :=
  let limit :=
    match limitMatch lower with
    | Some digits => JS.parseInt digits
    | None => 10
    end in
  let topUsers := aggregateTopUsers limit in
  Response.mk
    (JS.join_lines
       ([ tpl [ "# Top "; JS.num_str limit; " Users by Interactions" ];
          JS.cat JS.nl
            "| Rank | User | Interactions | Code Generated | LOC Added | Days Active |";
          "|------|------|-------------|----------------|-----------|-------------|" ]
        ++ mapi
             (fun u i =>
                tpl [ "| "; JS.num_str (i + 1); " | "; TopUser.login u; " | ";
                      fmt (TopUser.interactions u); " | ";
                      fmt (TopUser.codeGenerated u); " | ";
                      fmt (TopUser.locAdded u); " | ";
                      JS.num_str (TopUser.daysActive u); " |" ])
             topUsers))
    (Some
       (Chart.mk None bar false
          (map TopUser.login topUsers)
          [ Dataset.mk "Interactions"
              (map (fun u => Int (TopUser.interactions u)) topUsers) ]))
    None.

Definition trendsResponse : Response.t :=
  let trends := aggregateByDay records in
  Response.mk
    (JS.join_lines
       ([ "# Usage Trends";
          JS.cat JS.nl "| Day | Active Users | Interactions | Code Generated |";
          "|-----|-------------|-------------|----------------|" ]
        ++ map
             (fun t =>
                tpl [ "| "; DayRow.day t; " | "; fmt (DayRow.activeUsers t);
                      " | "; fmt (DayRow.interactions t); " | ";
                      fmt (DayRow.codeGenerated t); " |" ])
             trends))
    (Some
       (Chart.mk None line false
          (map DayRow.day trends)
          [ Dataset.mk "Active Users"
              (map (fun t => Int (DayRow.activeUsers t)) trends);
            Dataset.mk "Interactions"
              (map (fun t => Int (DayRow.interactions t)) trends) ]))
    None.

Definition languagesResponse : Response.t :=
  let languages := aggregateByLanguage records in
  Response.mk
    (JS.join_lines
       ([ "# Language Breakdown";
          JS.cat JS.nl "| Language | Code Generated | LOC Added |";
          "|----------|----------------|-----------|" ]
        ++ map
             (fun l =>
                tpl [ "| "; LanguageRow.language l; " | ";
                      fmt (LanguageRow.codeGenerated l); " | ";
                      fmt (LanguageRow.locAdded l); " |" ])
             languages))
    (Some
       (Chart.mk None bar false
          (map LanguageRow.language languages)
          [ Dataset.mk "Code Generated"
              (map (fun l => Int (LanguageRow.codeGenerated l)) languages) ]))
    None.

Definition modelsResponse : Response.t :=
  let models := aggregateByModel records in
  Response.mk
    (JS.join_lines
       ([ "# Model Usage";
          JS.cat JS.nl "| Model | Interactions | Code Generated |";
          "|-------|-------------|----------------|" ]
        ++ map
             (fun m =>
                tpl [ "| "; ModelRow.model m; " | ";
                      fmt (ModelRow.interactions m); " | ";
                      fmt (ModelRow.codeGenerated m); " |" ])
             models))
    (Some
       (Chart.mk None bar false
          (map ModelRow.model models)
          [ Dataset.mk "Interactions"
              (map (fun m => Int (ModelRow.interactions m)) models) ]))
    None.

Definition featuresResponse : Response.t :=
  let features := aggregateByFeature records in
  Response.mk
    (JS.join_lines
       ([ "# Feature Comparison";
          JS.cat JS.nl "| Feature | Interactions | Code Generated | LOC Added |";
          "|---------|-------------|----------------|-----------|" ]
        ++ map
             (fun f =>
                tpl [ "| "; FeatureRow.feature f; " | ";
                      fmt (FeatureRow.interactions f); " | ";
                      fmt (FeatureRow.codeGenerated f); " | ";
                      fmt (FeatureRow.locAdded f); " |" ])
             features))
    (Some
       (Chart.mk None bar false
          (map FeatureRow.feature features)
          [ Dataset.mk "Interactions"
              (map (fun f => Int (FeatureRow.interactions f)) features);
            Dataset.mk "Code Generated"
              (map (fun f => Int (FeatureRow.codeGenerated f)) features) ]))
    None.

(** [x] as a chart value, [undefined] when the property is not there. *)
Definition num_of (x : option Z) : num :=
  match x with Some z => Int z | None => Undefined end.

(** The IDE branch.  Each table row formats [i.users]; the markdown is
    evaluated before the chart. *)
Definition ideResponse : Exn Response.t :=
  let ides := aggregateByIDE records in
  rows <-
    mapM
      (fun i =>
         users <- fmt_opt (IdeRow.users i) ;;
         Return
           (tpl [ "| "; IdeRow.ide i; " | "; users; " | ";
                  fmt (IdeRow.interactions i); " |" ]))
      ides ;;
  Return
    (Response.mk
       (JS.join_lines
          ([ "# IDE Distribution";
             JS.cat JS.nl "| IDE | Users | Interactions |";
             "|-----|-------|-------------|" ]
           ++ rows))
       (Some
          (Chart.mk None pie false
             (map IdeRow.ide ides)
             [ Dataset.mk "Users" (map (fun i => num_of (IdeRow.users i)) ides) ]))
       None).

Definition summaryResponse : Response.t :=
  let period := getDateRange records in
  let allUsers := getUniqueUsers records in
  let '(agentAct, chatAct) := agentAndChatActivity records in
  Response.mk
    (JS.join_lines
       [ "# Summary Statistics";
         tpl [ "**Period:** "; str_or_null (fst period); " to ";
               str_or_null (snd period); JS.nl ];
         "| Metric | Value |";
         "|--------|-------|";
         tpl [ "| Peak Daily Active Users | "; fmt allUsers; " |" ];
         tpl [ "| Total Interactions | ";
               fmt (sumField records Rec.user_initiated_interaction_count); " |" ];
         tpl [ "| Code Generations | ";
               fmt (sumField records Rec.code_generation_activity_count); " |" ];
         tpl [ "| LOC Added | "; fmt (sumField records Rec.loc_added_sum); " |" ];
         tpl [ "| LOC Deleted | "; fmt (sumField records Rec.loc_deleted_sum);
               " |" ];
         tpl [ "| Agent Activity | "; fmt agentAct; " |" ];
         tpl [ "| Chat Activity | "; fmt chatAct; " |" ] ])
    (Some
       (Chart.mk None doughnut false
          [ "Interactions"; "Code Generations" ]
          [ Dataset.mk "Activity"
              [ Int (sumField records Rec.user_initiated_interaction_count);
                Int (sumField records Rec.code_generation_activity_count) ] ]))
    None.

Definition fallbackResponse : Response.t :=
  let period := getDateRange records in
  let allUsers := getUniqueUsers records in
  Response.mk
    (JS.join_lines
       [ "# Query Results";
         tpl [ JS.nl;
               "I wasn't sure exactly what you were looking for. Here's a general summary:";
               JS.nl ];
         tpl [ "- **"; fmt allUsers; "** total users, period ";
               str_or_null (fst period); " to "; str_or_null (snd period) ];
         tpl [ "- **";
               fmt (sumField records Rec.user_initiated_interaction_count);
               "** total interactions" ];
         tpl [ "- **"; fmt (sumField records Rec.code_generation_activity_count);
               "** code generations" ];
         tpl [ "- **"; fmt (sumField records Rec.loc_added_sum);
               "** lines of code added" ];
         tpl [ JS.nl;
               "Try asking about: top users, trends, languages, models, features, IDEs, or a specific @username." ] ])
    None
    None.

Definition handleQuery (prompt : string) : Exn Response.t :=
  let lower := JS.toLowerCase prompt in
  if isReport prompt then
    if JS.includes lower "language" || JS.includes lower "lang" then
      Return languageReport
    else if JS.includes lower "model" then
      Return modelReport
    else if JS.includes lower "agent" || JS.includes lower "adoption"
            || JS.includes lower "feature" then
      Return featureReport
    else if JS.includes lower "trend" || JS.includes lower "usage"
            || JS.includes lower "active" || JS.includes lower "daily"
            || JS.includes lower "weekly" then
      Return trendReport
    else if JS.includes lower "code" || JS.includes lower "loc"
            || JS.includes lower "line" then
      Return codeReport
    else Return customReport
  else
    match userMatch prompt with
    | Some handle => Return (userReport handle)
    | None =>
        if JS.includes lower "top" && JS.includes lower "user" then
          Return (topUsersResponse lower)
        else if JS.includes lower "trend" then Return trendsResponse
        else if JS.includes lower "language" then Return languagesResponse
        else if JS.includes lower "model" then Return modelsResponse
        else if JS.includes lower "feature" || JS.includes lower "compare"
                || JS.includes lower "agent" || JS.includes lower "chat" then
          Return featuresResponse
        else if JS.includes lower "ide" then ideResponse
        else if JS.includes lower "active" || JS.includes lower "summary"
                || JS.includes lower "how many" then
          Return summaryResponse
        else Return fallbackResponse
    end.

End Query.

(** *** The report list and the report endpoint *)

(** [REPORT_LIST]: id, title and icon of the reports the dashboard offers. *)
Definition REPORT_LIST : list (string * string * string) :=
  [ ("copilot-usage", "Copilot Usage", "📊");
    ("code-generation", "Code Generation", "⚡");
    ("executive-summary", "Executive Summary", "📋");
    ("usage-trends", "Usage Trends", "📈");
    ("feature-adoption", "Feature Adoption", "🤖");
    ("language-breakdown", "Language Breakdown", "💻");
    ("model-usage", "Model Usage", "🧠");
    ("ide-distribution", "IDE Distribution", "🖥️");
    ("top-users", "Top Users", "🏆") ].

Definition report_ids : list string := map (fun r => fst (fst r)) REPORT_LIST.

(** What [GET /api/reports/:id] answers: the stored report as JSON, or the
    404 "Report not found". *)
Inductive reply : Type :=
| Json (report : Response.t)
| NotFound.

Definition getReport (preGeneratedReports : JS.obj Response.t) (id : string)
  : reply :=
  match JS.get preGeneratedReports id with
  | None => NotFound
  | Some report =>
      Json
        (Response.mk (Response.markdown report) (Response.chartData report)
           (Response.chartsData report))
  end.

End Dashboard.

(* ------------------------------------------------------------------------- *)
(** ** The MCP server *)

Module Mcp.

(** The objects [getLanguageUsage] builds:
    [{ language, codeGenerated, codeAccepted, locAdded }]. *)
Module LanguageRow.
Record t : Type := mk
  { language : string; codeGenerated : Z; codeAccepted : Z; locAdded : Z }.
End LanguageRow.

Definition getLanguageUsage (records : list Rec.t) : list LanguageRow.t :=
  let langs :=
    Dashboard.for_entries records Rec.totals_by_language_feature
      (fun (langs : JS.obj (Z * Z * Z)) l =>
         JS.upsert (Entry.language l) (0, 0, 0)
           (fun '(c, acc, a) =>
              (c + JS.orZero (Entry.code_generation_activity_count l),
               acc + JS.orZero (Entry.code_acceptance_activity_count l),
               a + JS.orZero (Entry.loc_added_sum l)))
           langs)
      [] in
  JS.slice
    (JS.sort
       (fun a b => LanguageRow.codeGenerated b - LanguageRow.codeGenerated a)
       (map (fun '(language, (c, acc, a)) => LanguageRow.mk language c acc a) langs))
    0 20.

(** The objects [getFeatureUsage] builds. *)
Module FeatureRow.
Record t : Type := mk
  { feature : string; displayName : string; interactions : Z;
    codeGenerated : Z; codeAccepted : Z; locAdded : Z }.
End FeatureRow.

(** The objects [getIDEUsage] builds. *)
Module IdeRow.
Record t : Type := mk
  { ide : string; interactions : Z; codeGenerated : Z; locAdded : Z }.
End IdeRow.

(** What [getCodeGenerationStats] returns; [acceptanceRate] in hundredths. *)
Module CodeGenStats.
Record t : Type := mk
  { userInitiated : SuggestedAdded.t; agentInitiated : AddedDeleted.t;
    shown : Z; accepted : Z; acceptanceRate : Z }.
End CodeGenStats.

(** The MCP server declares the same [FEATURE_DISPLAY], [AGENT_FEATURES],
    [USER_INITIATED_FEATURES] and [CHAT_MODES] tables as the dashboard. *)
Definition getFeatureUsage (records : list Rec.t) : list FeatureRow.t :=
  let features :=
    Dashboard.for_entries records Rec.totals_by_feature
      (fun (features : JS.obj (Z * Z * Z * Z)) f =>
         JS.upsert (Entry.feature f) (0, 0, 0, 0)
           (fun '(i, c, acc, l) =>
              (i + JS.orZero (Entry.user_initiated_interaction_count f),
               c + JS.orZero (Entry.code_generation_activity_count f),
               acc + JS.orZero (Entry.code_acceptance_activity_count f),
               l + JS.orZero (Entry.loc_added_sum f)))
           features)
      [] in
  JS.sort
    (fun a b => FeatureRow.codeGenerated b - FeatureRow.codeGenerated a)
    (map
       (fun '(feature, (i, c, acc, l)) =>
          FeatureRow.mk feature (Dashboard.display_or feature) i c acc l)
       features).

Definition getModelUsage (records : list Rec.t) : list ModelRow.t :=
  let models :=
    Dashboard.for_entries records Rec.totals_by_model_feature
      (fun (models : JS.obj (Z * Z)) m =>
         JS.upsert (Entry.model m) (0, 0)
           (fun '(i, c) =>
              (i + JS.orZero (Entry.user_initiated_interaction_count m),
               c + JS.orZero (Entry.code_generation_activity_count m)))
           models)
      [] in
  JS.slice
    (JS.sort
       (fun a b => ModelRow.interactions b - ModelRow.interactions a)
       (map (fun '(model, (i, c)) => ModelRow.mk model i c) models))
    0 15.

Definition getIDEUsage (records : list Rec.t) : list IdeRow.t :=
  let ides :=
    Dashboard.for_entries records Rec.totals_by_ide
      (fun (ides : JS.obj (Z * Z * Z)) i =>
         JS.upsert (Entry.ide i) (0, 0, 0)
           (fun '(n, c, l) =>
              (n + JS.orZero (Entry.user_initiated_interaction_count i),
               c + JS.orZero (Entry.code_generation_activity_count i),
               l + JS.orZero (Entry.loc_added_sum i)))
           ides)
      [] in
  JS.sort
    (fun a b => IdeRow.interactions b - IdeRow.interactions a)
    (map (fun '(ide, (n, c, l)) => IdeRow.mk ide n c l) ides).

(** The objects [getChatModeStats] builds. *)
Module ModeRow.
Record t : Type := mk { mode : string; interactions : Z; codeGenerated : Z }.
End ModeRow.

Definition getChatModeStats (records : list Rec.t) : list ModeRow.t :=
  let modes :=
    Dashboard.for_entries records Rec.totals_by_feature
      (fun (modes : JS.obj (Z * Z)) f =>
         if JS.mem (Entry.feature f) Dashboard.CHAT_MODES
         then JS.upsert (Dashboard.display (Entry.feature f)) (0, 0)
                (fun '(i, c) =>
                   (i + JS.orZero (Entry.user_initiated_interaction_count f),
                    c + JS.orZero (Entry.code_generation_activity_count f)))
                modes
         else modes)
      [] in
  JS.sort
    (fun a b => ModeRow.interactions b - ModeRow.interactions a)
    (map (fun '(mode, (i, c)) => ModeRow.mk mode i c) modes).

Definition getCodeGenerationStats (records : list Rec.t) : CodeGenStats.t :=
  let '(userSuggested, userAdded, agentAdded, agentDeleted) :=
    Dashboard.for_entries records Rec.totals_by_feature
      (fun '(userSuggested, userAdded, agentAdded, agentDeleted) f =>
         let '(userSuggested, userAdded) :=
           if JS.mem (Entry.feature f) Dashboard.USER_INITIATED_FEATURES
           then (userSuggested + JS.orZero (Entry.loc_suggested_to_add_sum f),
                 userAdded + JS.orZero (Entry.loc_added_sum f))
           else (userSuggested, userAdded) in
         let '(agentAdded, agentDeleted) :=
           if JS.mem (Entry.feature f) Dashboard.AGENT_FEATURES
           then (agentAdded + JS.orZero (Entry.loc_added_sum f),
                 agentDeleted + JS.orZero (Entry.loc_deleted_sum f))
           else (agentAdded, agentDeleted) in
         (userSuggested, userAdded, agentAdded, agentDeleted))
      (0, 0, 0, 0) in
  let '(shown, accepted) :=
    Dashboard.for_entries records Rec.totals_by_feature
      (fun '(shown, accepted) f =>
         if String.eqb (Entry.feature f) "code_completion"
         then (shown + JS.orZero (Entry.code_generation_activity_count f),
               accepted + JS.orZero (Entry.code_acceptance_activity_count f))
         else (shown, accepted))
      (0, 0) in
  CodeGenStats.mk
    (SuggestedAdded.mk userSuggested userAdded)
    (AddedDeleted.mk agentAdded agentDeleted)
    shown accepted
    (if shown >? 0 then Dashboard.pct accepted shown else 0).

(** *** Lazy loading and the refresh tool

    The server runs on one thread: a tool call and the settling of a load are
    atomic steps.  A call of [loadAllData()] is in flight from the call until
    its promise settles; calls are numbered in the order they start.  The
    promise kept in [dataLoading] chains on the load that [ensureData]
    started, and is named by that load. *)

Record state : Type := mkState
  { dataLoaded : bool;
    dataLoading : option nat;
    inflight : list nat;
    started : nat }.

Definition init : state := mkState false None [] 0.

Inductive event : Type :=
| CallEnsureData        (* a tool handler runs [await ensureData()] *)
| CallRefreshData       (* the [refresh_data] tool is invoked *)
| Resolved (id : nat)   (* load [id] fulfils; its continuation runs *)
| Rejected (id : nat).  (* load [id] rejects *)

(** What a caller is left waiting on. *)
Inductive awaited : Type :=
| Nothing               (* returns at once *)
| Load (id : nat).      (* the promise of load [id] *)

Definition remove_id (id : nat) (l : list nat) : list nat :=
  filter (fun x => negb (Nat.eqb x id)) l.

Definition ensureData (s : state) : state * awaited :=
  if dataLoaded s then (s, Nothing)
  else
    match dataLoading s with
    | Some p => (s, Load p)
    | None =>
        let id := started s in
        (mkState (dataLoaded s) (Some id) (inflight s ++ [id]) (S id), Load id)
    end.

(** The handler of [refresh_data] up to its [await]. *)
Definition refresh_data (s : state) : state * awaited :=
  let id := started s in
  (mkState false None (inflight s ++ [id]) (S id), Load id).

Definition step (s : state) (e : event) : state :=
  match e with
  | CallEnsureData => fst (ensureData s)
  | CallRefreshData => fst (refresh_data s)
  | Resolved id =>
      if existsb (Nat.eqb id) (inflight s)
      then mkState true (dataLoading s) (remove_id id (inflight s)) (started s)
      else s
  | Rejected id =>
      mkState (dataLoaded s) (dataLoading s) (remove_id id (inflight s)) (started s)
  end.

Definition run (s : state) (trace : list event) : state := fold_left step trace s.

(** Traces in which loads are started by [ensureData] only. *)
Definition lazy_only (e : event) : bool :=
  match e with
  | CallRefreshData => false
  | _ => true
  end.

End Mcp.

(** The dashboard's [POST /api/refresh]: the handler calls [loadAllData()]
    whatever the state, so the state is the loads in flight. *)
Module ApiRefresh.

Record state : Type := mkState { inflight : list nat; started : nat }.

Definition init : state := mkState [] 0.

Inductive event : Type :=
| PostRefresh           (* a request to [POST /api/refresh] arrives *)
| Settled (id : nat).   (* load [id] fulfils or rejects *)

Definition step (s : state) (e : event) : state :=
  match e with
  | PostRefresh => mkState (inflight s ++ [started s]) (S (started s))
  | Settled id => mkState (Mcp.remove_id id (inflight s)) (started s)
  end.

Definition run (s : state) (trace : list event) : state := fold_left step trace s.

End ApiRefresh.

(* ------------------------------------------------------------------------- *)
(** ** Loading: deduplication and the [.env] file (both servers) *)

(** The end of [loadAllData]: the fetched records are put in a [Map] under
    the key [enterprise_id || 'default'], a bar, the day; the values of the
    map become [records].  A [Map] keeps a key at the place of its first
    [set] and the value of its last. *)
Module Loader.

(** A fetched record: the daily record and its [enterprise_id], [None] when
    the property is missing. *)
Module Fetched.
Record t : Type := mk { enterprise_id : option string; record : Rec.t }.
End Fetched.

Definition key_of (rec : Fetched.t) : string :=
  JS.cat
    match Fetched.enterprise_id rec with
    | Some id => if String.eqb id "" then "default"%string else id
    | None => "default"%string
    end
    (JS.cat "|" (Rec.day (Fetched.record rec))).

Definition seen (allRecords : list Fetched.t) : JS.obj Fetched.t :=
  fold_left (fun seen rec => JS.put (key_of rec) rec seen) allRecords [].

Definition dedupe (allRecords : list Fetched.t) : list Fetched.t :=
  JS.values (seen allRecords).

End Loader.

(** The loop over the lines of the [.env] file, with [process.env] as a
    dictionary of strings. *)
Module Env.

(** [text.split(sep)] for a one-character separator. *)
Fixpoint split (sep : ascii) (text : string) : list string :=
  match text with
  | EmptyString => [EmptyString]
  | String c rest =>
      if Ascii.eqb c sep then EmptyString :: split sep rest
      else
        match split sep rest with
        | first :: others => String c first :: others
        | [] => [String c EmptyString]
        end
  end.

Fixpoint trimEnd (s : string) : string :=
  match s with
  | EmptyString => EmptyString
  | String c rest =>
      match trimEnd rest with
      | EmptyString => if JS.is_space c then EmptyString else String c EmptyString
      | kept => String c kept
      end
  end.

(** [s.trim()]. *)
Definition trim (s : string) : string := trimEnd (JS.drop_while JS.is_space s).

(** [s.indexOf(c)] together with [s.slice(0, i)] and [s.slice(i + 1)] at that
    index: [None] when [c] does not occur. *)
Fixpoint cut (c : ascii) (s : string) : option (nat * string * string) :=
  match s with
  | EmptyString => None
  | String d rest =>
      if Ascii.eqb d c then Some (0%nat, EmptyString, rest)
      else
        match cut c rest with
        | Some (i, before, after) => Some (S i, String d before, after)
        | None => None
        end
  end.

(** [!process.env[key]]: not set, or set to the empty string. *)
Definition unset (env : JS.obj string) (key : string) : bool :=
  match JS.get env key with
  | None => true
  | Some v => String.eqb v ""
  end.

(** The body of the loop for one line. *)
Definition load_line (env : JS.obj string) (line : string) : JS.obj string :=
  let trimmed := trim line in
  if String.eqb trimmed "" || String.prefix "#" trimmed then env
  else
    match cut "=" trimmed with
    | Some (eq, before, after) =>
        if (0 <? eq)%nat then
          let key := trim before in
          let val := trim after in
          if unset env key then JS.put key val env else env
        else env
    | None => env
    end.

Definition load (text : string) (env : JS.obj string) : JS.obj string :=
  fold_left load_line (split (ascii_of_nat 10) text) env.

End Env.

(* ------------------------------------------------------------------------- *)
(** ** Specification-side vocabulary *)

Local Open Scope string_scope.
Local Open Scope list_scope.
Local Open Scope Z_scope.

(** The sum of [key] over a list of buckets. *)
Definition total {A : Type} (key : A -> Z) (l : list A) : Z :=
  fold_right Z.add 0 (map key l).

(** A list of buckets, each tagged with its position in the list. *)
Definition tagged {A : Type} (l : list A) : list (A * nat) :=
  combine l (seq 0 (List.length l)).

(** Descending by key and, among equal keys, ascending by input position. *)
Definition before {A : Type} (key : A -> Z) (p q : A * nat) : Prop :=
  key (fst p) > key (fst q) \/ (key (fst p) = key (fst q) /\ (snd p < snd q)%nat).

(** A prompt that [handleQuery] takes to its IDE branch: it contains "ide",
    is no report request, mentions nobody and holds none of the keywords that
    are tested before. *)
Definition ide_prompt (prompt : string) : bool :=
  let lower := JS.toLowerCase prompt in
  negb (Dashboard.isReport prompt)
  && match Dashboard.userMatch prompt with None => true | Some _ => false end
  && negb (JS.includes lower "top" && JS.includes lower "user")
  && negb (JS.includes lower "trend")
  && negb (JS.includes lower "language")
  && negb (JS.includes lower "model")
  && negb (JS.includes lower "feature" || JS.includes lower "compare"
           || JS.includes lower "agent" || JS.includes lower "chat")
  && JS.includes lower "ide".

(** A record of one day whose only content is one [totals_by_ide] entry. *)
Definition ide_entry (ide : string) (interactions : Z) : Entry.t :=
  Entry.mk "" "" "" ide (Some interactions) None None None None None.

Definition ide_record (day : string) (entries : list Entry.t) : Rec.t :=
  Rec.mk day None None None None None None None None None (Some entries) None.

(** A MCP language row without its [codeAccepted] field. *)
Definition drop_accepted (row : Mcp.LanguageRow.t) : LanguageRow.t :=
  LanguageRow.mk (Mcp.LanguageRow.language row) (Mcp.LanguageRow.codeGenerated row)
    (Mcp.LanguageRow.locAdded row).

(** A record of one day whose only content is its
    [totals_by_language_feature] entries. *)
Definition language_entry (language : string) (generated accepted : Z) : Entry.t :=
  Entry.mk "" language "" "" None (Some generated) (Some accepted) None None None.

Definition language_record (day : string) (entries : list Entry.t) : Rec.t :=
  Rec.mk day None None None None None None None (Some entries) None None None.

Definition sixteen_languages : list Rec.t :=
  [ language_record "2026-01-01"
      (map (fun name => language_entry name 1 0)
         [ "a"; "b"; "c"; "d"; "e"; "f"; "g"; "h"; "i"; "j"; "k"; "l"; "m";
           "n"; "o"; "p" ]%string) ].

(** The daily-active-users value the collection holds for [day]: that of the
    last record of that day, 0 when it has none. *)
Definition rawDau (records : list Rec.t) (day : string) : Z :=
  match find (fun r => String.eqb (Rec.day r) day) (rev records) with
  | Some r => JS.orZero (Rec.daily_active_users r)
  | None => 0
  end.

(** [u] is the mean of [n] samples of sum [sum], rounded to the nearest
    integer (a tie goes up). *)
Definition nearest_mean (sum : Z) (n : nat) (u : Z) : Prop :=
  2 * sum - Z.of_nat n < 2 * Z.of_nat n * u <= 2 * sum + Z.of_nat n.

(** The values of day number [j] in a per-day series, one per key. *)
Definition day_values (s : DaySeries.t) (j : nat) : list Z :=
  map (fun kv => nth j (snd kv) 0) (DaySeries.series s).

(** The entries of the array [field] over the records of [day], and the
    day's total of the metric [cnt]. *)
Definition day_entries (records : list Rec.t)
    (field : Rec.t -> option (list Entry.t)) (day : string) : list Entry.t :=
  flat_map (fun r => JS.orNil (field r))
    (filter (fun r => String.eqb (Rec.day r) day) records).

Definition dayTotal (records : list Rec.t)
    (field : Rec.t -> option (list Entry.t)) (cnt : Entry.t -> Z) (day : string) : Z :=
  total cnt (day_entries records field day).

(** No category of the array [field] is itself called "Other". *)
Definition no_Other (records : list Rec.t)
    (field : Rec.t -> option (list Entry.t)) (key : Entry.t -> string) : Prop :=
  forall r e, In r records -> In e (JS.orNil (field r)) -> key e <> "Other".

(** The metric of the model series and of the language series. *)
Definition model_cnt (m : Entry.t) : Z :=
  JS.orZero (Entry.user_initiated_interaction_count m)
  + JS.orZero (Entry.code_generation_activity_count m).

Definition language_cnt (l : Entry.t) : Z :=
  JS.orZero (Entry.code_generation_activity_count l).

(** A sum of hundredths is 100.00 up to [tol] hundredths. *)
Definition sums_to_100 (tol : Z) (values : list Z) : Prop :=
  Z.abs (total (fun v => v) values - 10000) <= tol.

(** Sample collections: two days of daily active users; one day on which six
    languages and six models are used equally; one day on which one model is
    used 27 times and five others once. *)
Definition dau_record (day : string) (users : Z) : Rec.t :=
  Rec.mk day (Some users) None None None None None None None None None None.

Definition two_days : list Rec.t :=
  [ dau_record "2026-01-01" 100; dau_record "2026-01-02" 120 ].

Definition model_entry (model : string) (interactions : Z) : Entry.t :=
  Entry.mk "" "" model "" (Some interactions) None None None None None.

Definition usage_record (day : string) (languages models : list Entry.t) : Rec.t :=
  Rec.mk day None None None None None None None (Some languages) (Some models)
    None None.

Definition six_each : list Rec.t :=
  [ usage_record "2026-01-01"
      (map (fun name => language_entry name 1 0)
         [ "go"; "java"; "python"; "ruby"; "rust"; "scala" ])
      (map (fun name => model_entry name 1)
         [ "m-a"; "m-b"; "m-c"; "m-d"; "m-e"; "m-f" ]) ].

Definition one_dominant : list Rec.t :=
  [ usage_record "2026-01-01" []
      [ model_entry "m-a" 27; model_entry "m-b" 1; model_entry "m-c" 1;
        model_entry "m-d" 1; model_entry "m-e" 1; model_entry "m-f" 1 ] ].

(** Two days on which a model that is itself called "Other" is in use. *)
Definition other_named : list Rec.t :=
  [ usage_record "2026-01-01" [] [ model_entry "Other" 3; model_entry "m-b" 1 ];
    usage_record "2026-01-02" [] [ model_entry "Other" 1; model_entry "m-b" 1 ] ].

(** What holds of the MCP server as long as loads are started by
    [ensureData] only: no load is running, or the one load that [dataLoading]
    names is. *)
Definition lazy_inv (s : Mcp.state) : Prop :=
  (Mcp.inflight s = [] /\ (Mcp.dataLoading s = None -> Mcp.dataLoaded s = false))
  \/ exists id,
       Mcp.inflight s = [id] /\ Mcp.dataLoading s = Some id
       /\ Mcp.dataLoaded s = false.

(** All entries of the array [field], in the order of the records. *)
Definition all_entries (records : list Rec.t)
    (field : Rec.t -> option (list Entry.t)) : list Entry.t :=
  flat_map (fun r => JS.orNil (field r)) records.

(** The sum of [c] over the entries of category [k]. *)
Definition key_total {A : Type} (key : A -> string) (c : A -> Z)
    (es : list A) (k : string) : Z :=
  total c (filter (fun e => String.eqb (key e) k) es).

(** Descending by [key]. *)
Definition desc {A : Type} (key : A -> Z) (l : list A) : Prop :=
  StronglySorted (fun a b => key a >= key b) l.

(** The numeric fields of an entry, missing ones read as 0. *)
Definition interactions_of (e : Entry.t) : Z :=
  JS.orZero (Entry.user_initiated_interaction_count e).

Definition generated_of (e : Entry.t) : Z :=
  JS.orZero (Entry.code_generation_activity_count e).

Definition accepted_of (e : Entry.t) : Z :=
  JS.orZero (Entry.code_acceptance_activity_count e).

Definition added_of (e : Entry.t) : Z := JS.orZero (Entry.loc_added_sum e).

Definition deleted_of (e : Entry.t) : Z := JS.orZero (Entry.loc_deleted_sum e).

Definition suggested_of (e : Entry.t) : Z :=
  JS.orZero (Entry.loc_suggested_to_add_sum e).

(** A dashboard feature row out of a MCP feature row, and likewise for IDEs. *)
Definition feature_row (row : Mcp.FeatureRow.t) : FeatureRow.t :=
  FeatureRow.mk (Mcp.FeatureRow.feature row) (Mcp.FeatureRow.interactions row)
    (Mcp.FeatureRow.codeGenerated row) (Mcp.FeatureRow.locAdded row).

Definition ide_row (row : Mcp.IdeRow.t) : IdeRow.t :=
  IdeRow.mk (Mcp.IdeRow.ide row) (Mcp.IdeRow.interactions row)
    (Mcp.IdeRow.codeGenerated row).

(** A feature entry and a record of feature entries. *)
Definition feature_entry (feature : string) (interactions generated added : Z)
  : Entry.t :=
  Entry.mk feature "" "" "" (Some interactions) (Some generated) None
    (Some added) None None.

Definition feature_record (day : string) (entries : list Entry.t) : Rec.t :=
  Rec.mk day None None None None None None (Some entries) None None None None.

(** The entries of an agent feature, and the others. *)
Definition agent_made (e : Entry.t) : bool :=
  JS.mem (Entry.feature e) Dashboard.AGENT_FEATURES.

Definition agent_entries (es : list Entry.t) : list Entry.t := filter agent_made es.

Definition user_entries (es : list Entry.t) : list Entry.t :=
  filter (fun e => negb (agent_made e)) es.

(** [rows] is the two-column table of the entries [es] by [key]: one row per
    key of [es] and no other row, the columns of a row being the sums of [cx]
    and of [cy] over the entries of the row's key, and the rows descending by
    the sum of both columns. *)
Definition table_of {Row : Type} (name : Row -> string) (x y : Row -> Z)
    (rows : list Row) (key : Entry.t -> string) (cx cy : Entry.t -> Z)
    (es : list Entry.t) : Prop :=
  NoDup (map name rows)
  /\ (forall k, In k (map name rows) <-> exists e, In e es /\ key e = k)
  /\ (forall row, In row rows ->
        x row = key_total key cx es (name row)
        /\ y row = key_total key cy es (name row))
  /\ desc (fun row => x row + y row) rows.

(* ------------------------------------------------------------------------- *)
(** ** Facts about the JavaScript primitives *)

Section SortFacts.

Context {A : Type}.
Variable cmp : A -> A -> Z.

Lemma insert_perm (x : A) (l : list A) :
  Permutation (JS.insert cmp x l) (x :: l).
Proof.
  induction l as [|y l IH]; simpl.
  - reflexivity.
  - destruct (cmp x y <=? 0).
    + reflexivity.
    + rewrite IH. apply perm_swap.
Qed.

Lemma sort_perm (l : list A) : Permutation (JS.sort cmp l) l.
Proof.
  induction l as [|x l IH]; simpl.
  - constructor.
  - unfold JS.sort in *. simpl. rewrite insert_perm. now constructor.
Qed.

Lemma sort_length (l : list A) : List.length (JS.sort cmp l) = List.length l.
Proof. apply Permutation_length, sort_perm. Qed.

Lemma sort_in (l : list A) (x : A) : In x (JS.sort cmp l) <-> In x l.
Proof.
  split; apply Permutation_in; [apply sort_perm | symmetry; apply sort_perm].
Qed.

End SortFacts.

Lemma insert_map {A B : Type} (f : A -> B) (cmp : A -> A -> Z)
    (cmp' : B -> B -> Z) (x : A) (l : list A) :
  (forall a b, cmp' (f a) (f b) = cmp a b) ->
  map f (JS.insert cmp x l) = JS.insert cmp' (f x) (map f l).
Proof.
  intros H. induction l as [|y l IH]; simpl; [reflexivity|].
  rewrite H. destruct (cmp x y <=? 0); simpl; [reflexivity|].
  now rewrite IH.
Qed.

(** Sorting commutes with a projection that the comparator factors through. *)
Lemma sort_map {A B : Type} (f : A -> B) (cmp : A -> A -> Z)
    (cmp' : B -> B -> Z) (l : list A) :
  (forall a b, cmp' (f a) (f b) = cmp a b) ->
  map f (JS.sort cmp l) = JS.sort cmp' (map f l).
Proof.
  intros H. induction l as [|x l IH]; [reflexivity|].
  unfold JS.sort in *. simpl. rewrite <- IH. now apply insert_map.
Qed.

Lemma slice_firstn {A : Type} (l : list A) (n : nat) :
  JS.slice l 0 (Z.of_nat n) = firstn n l.
Proof.
  unfold JS.slice, JS.rel_index. simpl.
  replace (Z.min 0 (Z.of_nat (List.length l))) with 0 by lia. simpl.
  destruct (Z.ltb_spec (Z.of_nat n) 0); [lia|].
  rewrite Z.sub_0_r.
  destruct (Nat.le_gt_cases n (List.length l)) as [Hle|Hgt].
  - rewrite Z.min_l by lia. now rewrite Nat2Z.id.
  - rewrite Z.min_r by lia. rewrite Nat2Z.id.
    rewrite !firstn_all2; auto; lia.
Qed.

Lemma slice_from_skipn {A : Type} (l : list A) (n : nat) :
  JS.slice_from l (Z.of_nat n) = skipn n l.
Proof.
  unfold JS.slice_from, JS.slice, JS.rel_index.
  destruct (Z.ltb_spec (Z.of_nat n) 0); [lia|].
  destruct (Z.ltb_spec (Z.of_nat (List.length l)) 0); [lia|].
  rewrite Z.min_id.
  destruct (Nat.le_gt_cases n (List.length l)) as [Hle|Hgt].
  - rewrite Z.min_l by lia. rewrite Nat2Z.id.
    rewrite firstn_all2; auto. rewrite length_skipn. lia.
  - rewrite Z.min_r by lia. rewrite Z.sub_diag. simpl.
    rewrite skipn_all2; auto; lia.
Qed.

Lemma in_firstn {A : Type} (n : nat) (l : list A) (x : A) :
  In x (firstn n l) -> In x l.
Proof.
  intros H. rewrite <- (firstn_skipn n l). apply in_or_app. now left.
Qed.

Lemma total_app {A : Type} (key : A -> Z) (l1 l2 : list A) :
  total key (l1 ++ l2) = total key l1 + total key l2.
Proof.
  unfold total. induction l1 as [|x l1 IH]; simpl; [reflexivity|].
  rewrite IH. lia.
Qed.

Lemma total_perm {A : Type} (key : A -> Z) (l1 l2 : list A) :
  Permutation l1 l2 -> total key l1 = total key l2.
Proof.
  unfold total. induction 1; simpl; lia.
Qed.

Lemma reduce_total {A : Type} (key : A -> Z) (l : list A) (s : Z) :
  JS.reduce (fun s x => s + key x) s l = s + total key l.
Proof.
  unfold JS.reduce, total. revert s.
  induction l as [|x l IH]; intros s; simpl; [lia|].
  rewrite IH. lia.
Qed.

(* ------------------------------------------------------------------------- *)
(** ** Top-N with remainder *)

Section TopNFacts.

Context {A : Type}.
Variable key : A -> Z.

Lemma topN_unfold (arr : list A) (n : nat) :
  let sorted := JS.sort (fun a b => key b - key a) arr in
  Dashboard.topN key arr (Z.of_nat n)
  = TopN.mk (firstn n sorted) (total key (skipn n sorted)).
Proof.
  unfold Dashboard.topN. simpl.
  now rewrite slice_firstn, slice_from_skipn, reduce_total.
Qed.

(** C3.  Conservation of top-N with remainder: for every list of buckets,
    every numeric sort key and every [n >= 0], the sort key summed over [top]
    plus [otherVal] is the sort key summed over all the buckets; for [n = 0],
    [top] is empty and [otherVal] is the grand total. *)
Theorem topN_conservation (arr : list A) (n : nat) :
  total key (TopN.top (Dashboard.topN key arr (Z.of_nat n)))
  + TopN.otherVal (Dashboard.topN key arr (Z.of_nat n))
  = total key arr
  /\ TopN.top (Dashboard.topN key arr 0) = []
  /\ TopN.otherVal (Dashboard.topN key arr 0) = total key arr.
Proof.
  pose proof (topN_unfold arr n) as Hn.
  pose proof (topN_unfold arr 0) as H0.
  simpl in Hn, H0. change (Z.of_nat 0) with 0 in H0.
  rewrite Hn, H0. simpl.
  split; [|split; [reflexivity|]].
  - rewrite <- total_app, firstn_skipn.
    apply total_perm, sort_perm.
  - apply total_perm, sort_perm.
Qed.

Lemma insert_before (x : A * nat) (l : list (A * nat)) :
  StronglySorted (before key) l ->
  Forall (fun q => (snd x < snd q)%nat) l ->
  StronglySorted (before key) (JS.insert (fun a b => key (fst b) - key (fst a)) x l).
Proof.
  induction l as [|y l IH]; intros Hs Hx; simpl.
  - repeat constructor.
  - inversion Hs as [|? ? Hs' Hy]; subst.
    inversion Hx as [|? ? Hxy Hx']; subst.
    destruct (key (fst y) - key (fst x) <=? 0) eqn:E.
    + apply Z.leb_le in E.
      constructor; [assumption|].
      constructor.
      * unfold before.
        destruct (Z.eq_dec (key (fst x)) (key (fst y))); [right|left]; lia.
      * rewrite Forall_forall in *. intros z Hz.
        specialize (Hy z Hz). specialize (Hx' z Hz).
        unfold before in *. lia.
    + apply Z.leb_gt in E.
      constructor; [auto|].
      rewrite Forall_forall in *. intros z Hz.
      apply (Permutation_in _ (insert_perm _ x l)) in Hz.
      destruct Hz as [<-|Hz]; [left; lia | now apply Hy].
Qed.

Lemma tagged_from_sorted (l : list A) (i : nat) :
  StronglySorted (before key)
    (JS.sort (fun a b => key (fst b) - key (fst a)) (combine l (seq i (List.length l))))
  /\ Forall (fun q => (i <= snd q)%nat) (combine l (seq i (List.length l))).
Proof.
  revert i. induction l as [|x l IH]; intros i; simpl.
  - split; constructor.
  - destruct (IH (S i)) as [Hs Hf]. split.
    + unfold JS.sort in *. simpl. apply insert_before; [assumption|].
      rewrite Forall_forall in *. intros q Hq.
      apply (Permutation_in _ (sort_perm _ _)) in Hq.
      specialize (Hf q Hq). simpl. lia.
    + constructor; [simpl; lia|].
      eapply Forall_impl; [|exact Hf]. simpl. intros; lia.
Qed.

Lemma tagged_fst (l : list A) : map fst (tagged l) = l.
Proof.
  unfold tagged. generalize 0%nat.
  induction l as [|x l IH]; intros i; simpl; [reflexivity|].
  now rewrite IH.
Qed.

Lemma tagged_nth (l : list A) (p : A * nat) :
  In p (tagged l) -> nth_error l (snd p) = Some (fst p).
Proof.
  unfold tagged.
  assert (G : forall i, In p (combine l (seq i (List.length l))) ->
                        (i <= snd p)%nat /\ nth_error l (snd p - i) = Some (fst p)).
  { induction l as [|x l IH]; intros i H; simpl in *; [contradiction|].
    destruct H as [<-|H].
    - simpl. rewrite Nat.sub_diag. auto.
    - destruct (IH (S i) H) as [Hle Hn]. split; [lia|].
      replace (snd p - i)%nat with (S (snd p - S i)) by lia. exact Hn. }
  intros H. destruct (G 0%nat H) as [_ Hn]. now rewrite Nat.sub_0_r in Hn.
Qed.

Lemma StronglySorted_firstn {B : Type} (R : B -> B -> Prop) (n : nat) (l : list B) :
  StronglySorted R l -> StronglySorted R (firstn n l).
Proof.
  revert n. induction l as [|x l IH]; intros [|n] H; simpl; try constructor.
  - inversion H; auto.
  - inversion H as [|? ? _ Hx]; subst.
    rewrite Forall_forall in *. intros y Hy. apply Hx.
    eapply in_firstn; eauto.
Qed.

Lemma StronglySorted_cross {B : Type} (R : B -> B -> Prop) (l1 l2 : list B) :
  StronglySorted R (l1 ++ l2) ->
  forall a b, In a l1 -> In b l2 -> R a b.
Proof.
  induction l1 as [|x l1 IH]; intros Hs a b Ha Hb; [contradiction|].
  simpl in Hs. inversion Hs as [|? ? Hs' Hx]; subst.
  destruct Ha as [<-|Ha].
  - rewrite Forall_forall in Hx. apply Hx. apply in_or_app. now right.
  - now apply IH.
Qed.

Lemma tagged_length (l : list A) : List.length (tagged l) = List.length l.
Proof.
  unfold tagged. rewrite length_combine, length_seq. apply Nat.min_id.
Qed.

(** C8.  [topN] sorts stably.  Tag every input bucket with its position in the
    input; then [top] consists of input buckets at their positions, it is
    ordered by descending sort key, and any two of its buckets with equal sort
    keys stand in the order of their input positions.  [top] holds
    [min(n, length)] buckets, and they are the first ones of that order: a
    bucket of the input that is left out of [top] has a smaller sort key than
    every bucket of [top], or the same sort key and a later input position. *)
Theorem topN_stable (arr : list A) (n : nat) :
  let r := Dashboard.topN (fun p => key (fst p)) (tagged arr) (Z.of_nat n) in
  map fst (TopN.top r) = TopN.top (Dashboard.topN key arr (Z.of_nat n))
  /\ (forall p, In p (TopN.top r) -> nth_error arr (snd p) = Some (fst p))
  /\ StronglySorted (before key) (TopN.top r)
  /\ StronglySorted (fun a b => key a >= key b)
       (TopN.top (Dashboard.topN key arr (Z.of_nat n)))
  /\ List.length (TopN.top (Dashboard.topN key arr (Z.of_nat n)))
     = Nat.min n (List.length arr)
  /\ List.length (TopN.top r) = Nat.min n (List.length arr)
  /\ (forall p q,
        In p (TopN.top r) -> In q (tagged arr) -> ~ In q (TopN.top r) ->
        before key p q).
Proof.
  pose proof (topN_unfold arr n) as Hn. simpl in Hn.
  assert (Ht : Dashboard.topN (fun p : A * nat => key (fst p)) (tagged arr) (Z.of_nat n)
               = TopN.mk
                   (firstn n (JS.sort (fun a b => key (fst b) - key (fst a)) (tagged arr)))
                   (total (fun p => key (fst p))
                      (skipn n (JS.sort (fun a b => key (fst b) - key (fst a)) (tagged arr))))).
  { unfold Dashboard.topN.
    now rewrite slice_firstn, slice_from_skipn, reduce_total. }
  intros r. subst r. rewrite Ht, Hn. simpl.
  assert (Hmap : map fst (firstn n (JS.sort (fun a b => key (fst b) - key (fst a)) (tagged arr)))
                 = firstn n (JS.sort (fun a b => key b - key a) arr)).
  { rewrite <- firstn_map.
    rewrite (sort_map fst _ (fun a b => key b - key a)) by reflexivity.
    now rewrite tagged_fst. }
  assert (Hall : StronglySorted (before key)
            (JS.sort (fun a b => key (fst b) - key (fst a)) (tagged arr))).
  { apply (tagged_from_sorted arr 0). }
  assert (Hsorted : StronglySorted (before key)
            (firstn n (JS.sort (fun a b => key (fst b) - key (fst a)) (tagged arr)))).
  { now apply StronglySorted_firstn. }
  split; [exact Hmap|]. split; [|split; [exact Hsorted|split; [|split; [|split]]]].
  - intros p Hp. apply tagged_nth.
    apply (sort_in (fun a b => key (fst b) - key (fst a))).
    eapply in_firstn; eauto.
  - rewrite <- Hmap. clear Hmap Ht Hn Hall.
    induction Hsorted as [|p l _ IH Hp]; simpl; constructor; [assumption|].
    rewrite Forall_forall in *. intros b Hb.
    apply in_map_iff in Hb. destruct Hb as [q [<- Hq]].
    specialize (Hp q Hq). unfold before in Hp. lia.
  - now rewrite length_firstn, sort_length.
  - now rewrite length_firstn, sort_length, tagged_length.
  - intros p q Hp Hq Hout.
    rewrite <- (firstn_skipn n) in Hall.
    apply (StronglySorted_cross _ _ _ Hall); [exact Hp|].
    apply (sort_in (fun a b => key (fst b) - key (fst a))) in Hq.
    rewrite <- (firstn_skipn n) in Hq. apply in_app_or in Hq.
    destruct Hq as [Hq|Hq]; [contradiction|exact Hq].
Qed.

End TopNFacts.

(* ------------------------------------------------------------------------- *)
(** ** The query dispatcher *)

Lemma mapM_throw {A B : Type} (f : A -> Exn B) (e : JsError) (l : list A) :
  l <> [] -> (forall x, f x = Throw e) -> mapM f l = Throw e.
Proof.
  intros Hl Hf. destruct l as [|x l]; [contradiction|].
  simpl. now rewrite Hf.
Qed.

Lemma upsert_not_nil {V : Type} (k : string) (init : V) (f : V -> V) (o : JS.obj V) :
  JS.upsert k init f o <> [].
Proof.
  destruct o as [|[k' v] o]; simpl; [discriminate|].
  destruct (String.eqb k k'); discriminate.
Qed.

(** A dictionary that every entry upserts into is empty only if there is no
    entry at all. *)
Lemma for_entries_not_nil {V : Type} (records : list Rec.t)
    (field : Rec.t -> option (list Entry.t)) (key : Entry.t -> string)
    (init : V) (upd : Entry.t -> V -> V) (r : Rec.t) (e : Entry.t) :
  In r records -> In e (JS.orNil (field r)) ->
  Dashboard.for_entries records field
    (fun o x => JS.upsert (key x) init (upd x) o) [] <> [].
Proof.
  unfold Dashboard.for_entries.
  assert (Hin : forall es o, o <> [] ->
            fold_left (fun o x => JS.upsert (key x) init (upd x) o) es o <> []).
  { induction es as [|x es IH]; intros o Ho; simpl; [assumption|].
    apply IH, upsert_not_nil. }
  assert (Hout : forall rs o, o <> [] ->
            fold_left
              (fun s r0 =>
                 fold_left (fun o x => JS.upsert (key x) init (upd x) o)
                   (JS.orNil (field r0)) s) rs o <> []).
  { induction rs as [|r0 rs IH]; intros o Ho; simpl; [assumption|].
    apply IH, Hin, Ho. }
  intros Hr He.
  assert (G : forall rs o, In r rs ->
            fold_left
              (fun s r0 =>
                 fold_left (fun o x => JS.upsert (key x) init (upd x) o)
                   (JS.orNil (field r0)) s) rs o <> []).
  { induction rs as [|r0 rs IH]; intros o Hin'; simpl in *; [contradiction|].
    destruct Hin' as [->|Hin'].
    - apply Hout.
      destruct (JS.orNil (field r)) as [|x es]; [contradiction|].
      simpl. apply Hin, upsert_not_nil.
    - now apply IH. }
  now apply G.
Qed.

Lemma aggregateByIDE_not_nil (records : list Rec.t) (r : Rec.t) (e : Entry.t) :
  In r records -> In e (JS.orNil (Rec.totals_by_ide r)) ->
  Dashboard.aggregateByIDE records <> [].
Proof.
  intros Hr He Hnil. unfold Dashboard.aggregateByIDE in Hnil.
  apply (f_equal (@List.length _)) in Hnil.
  rewrite sort_length, length_map in Hnil.
  apply length_zero_iff_nil in Hnil.
  revert Hnil.
  apply (for_entries_not_nil records Rec.totals_by_ide Entry.ide (0, 0)
           (fun i '(n, c) =>
              (n + JS.orZero (Entry.user_initiated_interaction_count i),
               c + JS.orZero (Entry.code_generation_activity_count i)))
           r e Hr He).
Qed.

(** C1.  The dispatcher is not total.  On a prompt that reaches the IDE branch
    ("ide" and none of the earlier keywords), whenever some record carries a
    [totals_by_ide] entry, [handleQuery] throws a TypeError instead of
    returning a [{markdown, chart}] value: the table row formats [i.users],
    a property that the rows of [aggregateByIDE] do not have. *)
Theorem handleQuery_ide_throws (records : list Rec.t) (prompt : string)
    (r : Rec.t) (e : Entry.t) :
  ide_prompt prompt = true ->
  In r records -> In e (JS.orNil (Rec.totals_by_ide r)) ->
  Dashboard.handleQuery records prompt
  = Throw (TypeError "Cannot read properties of undefined (reading 'toLocaleString')").
Proof.
  intros Hp Hr He. unfold ide_prompt in Hp.
  repeat (apply andb_prop in Hp; destruct Hp as [Hp ?]).
  unfold Dashboard.handleQuery.
  repeat match goal with
         | H : negb _ = true |- _ => apply negb_true_iff in H
         end.
  rewrite Hp.
  destruct (Dashboard.userMatch prompt); [discriminate|].
  repeat match goal with
         | H : _ = _ |- _ => rewrite H
         end.
  unfold Dashboard.ideResponse.
  rewrite (mapM_throw _
             (TypeError "Cannot read properties of undefined (reading 'toLocaleString')")).
  - reflexivity.
  - eapply aggregateByIDE_not_nil; eauto.
  - reflexivity.
Qed.

Lemma handleQuery_ide_throws_witness :
  Dashboard.handleQuery [ ide_record "2026-01-01" [ ide_entry "vscode" 1 ] ] "ide"
  = Throw (TypeError "Cannot read properties of undefined (reading 'toLocaleString')").
Proof.
  apply (handleQuery_ide_throws _ "ide"
           (ide_record "2026-01-01" [ ide_entry "vscode" 1 ])
           (ide_entry "vscode" 1)).
  - reflexivity.
  - simpl. auto.
  - simpl. auto.
Defined.

(** C2.  What the dispatcher answers to the two prompts about individuals,
    whatever the records.  ["@alice usage"] is answered by a sentence saying
    that no data was found, with a null chart.  ["top 10 users"] is answered
    by the heading and header of an empty table, with nothing about the data
    being unavailable, and with a chart object: a bar chart with no label and
    one empty dataset. *)
Theorem handleQuery_individuals (records : list Rec.t) :
  Dashboard.handleQuery records "@alice usage"
  = Return (Response.mk "No data found for user **@alice**." None None)
  /\ Dashboard.handleQuery records "top 10 users"
     = Return
         (Response.mk
            (JS.join_lines
               [ "# Top 10 Users by Interactions";
                 JS.cat JS.nl
                   "| Rank | User | Interactions | Code Generated | LOC Added | Days Active |";
                 "|------|------|-------------|----------------|-----------|-------------|" ])
            (Some (Chart.mk None bar false [] [ Dataset.mk "Interactions" [] ]))
            None).
Proof.
  split; reflexivity.
Qed.

(** C6.  Dispatcher priority.  For every record collection, a prompt that
    matches the report-creation pattern and contains a language keyword
    resolves to the language composite, whether or not it also contains a
    model keyword; the request "generate a language and model report" is such
    a prompt, and the language composite is not the model composite. *)
Theorem handleQuery_language_first (records : list Rec.t) (prompt : string) :
  Dashboard.isReport prompt = true ->
  JS.includes (JS.toLowerCase prompt) "language"
  || JS.includes (JS.toLowerCase prompt) "lang" = true ->
  Dashboard.handleQuery records prompt = Return (Dashboard.languageReport records)
  /\ Dashboard.languageReport records <> Dashboard.modelReport records.
Proof.
  intros Hr Hl. split.
  - unfold Dashboard.handleQuery. now rewrite Hr, Hl.
  - intros Heq. apply (f_equal Response.markdown) in Heq.
    unfold Dashboard.languageReport, Dashboard.modelReport in Heq.
    cbn [Response.markdown] in Heq.
    unfold JS.join_lines in Heq. simpl in Heq. discriminate Heq.
Qed.

Lemma handleQuery_language_first_witness :
  JS.includes (JS.toLowerCase "generate a language and model report") "model" = true
  /\ Dashboard.handleQuery [] "generate a language and model report"
     = Return (Dashboard.languageReport []).
Proof.
  split; [reflexivity|].
  apply (handleQuery_language_first [] "generate a language and model report");
    reflexivity.
Defined.

(* ------------------------------------------------------------------------- *)
(** ** Report compilation on an empty window *)

(** C7.  On zero records the aggregations return their identity values: a
    field sum is 0, the categorical aggregations are empty lists and the day
    series are empty.  Report compilation does not complete: after storing
    its first three reports, [generateReports] throws the TypeError of
    [reduce] on an empty array while it builds the usage-trends report. *)
Theorem generateReports_empty_window (field : Rec.t -> option Z)
    (pre : JS.obj Response.t) :
  Dashboard.sumField [] field = 0
  /\ Dashboard.aggregateByFeature [] = []
  /\ Dashboard.aggregateByLanguage [] = []
  /\ Dashboard.aggregateByModel [] = []
  /\ Dashboard.aggregateByIDE [] = []
  /\ Dashboard.aggregateByDay [] = []
  /\ Dashboard.aggregateDailyActiveUsers [] = []
  /\ Dashboard.aggregateWeeklyActiveUsers [] = []
  /\ DaySeries.days (Dashboard.aggregateModelUsagePerDay []) = []
  /\ snd (Dashboard.generateReports [] pre)
     = Throw (TypeError "Reduce of empty array with no initial value")
  /\ JS.keys (fst (Dashboard.generateReports [] []))
     = [ "copilot-usage"; "code-generation"; "executive-summary" ].
Proof.
  repeat split; reflexivity.
Qed.

(* ------------------------------------------------------------------------- *)
(** ** The two language aggregations *)

Section UpsertFacts.

Context {V W : Type}.
Variable g : V -> W.

Lemma upsert_map (k : string) (init : V) (f : V -> V) (init' : W) (f' : W -> W)
    (o : JS.obj V) :
  g (f init) = f' init' ->
  (forall v, g (f v) = f' (g v)) ->
  map (fun kv => (fst kv, g (snd kv))) (JS.upsert k init f o)
  = JS.upsert k init' f' (map (fun kv => (fst kv, g (snd kv))) o).
Proof.
  intros Hi Hf. induction o as [|[k' v] o IH]; simpl.
  - now rewrite Hi.
  - destruct (String.eqb k k'); simpl.
    + now rewrite Hf.
    + now rewrite IH.
Qed.

(** Two dictionaries filled by the same loop stay related by [g] when every
    single update does. *)
Lemma for_entries_map (records : list Rec.t)
    (field : Rec.t -> option (list Entry.t))
    (body : JS.obj V -> Entry.t -> JS.obj V)
    (body' : JS.obj W -> Entry.t -> JS.obj W) :
  (forall o e,
      map (fun kv => (fst kv, g (snd kv))) (body o e)
      = body' (map (fun kv => (fst kv, g (snd kv))) o) e) ->
  map (fun kv => (fst kv, g (snd kv))) (Dashboard.for_entries records field body [])
  = Dashboard.for_entries records field body' [].
Proof.
  intros Hb. unfold Dashboard.for_entries.
  change (@nil (string * W)) with (map (fun kv : string * V => (fst kv, g (snd kv))) []).
  generalize (@nil (string * V)).
  induction records as [|r rs IH]; intros o; simpl; [reflexivity|].
  rewrite IH. f_equal.
  generalize (JS.orNil (field r)). intros es. revert o.
  induction es as [|e es IHe]; intros o; simpl; [reflexivity|].
  now rewrite IHe, Hb.
Qed.

End UpsertFacts.

(** C9 as stated fails.  With sixteen languages in the records the dashboard
    returns 15 entries and the MCP server 16; and two record collections that
    differ only in accepted code give one dashboard result and two MCP
    results. *)
Lemma language_aggregations_differ :
  List.length (Dashboard.aggregateByLanguage sixteen_languages) = 15%nat
  /\ List.length (Mcp.getLanguageUsage sixteen_languages) = 16%nat
  /\ Dashboard.aggregateByLanguage
       [ language_record "2026-01-01" [ language_entry "go" 1 5 ] ]
     = Dashboard.aggregateByLanguage
         [ language_record "2026-01-01" [ language_entry "go" 1 7 ] ]
  /\ Mcp.getLanguageUsage
       [ language_record "2026-01-01" [ language_entry "go" 1 5 ] ]
     <> Mcp.getLanguageUsage
          [ language_record "2026-01-01" [ language_entry "go" 1 7 ] ].
Proof.
  repeat split; try reflexivity.
  vm_compute. discriminate.
Qed.

(** C9, amended.  For every record collection the dashboard's language
    aggregation is the MCP server's language aggregation cut to its first 15
    entries, each without its [codeAccepted] field: the same languages in the
    same order with the same [codeGenerated] and [locAdded] totals. *)
Theorem language_aggregations_agree (records : list Rec.t) :
  Dashboard.aggregateByLanguage records
  = map drop_accepted (firstn 15 (Mcp.getLanguageUsage records)).
Proof.
  unfold Dashboard.aggregateByLanguage, Mcp.getLanguageUsage.
  change 15 with (Z.of_nat 15). change 20 with (Z.of_nat 20).
  rewrite !slice_firstn.
  rewrite firstn_firstn. change (Nat.min 15 20) with 15%nat.
  rewrite <- firstn_map. f_equal.
  rewrite (sort_map drop_accepted _
             (fun a b => LanguageRow.codeGenerated b - LanguageRow.codeGenerated a))
    by reflexivity.
  f_equal. rewrite map_map.
  rewrite <- (for_entries_map (fun t : Z * Z * Z => (fst (fst t), snd t)) records
                Rec.totals_by_language_feature
                (fun (langs : JS.obj (Z * Z * Z)) l =>
                   JS.upsert (Entry.language l) (0, 0, 0)
                     (fun '(c, acc, a) =>
                        (c + JS.orZero (Entry.code_generation_activity_count l),
                         acc + JS.orZero (Entry.code_acceptance_activity_count l),
                         a + JS.orZero (Entry.loc_added_sum l)))
                     langs)).
  - rewrite map_map. apply map_ext. intros [k [[c acc] a]]. reflexivity.
  - intros o e.
    apply (upsert_map (fun t : Z * Z * Z => (fst (fst t), snd t))).
    + reflexivity.
    + intros [[c acc] a]. reflexivity.
Qed.

(* ------------------------------------------------------------------------- *)
(** ** Refresh: loads in flight *)

Lemma lazy_inv_step (s : Mcp.state) (e : Mcp.event) :
  Mcp.lazy_only e = true -> lazy_inv s -> lazy_inv (Mcp.step s e).
Proof.
  intros He Hinv.
  destruct e as [| |id|id]; try discriminate; simpl.
  - unfold Mcp.ensureData.
    destruct (Mcp.dataLoaded s) eqn:Hl; simpl; [assumption|].
    destruct (Mcp.dataLoading s) as [p|] eqn:Hp; simpl; [assumption|].
    destruct Hinv as [[Hin _] | [x [_ [Hx _]]]]; [|congruence].
    right. exists (Mcp.started s). simpl. rewrite Hin. auto.
  - destruct Hinv as [[Hin Hn] | [x [Hin [Hp Hl]]]]; rewrite Hin; simpl.
    + left. auto.
    + destruct (Nat.eqb id x) eqn:E; simpl.
      * left. simpl. unfold Mcp.remove_id. simpl.
        rewrite Nat.eqb_sym, E. simpl. split; [reflexivity|].
        rewrite Hp. discriminate.
      * right. exists x. auto.
  - destruct Hinv as [[Hin Hn] | [x [Hin [Hp Hl]]]]; rewrite Hin; simpl.
    + left. simpl. auto.
    + unfold Mcp.remove_id. simpl. destruct (Nat.eqb x id); simpl.
      * left. simpl. split; [reflexivity|]. rewrite Hp. discriminate.
      * right. exists x. simpl. auto.
Qed.

Lemma lazy_inv_run (trace : list Mcp.event) (s : Mcp.state) :
  forallb Mcp.lazy_only trace = true -> lazy_inv s -> lazy_inv (Mcp.run s trace).
Proof.
  revert s. induction trace as [|e tr IH]; intros s Ht Hs; simpl in *.
  - exact Hs.
  - apply andb_prop in Ht. destruct Ht as [He Ht].
    apply IH; [assumption|]. now apply lazy_inv_step.
Qed.

(** C10 as stated fails.  Two [refresh_data] calls leave two loads in flight,
    so do two requests to [POST /api/refresh], and so does a tool call that
    goes through [ensureData] while a [refresh_data] load is running. *)
Lemma refresh_overlaps :
  Mcp.inflight (Mcp.run Mcp.init [ Mcp.CallRefreshData; Mcp.CallRefreshData ])
  = [ 0%nat; 1%nat ]
  /\ Mcp.inflight (Mcp.run Mcp.init [ Mcp.CallRefreshData; Mcp.CallEnsureData ])
     = [ 0%nat; 1%nat ]
  /\ ApiRefresh.inflight
       (ApiRefresh.run ApiRefresh.init
          [ ApiRefresh.PostRefresh; ApiRefresh.PostRefresh ])
     = [ 0%nat; 1%nat ].
Proof.
  repeat split.
Qed.

(** C10, amended.  On the MCP server, as long as loads are started by
    [ensureData] only, at most one load is in flight, and a call of
    [ensureData] arriving while a load is running starts none: it is handed
    the promise of the running load and leaves the state as it is.  The
    dashboard's [POST /api/refresh] starts one more load on every request. *)
Theorem ensureData_single_flight (trace : list Mcp.event) :
  forallb Mcp.lazy_only trace = true ->
  let s := Mcp.run Mcp.init trace in
  (List.length (Mcp.inflight s) <= 1)%nat
  /\ (forall id, In id (Mcp.inflight s) -> Mcp.ensureData s = (s, Mcp.Load id))
  /\ forall d : ApiRefresh.state,
       List.length (ApiRefresh.inflight (ApiRefresh.step d ApiRefresh.PostRefresh))
       = S (List.length (ApiRefresh.inflight d)).
Proof.
  intros Ht s.
  assert (Hinv : lazy_inv s).
  { apply lazy_inv_run; [assumption|]. left. simpl. auto. }
  split; [|split].
  - destruct Hinv as [[H _] | [id [H _]]]; rewrite H; simpl; lia.
  - intros id Hin. destruct Hinv as [[H _] | [x [H [Hp Hl]]]].
    + rewrite H in Hin. contradiction.
    + rewrite H in Hin. destruct Hin as [<-|[]].
      unfold Mcp.ensureData. now rewrite Hl, Hp.
  - intros d. simpl. rewrite length_app. simpl. lia.
Qed.

Lemma ensureData_single_flight_witness :
  let s :=
    Mcp.run Mcp.init
      [ Mcp.CallEnsureData; Mcp.CallEnsureData; Mcp.Rejected 7;
        Mcp.CallEnsureData ] in
  Mcp.inflight s = [ 0%nat ]
  /\ (List.length (Mcp.inflight s) <= 1)%nat
  /\ Mcp.ensureData s = (s, Mcp.Load 0%nat).
Proof.
  pose proof (ensureData_single_flight
                [ Mcp.CallEnsureData; Mcp.CallEnsureData; Mcp.Rejected 7;
                  Mcp.CallEnsureData ] eq_refl) as [Hle [Hattach _]].
  split; [reflexivity|]. split; [exact Hle|].
  apply Hattach. simpl. auto.
Defined.

(* ------------------------------------------------------------------------- *)
(** ** The order of days *)

Lemma str_cmp_le_total (a b : string) :
  ~ JS.str_cmp a b <= 0 -> JS.str_cmp b a <= 0.
Proof.
  unfold JS.str_cmp. rewrite (String.compare_antisym a b).
  destruct (String.compare b a); simpl; lia.
Qed.

Lemma compare_lt_trans (a b c : string) :
  String.compare a b = Lt -> String.compare b c = Lt -> String.compare a c = Lt.
Proof.
  intros H1 H2.
  apply OrderedTypeEx.String_as_OT.cmp_lt.
  eapply OrderedTypeEx.String_as_OT.lt_trans;
    apply OrderedTypeEx.String_as_OT.cmp_lt; eassumption.
Qed.

Lemma str_cmp_le_trans (a b c : string) :
  JS.str_cmp a b <= 0 -> JS.str_cmp b c <= 0 -> JS.str_cmp a c <= 0.
Proof.
  unfold JS.str_cmp. intros H1 H2.
  destruct (String.compare a b) eqn:E1; try lia;
    destruct (String.compare b c) eqn:E2; try lia.
  - apply String.compare_eq_iff in E1. subst. now rewrite E2.
  - apply String.compare_eq_iff in E1. subst. now rewrite E2.
  - apply String.compare_eq_iff in E2. subst. now rewrite E1.
  - now rewrite (compare_lt_trans a b c).
Qed.

Lemma str_cmp_le_neq (a b : string) :
  JS.str_cmp a b <= 0 -> a <> b -> JS.str_lt a b = true.
Proof.
  unfold JS.str_lt, JS.str_cmp. intros H Hne.
  destruct (String.compare a b) eqn:E; try lia; try reflexivity.
  apply String.compare_eq_iff in E. contradiction.
Qed.

Lemma insert_sorted_le (x : string) (l : list string) :
  StronglySorted (fun a b => JS.str_cmp a b <= 0) l ->
  StronglySorted (fun a b => JS.str_cmp a b <= 0) (JS.insert JS.str_cmp x l).
Proof.
  induction l as [|y l IH]; intros Hs; simpl.
  - repeat constructor.
  - inversion Hs as [|? ? Hs' Hy]; subst.
    destruct (Z.leb_spec (JS.str_cmp x y) 0) as [Hle|Hgt].
    + constructor; [assumption|]. constructor; [assumption|].
      rewrite Forall_forall in *. intros z Hz.
      eapply str_cmp_le_trans; eauto.
    + constructor; [auto|].
      rewrite Forall_forall in *. intros z Hz.
      apply (Permutation_in _ (insert_perm _ x l)) in Hz.
      destruct Hz as [<-|Hz]; [|now apply Hy].
      apply str_cmp_le_total. lia.
Qed.

Lemma sort_sorted_le (l : list string) :
  StronglySorted (fun a b => JS.str_cmp a b <= 0) (JS.sort JS.str_cmp l).
Proof.
  induction l as [|x l IH]; unfold JS.sort in *; simpl.
  - constructor.
  - now apply insert_sorted_le.
Qed.

Lemma dedup_in (l : list string) (x : string) : In x (JS.dedup l) <-> In x l.
Proof.
  induction l as [|y l IH]; simpl; [tauto|].
  rewrite filter_In, IH, negb_true_iff, String.eqb_neq.
  destruct (String.string_dec y x); intuition congruence.
Qed.

Lemma dedup_nodup (l : list string) : NoDup (JS.dedup l).
Proof.
  induction l as [|y l IH]; simpl; constructor.
  - rewrite filter_In, negb_true_iff, String.eqb_neq. tauto.
  - now apply NoDup_filter.
Qed.

Lemma sorted_nodup_strict (l : list string) :
  StronglySorted (fun a b => JS.str_cmp a b <= 0) l -> NoDup l ->
  StronglySorted (fun a b => JS.str_lt a b = true) l.
Proof.
  induction 1 as [|x l Hs IH Hx]; intros Hnd; constructor.
  - apply IH. now inversion Hnd.
  - inversion Hnd as [|? ? Hnin _]; subst.
    rewrite Forall_forall in *. intros y Hy.
    apply str_cmp_le_neq; [now apply Hx|]. intros ->. contradiction.
Qed.

Lemma getSortedDays_nodup (records : list Rec.t) :
  NoDup (Dashboard.getSortedDays records).
Proof.
  unfold Dashboard.getSortedDays.
  eapply Permutation_NoDup; [symmetry; apply sort_perm|]. apply dedup_nodup.
Qed.

Lemma getSortedDays_sorted (records : list Rec.t) :
  StronglySorted (fun a b => JS.str_lt a b = true) (Dashboard.getSortedDays records).
Proof.
  apply sorted_nodup_strict; [apply sort_sorted_le | apply getSortedDays_nodup].
Qed.

Lemma getSortedDays_in (records : list Rec.t) (d : string) :
  In d (Dashboard.getSortedDays records) <-> exists r, In r records /\ Rec.day r = d.
Proof.
  unfold Dashboard.getSortedDays. rewrite sort_in, dedup_in, in_map_iff.
  split; intros [r [H1 H2]]; exists r; auto.
Qed.

(* ------------------------------------------------------------------------- *)
(** ** The rolling average of daily active users *)

Lemma get_upsert {V : Type} (k k' : string) (init : V) (f : V -> V) (o : JS.obj V) :
  JS.get (JS.upsert k init f o) k'
  = if String.eqb k' k
    then Some (f match JS.get o k with Some v => v | None => init end)
    else JS.get o k'.
Proof.
  induction o as [|[k0 v] o IH]; simpl.
  - destruct (String.eqb k' k); reflexivity.
  - destruct (String.eqb_spec k k0) as [->|Hne]; simpl.
    + destruct (String.eqb k' k0); reflexivity.
    + rewrite IH. destruct (String.eqb_spec k' k0) as [->|Hne'].
      * destruct (String.eqb_spec k0 k); [congruence|reflexivity].
      * reflexivity.
Qed.

Lemma dauByDay_raw (records : list Rec.t) (d : string) :
  JS.orZero (JS.get (Dashboard.dauByDay records) d) = rawDau records d.
Proof.
  unfold Dashboard.dauByDay, rawDau.
  induction records as [|r rs IH] using rev_ind; [reflexivity|].
  rewrite fold_left_app, rev_app_distr. simpl.
  unfold JS.put. rewrite get_upsert.
  rewrite (String.eqb_sym (Rec.day r) d).
  destruct (String.eqb d (Rec.day r)); [reflexivity|exact IH].
Qed.

Lemma mapi_from_nth {A B : Type} (f : A -> Z -> B) (l : list A) (i : Z) (k : nat) :
  nth_error (mapi_from f i l) k
  = option_map (fun x => f x (i + Z.of_nat k)) (nth_error l k).
Proof.
  revert i k. induction l as [|x l IH]; intros i [|k]; simpl; try reflexivity.
  - now rewrite Z.add_0_r.
  - rewrite IH. destruct (nth_error l k); simpl; [|reflexivity].
    do 2 f_equal. lia.
Qed.

Lemma mapi_from_map {A B C : Type} (f : A -> Z -> B) (g : B -> C) (h : A -> C)
    (l : list A) (i : Z) :
  (forall x z, g (f x z) = h x) -> map g (mapi_from f i l) = map h l.
Proof.
  intros H. revert i. induction l as [|x l IH]; intros i; simpl; [reflexivity|].
  now rewrite H, IH.
Qed.

(** [slice] between two positions of the list. *)
Lemma slice_window {A : Type} (l : list A) (a b : nat) :
  (a <= b <= List.length l)%nat ->
  JS.slice l (Z.of_nat a) (Z.of_nat b) = firstn (b - a) (skipn a l).
Proof.
  intros H. unfold JS.slice, JS.rel_index.
  destruct (Z.ltb_spec (Z.of_nat a) 0); [lia|].
  destruct (Z.ltb_spec (Z.of_nat b) 0); [lia|].
  rewrite !Z.min_l by lia.
  rewrite <- Nat2Z.inj_sub by lia. now rewrite !Nat2Z.id.
Qed.

Lemma window_as_indices {A : Type} (d : A) (l : list A) (a n : nat) :
  (a + n <= List.length l)%nat ->
  firstn n (skipn a l) = map (fun k => nth k l d) (seq a n).
Proof.
  revert l a. induction n as [|n IH]; intros l a H; simpl.
  - reflexivity.
  - destruct (skipn a l) as [|x t] eqn:E.
    + apply (f_equal (@List.length _)) in E. rewrite length_skipn in E.
      simpl in E. lia.
    + assert (Hx : nth a l d = x).
      { rewrite <- (firstn_skipn a l) at 1. rewrite E.
        rewrite app_nth2; rewrite length_firstn, Nat.min_l by lia; [|lia].
        now rewrite Nat.sub_diag. }
      rewrite Hx. f_equal.
      rewrite <- (IH l (S a)) by lia.
      replace (skipn (S a) l) with t; [reflexivity|].
      change (S a) with (1 + a)%nat. rewrite <- skipn_skipn, E. reflexivity.
Qed.

Lemma round_div_nearest (sum : Z) (n : nat) :
  (0 < n)%nat -> nearest_mean sum n (JS.round_div sum (Z.of_nat n)).
Proof.
  intros Hn. unfold nearest_mean, JS.round_div.
  assert (Hpos : 0 < 2 * Z.of_nat n) by lia.
  pose proof (Z.mul_div_le (2 * sum + Z.of_nat n) _ Hpos).
  pose proof (Z.mul_succ_div_gt (2 * sum + Z.of_nat n) _ Hpos).
  lia.
Qed.

Lemma reduce_sum_map {A : Type} (f : A -> Z) (l : list A) :
  JS.reduce (fun s d => s + f d) 0 l = total (fun v => v) (map f l).
Proof.
  rewrite reduce_total. unfold total. rewrite map_map. reflexivity.
Qed.

Lemma find_app_last {A : Type} (p : A -> bool) (l : list A) (x : A) :
  find p (l ++ [x])
  = match find p l with
    | Some y => Some y
    | None => if p x then Some x else None
    end.
Proof.
  induction l as [|y l IH]; simpl; [reflexivity|].
  destruct (p y); [reflexivity|exact IH].
Qed.

Lemma find_rev_unique (records : list Rec.t) (d : string) :
  NoDup (map Rec.day records) ->
  find (fun r => String.eqb (Rec.day r) d) (rev records)
  = find (fun r => String.eqb (Rec.day r) d) records.
Proof.
  induction records as [|r rs IH]; intros Hnd; simpl; [reflexivity|].
  inversion Hnd as [|? ? Hr Hnd']; subst.
  rewrite find_app_last, (IH Hnd').
  destruct (String.eqb_spec (Rec.day r) d) as [<-|Hne].
  - destruct (find _ rs) as [y|] eqn:E; [|reflexivity].
    apply find_some in E. destruct E as [Hy Hd].
    apply String.eqb_eq in Hd. exfalso. apply Hr.
    rewrite <- Hd. now apply in_map.
  - destruct (find _ rs); reflexivity.
Qed.

(** When every day has one record, the raw values that the rolling average
    reads are those of the raw daily series. *)
Lemma raw_daily_series (records : list Rec.t) :
  NoDup (map Rec.day records) ->
  map DauPoint.users (Dashboard.aggregateDailyActiveUsers records)
  = map (rawDau records) (Dashboard.getSortedDays records).
Proof.
  intros Hnd. unfold Dashboard.aggregateDailyActiveUsers, rawDau.
  rewrite map_map. apply map_ext. intros d. simpl.
  now rewrite find_rev_unique.
Qed.

(** C4.  The rolling-window series of daily active users has one entry per
    distinct day, in ascending day order; its entry at index [i] is the mean
    of the raw daily values at the indices from [max(0, i-6)] to [i], both
    included, rounded to the nearest integer; for [i < 6] that is exactly
    [i+1] samples, and never more than 7. *)
Theorem weekly_rolling_average (records : list Rec.t) :
  let days := Dashboard.getSortedDays records in
  let weekly := Dashboard.aggregateWeeklyActiveUsers records in
  map DauPoint.day weekly = days
  /\ StronglySorted (fun a b => JS.str_lt a b = true) days
  /\ (forall d, In d days <-> exists r, In r records /\ Rec.day r = d)
  /\ forall (i : nat) (day : string),
       nth_error days i = Some day ->
       let lo := (i - 6)%nat in
       let n := (i - lo + 1)%nat in
       let window := map (fun k => rawDau records (nth k days "")) (seq lo n) in
       ((i < 6)%nat -> n = (i + 1)%nat)
       /\ ((6 <= i)%nat -> n = 7%nat)
       /\ exists u,
            nth_error weekly i = Some (DauPoint.mk day u)
            /\ nearest_mean (total (fun v => v) window) n u.
Proof.
  intros days weekly.
  split; [|split; [|split]].
  - unfold weekly, Dashboard.aggregateWeeklyActiveUsers, mapi.
    fold days. rewrite (mapi_from_map _ _ (fun d => d)); [apply map_id|reflexivity].
  - apply getSortedDays_sorted.
  - apply getSortedDays_in.
  - intros i day Hi lo n window.
    assert (Hlen : (i < List.length days)%nat).
    { apply nth_error_Some. congruence. }
    split; [subst n lo; lia|]. split; [subst n lo; lia|].
    eexists. split.
    + unfold weekly, Dashboard.aggregateWeeklyActiveUsers, mapi.
      fold days. rewrite mapi_from_nth, Hi. simpl. reflexivity.
    + replace (Z.max 0 (Z.of_nat i - 6)) with (Z.of_nat lo) by (subst lo; lia).
      replace (Z.of_nat i + 1) with (Z.of_nat (i + 1)) by lia.
      rewrite slice_window by (subst lo; lia).
      replace (i + 1 - lo)%nat with n by (subst n lo; lia).
      rewrite (window_as_indices "" days lo n) by (subst n lo; lia).
      rewrite length_map, length_seq.
      rewrite (reduce_sum_map (fun d => JS.orZero (JS.get (Dashboard.dauByDay records) d))).
      rewrite map_map.
      rewrite (map_ext _ (fun k => rawDau records (nth k days "")))
        by (intros k; apply dauByDay_raw).
      apply round_div_nearest. subst n. lia.
Qed.

Lemma weekly_rolling_average_witness :
  Dashboard.aggregateWeeklyActiveUsers two_days
  = [ DauPoint.mk "2026-01-01" 100; DauPoint.mk "2026-01-02" 110 ]
  /\ exists u,
       nth_error (Dashboard.aggregateWeeklyActiveUsers two_days) 1
       = Some (DauPoint.mk "2026-01-02" u)
       /\ nearest_mean (100 + 120) 2 u.
Proof.
  split; [reflexivity|].
  destruct (weekly_rolling_average two_days) as [_ [_ [_ H]]].
  destruct (H 1%nat "2026-01-02" eq_refl) as [_ [_ Hu]].
  exact Hu.
Defined.

(* ------------------------------------------------------------------------- *)
(** ** Dictionaries in insertion order *)

Section DictFacts.

Context {V : Type}.

Lemma upsert_fresh (k : string) (init : V) (f : V -> V) (o : JS.obj V) :
  ~ In k (JS.keys o) -> JS.upsert k init f o = o ++ [(k, f init)].
Proof.
  induction o as [|[k' v] o IH]; simpl; intros Hk; [reflexivity|].
  destruct (String.eqb_spec k k') as [->|Hne]; [tauto|].
  rewrite IH; [reflexivity|tauto].
Qed.

Lemma keys_upsert_in (k : string) (init : V) (f : V -> V) (o : JS.obj V) :
  In k (JS.keys o) -> JS.keys (JS.upsert k init f o) = JS.keys o.
Proof.
  induction o as [|[k' v] o IH]; simpl; intros Hk; [contradiction|].
  destruct (String.eqb_spec k k') as [->|Hne]; simpl; [reflexivity|].
  f_equal. apply IH. destruct Hk; congruence.
Qed.

Lemma keys_upsert (k : string) (init : V) (f : V -> V) (o : JS.obj V) :
  JS.keys (JS.upsert k init f o) = JS.keys o
  \/ (~ In k (JS.keys o) /\ JS.keys (JS.upsert k init f o) = JS.keys o ++ [k]).
Proof.
  destruct (in_dec String.string_dec k (JS.keys o)) as [Hin|Hnin].
  - left. now apply keys_upsert_in.
  - right. split; [assumption|].
    rewrite upsert_fresh by assumption. unfold JS.keys. now rewrite map_app.
Qed.

Lemma keys_upsert_nodup (k : string) (init : V) (f : V -> V) (o : JS.obj V) :
  NoDup (JS.keys o) -> NoDup (JS.keys (JS.upsert k init f o)).
Proof.
  intros Hnd. destruct (keys_upsert k init f o) as [->|[Hnin ->]]; [assumption|].
  apply NoDup_app; [assumption | repeat constructor; auto |].
  intros x Hx [<-|[]]. contradiction.
Qed.

(** Updating one key of a table given by a function on its keys. *)
Lemma upsert_table (ks : list string) (h : string -> V) (k : string) (init : V)
    (f : V -> V) :
  NoDup ks -> In k ks ->
  JS.upsert k init f (map (fun x => (x, h x)) ks)
  = map (fun x => (x, if String.eqb x k then f (h x) else h x)) ks.
Proof.
  induction ks as [|x ks IH]; intros Hnd Hk; simpl; [contradiction|].
  inversion Hnd as [|? ? Hx Hnd']; subst.
  destruct (String.eqb_spec k x) as [->|Hne].
  - rewrite String.eqb_refl. f_equal.
    apply map_ext_in. intros y Hy.
    destruct (String.eqb_spec y x) as [->|]; [contradiction|reflexivity].
  - destruct (String.eqb_spec x k) as [->|_]; [congruence|].
    f_equal. apply IH; [assumption|]. destruct Hk; congruence.
Qed.

Lemma put_all_fresh (ks : list string) (v : V) (o : JS.obj V) :
  NoDup ks -> (forall k, In k ks -> ~ In k (JS.keys o)) ->
  fold_left (fun s m => JS.put m v s) ks o = o ++ map (fun k => (k, v)) ks.
Proof.
  revert o. induction ks as [|k ks IH]; intros o Hnd Hfresh; simpl.
  - now rewrite app_nil_r.
  - inversion Hnd as [|? ? Hk Hnd']; subst.
    unfold JS.put at 2. rewrite upsert_fresh by (apply Hfresh; now left).
    rewrite IH; [now rewrite <- app_assoc | assumption |].
    intros k' Hk' Hin. unfold JS.keys in Hin. rewrite map_app in Hin.
    apply in_app_or in Hin. destruct Hin as [Hin|[<-|[]]].
    + apply (Hfresh k'); [now right | exact Hin].
    + contradiction.
Qed.

(** The table [{ k1: v, ..., 'Other': v }] of [usagePerDay]. *)
Lemma table_init (top : list string) (v : V) :
  NoDup (top ++ ["Other"]) ->
  JS.put "Other" v (fold_left (fun s m => JS.put m v s) top [])
  = map (fun k => (k, v)) (top ++ ["Other"]).
Proof.
  intros Hnd.
  rewrite put_all_fresh; [|eapply NoDup_app_remove_r; eassumption|auto].
  simpl. unfold JS.put. rewrite upsert_fresh.
  - now rewrite map_app.
  - unfold JS.keys. rewrite map_map, map_id. simpl.
    intros Hin. apply NoDup_remove_2 in Hnd. rewrite app_nil_r in Hnd.
    contradiction.
Qed.

Lemma get_values (o : JS.obj V) (d : V) :
  NoDup (JS.keys o) ->
  map (fun k => match JS.get o k with Some v => v | None => d end) (JS.keys o)
  = JS.values o.
Proof.
  induction o as [|[k v] o IH]; simpl; intros Hnd; [reflexivity|].
  inversion Hnd as [|? ? Hk Hnd']; subst.
  rewrite String.eqb_refl. f_equal.
  rewrite <- IH by assumption.
  apply map_ext_in. intros k' Hk'.
  destruct (String.eqb_spec k' k) as [->|]; [contradiction|reflexivity].
Qed.

End DictFacts.

Lemma push_all_table (ks : list string) (h : string -> list Z) (value : string -> Z) :
  NoDup ks ->
  Dashboard.push_all (map (fun k => (k, h k)) ks) ks value
  = map (fun k => (k, h k ++ [value k])) ks.
Proof.
  intros Hnd. unfold Dashboard.push_all.
  assert (G : forall ns h,
            NoDup ns -> incl ns ks ->
            fold_left
              (fun series name =>
                 JS.upsert name [] (fun l => l ++ [value name]) series)
              ns (map (fun k => (k, h k)) ks)
            = map (fun k => (k, if JS.mem k ns then h k ++ [value k] else h k)) ks).
  { induction ns as [|n ns IH]; intros h0 Hns Hincl; simpl; [reflexivity|].
    inversion Hns as [|? ? Hn Hns']; subst.
    rewrite upsert_table; [|assumption|apply Hincl; now left].
    rewrite (IH (fun x => if String.eqb x n then h0 x ++ [value n] else h0 x));
      [|assumption|intros x Hx; apply Hincl; now right].
    apply map_ext. intros k.
    destruct (String.eqb_spec k n) as [->|Hne]; simpl.
    - assert (Hm : JS.mem n ns = false).
      { unfold JS.mem. apply not_true_is_false. intros Hex.
        apply existsb_exists in Hex. destruct Hex as [y [Hy Heq]].
        apply String.eqb_eq in Heq. subst. contradiction. }
      now rewrite Hm.
    - reflexivity. }
  rewrite G; [|assumption|apply incl_refl].
  apply map_ext_in. intros k Hk.
  assert (Hm : JS.mem k ks = true).
  { unfold JS.mem. apply existsb_exists. exists k. split; [assumption|].
    apply String.eqb_refl. }
  now rewrite Hm.
Qed.

(** The series after all days: per key, the day values in day order. *)
Lemma series_fold {D : Type} (ks : list string) (days : list D)
    (value : D -> string -> Z) (h : string -> list Z) :
  NoDup ks ->
  fold_left (fun series day => Dashboard.push_all series ks (value day)) days
    (map (fun k => (k, h k)) ks)
  = map (fun k => (k, h k ++ map (fun d => value d k) days)) ks.
Proof.
  intros Hnd. revert h. induction days as [|d days IH]; intros h; simpl.
  - apply map_ext. intros k. now rewrite app_nil_r.
  - rewrite push_all_table by assumption.
    rewrite (IH (fun k => h k ++ [value d k])).
    apply map_ext. intros k. now rewrite <- app_assoc.
Qed.

(* ------------------------------------------------------------------------- *)
(** ** The percentage-normalized per-day series *)

Lemma for_entries_flat {S : Type} (records : list Rec.t)
    (field : Rec.t -> option (list Entry.t)) (body : S -> Entry.t -> S) (init : S) :
  Dashboard.for_entries records field body init
  = fold_left body (flat_map (fun r => JS.orNil (field r)) records) init.
Proof.
  unfold Dashboard.for_entries. revert init.
  induction records as [|r rs IH]; intros init; simpl; [reflexivity|].
  now rewrite fold_left_app, IH.
Qed.

Lemma recordsOf_filter (records : list Rec.t) (day : string) :
  Dashboard.recordsOf (Dashboard.getRecordsByDay records) day
  = filter (fun r => String.eqb (Rec.day r) day) records.
Proof.
  unfold Dashboard.recordsOf, Dashboard.getRecordsByDay.
  induction records as [|r rs IH] using rev_ind; [reflexivity|].
  rewrite fold_left_app, filter_app. simpl.
  rewrite get_upsert. rewrite (String.eqb_sym day (Rec.day r)).
  destruct (String.eqb_spec (Rec.day r) day) as [Heq|Hne]; simpl.
  - rewrite <- IH, <- Heq. unfold JS.orNil.
    destruct (JS.get _ (Rec.day r)); reflexivity.
  - rewrite app_nil_r. exact IH.
Qed.

Lemma nth_map_some {A B : Type} (f : A -> B) (l : list A) (j : nat) (d : B) (x : A) :
  nth_error l j = Some x -> nth j (map f l) d = f x.
Proof.
  revert j. induction l as [|y l IH]; intros [|j] H; simpl in *; try discriminate.
  - now inversion H.
  - now apply IH.
Qed.

Lemma values_upsert_add (k : string) (c : Z) (o : JS.obj Z) :
  total (fun v => v) (JS.values (JS.upsert k 0 (fun v => v + c) o))
  = total (fun v => v) (JS.values o) + c.
Proof.
  unfold JS.values, total.
  induction o as [|[k' v] o IH]; simpl; [lia|].
  destruct (String.eqb k k'); simpl; lia.
Qed.

Section UsageFacts.

Variable records : list Rec.t.
Variable field : Rec.t -> option (list Entry.t).
Variable key : Entry.t -> string.
Variable cnt : Entry.t -> Z.

Let top : list string := Dashboard.topKeys records field key cnt.
Let ks : list string := top ++ ["Other"].

Lemma categoryTotals_keys :
  NoDup (JS.keys (Dashboard.categoryTotals records field key cnt))
  /\ forall k, In k (JS.keys (Dashboard.categoryTotals records field key cnt)) ->
               exists e, In e (flat_map (fun r => JS.orNil (field r)) records)
                         /\ key e = k.
Proof.
  unfold Dashboard.categoryTotals. rewrite for_entries_flat.
  generalize (flat_map (fun r => JS.orNil (field r)) records). intros es.
  induction es as [|e es IH] using rev_ind; simpl.
  - split; [constructor|contradiction].
  - rewrite fold_left_app. simpl. destruct IH as [Hnd Hin]. split.
    + now apply keys_upsert_nodup.
    + intros k Hk.
      destruct (keys_upsert (key e) 0 (fun v => v + cnt e)
                  (fold_left
                     (fun totals m => JS.upsert (key m) 0 (fun v => v + cnt m) totals)
                     es [])) as [Heq|[_ Heq]];
        rewrite Heq in Hk.
      * destruct (Hin k Hk) as [e' [He' Hk']]. exists e'. split; [|assumption].
        apply in_or_app. now left.
      * apply in_app_or in Hk. destruct Hk as [Hk|[<-|[]]].
        -- destruct (Hin k Hk) as [e' [He' Hk']]. exists e'. split; [|assumption].
           apply in_or_app. now left.
        -- exists e. split; [|reflexivity]. apply in_or_app. right. now left.
Qed.

Lemma top_facts :
  NoDup top /\ (List.length top <= 5)%nat
  /\ forall k, In k top ->
               exists e, In e (flat_map (fun r => JS.orNil (field r)) records)
                         /\ key e = k.
Proof.
  destruct categoryTotals_keys as [Hnd Hin].
  unfold top, Dashboard.topKeys.
  change 5 with (Z.of_nat 5). rewrite slice_firstn, <- firstn_map.
  set (sorted := JS.sort _ _).
  assert (Hperm : Permutation (map fst sorted)
                    (JS.keys (Dashboard.categoryTotals records field key cnt))).
  { apply Permutation_map, sort_perm. }
  split; [|split].
  - assert (Hs : NoDup (map fst sorted)).
    { eapply Permutation_NoDup; [symmetry; exact Hperm|exact Hnd]. }
    rewrite <- (firstn_skipn 5 (map fst sorted)) in Hs.
    eapply NoDup_app_remove_r; eassumption.
  - rewrite length_firstn. lia.
  - intros k Hk. apply Hin.
    eapply Permutation_in; [exact Hperm|]. eapply in_firstn; eassumption.
Qed.

Hypothesis Hother : no_Other records field key.

Lemma ks_nodup : NoDup ks.
Proof.
  destruct top_facts as [Hnd [_ Hin]]. unfold ks.
  apply NoDup_app; [assumption | repeat constructor; auto |].
  intros k Hk [<-|[]].
  destruct (Hin _ Hk) as [e [He Hke]].
  apply in_flat_map in He. destruct He as [r [Hr He]].
  exact (Hother r e Hr He Hke).
Qed.

Lemma ks_length : (List.length ks <= 6)%nat.
Proof.
  destruct top_facts as [_ [Hlen _]]. unfold ks.
  rewrite length_app. simpl. lia.
Qed.

(** A day's counts: the keys are the series keys, and the values add up to
    the day's total. *)
Lemma dayCounts_facts (dayRecords : list Rec.t) :
  JS.keys (Dashboard.dayCounts records field key cnt dayRecords) = ks
  /\ total (fun v => v) (JS.values (Dashboard.dayCounts records field key cnt dayRecords))
     = total cnt (flat_map (fun r => JS.orNil (field r)) dayRecords).
Proof.
  unfold Dashboard.dayCounts. fold top.
  rewrite (table_init top 0 ks_nodup). fold ks.
  change (fold_left
            (fun dayCounts r =>
               fold_left
                 (fun dayCounts m =>
                    if JS.mem (key m) top
                    then JS.upsert (key m) 0 (fun v => v + cnt m) dayCounts
                    else JS.upsert "Other" 0 (fun v => v + cnt m) dayCounts)
                 (JS.orNil (field r)) dayCounts)
            dayRecords (map (fun k => (k, 0)) ks))
    with (Dashboard.for_entries dayRecords field
            (fun dayCounts m =>
               if JS.mem (key m) top
               then JS.upsert (key m) 0 (fun v => v + cnt m) dayCounts
               else JS.upsert "Other" 0 (fun v => v + cnt m) dayCounts)
            (map (fun k => (k, 0)) ks)).
  rewrite for_entries_flat.
  generalize (flat_map (fun r => JS.orNil (field r)) dayRecords). intros es.
  induction es as [|e es IH] using rev_ind; simpl.
  - split.
    + unfold JS.keys. rewrite map_map. apply map_id.
    + unfold JS.values, total. rewrite !map_map. simpl.
      clear. induction ks; simpl; [reflexivity|assumption].
  - rewrite fold_left_app. simpl. destruct IH as [Hkeys Hsum].
    set (dc := fold_left _ es _) in *.
    assert (Hup : forall k, In k ks ->
              JS.keys (JS.upsert k 0 (fun v => v + cnt e) dc) = ks
              /\ total (fun v => v) (JS.values (JS.upsert k 0 (fun v => v + cnt e) dc))
                 = total cnt (es ++ [e])).
    { intros k Hk. split.
      - rewrite keys_upsert_in; [assumption|]. now rewrite Hkeys.
      - rewrite values_upsert_add, total_app, <- Hsum.
        unfold total. simpl. lia. }
    destruct (JS.mem (key e) top) eqn:Hm.
    + apply Hup. unfold JS.mem in Hm. apply existsb_exists in Hm.
      destruct Hm as [y [Hy Heq]]. apply String.eqb_eq in Heq. subst y.
      unfold ks. apply in_or_app. now left.
    + apply Hup. unfold ks. apply in_or_app. right. now left.
Qed.

(** Rounding each share to a hundredth moves the sum by at most half a
    hundredth per share. *)
Lemma pct_sum_bound (t : Z) (cs : list Z) :
  0 < t ->
  20000 * total (fun v => v) cs - Z.of_nat (List.length cs) * t
  <= 2 * t * total (fun v => v) (map (fun c => Dashboard.pct c t) cs)
  <= 20000 * total (fun v => v) cs + Z.of_nat (List.length cs) * t.
Proof.
  intros Ht. induction cs as [|c cs IH]; [unfold total; simpl; lia|].
  change (total (fun v => v) (c :: cs)) with (c + total (fun v => v) cs).
  change (total (fun v => v) (map (fun c => Dashboard.pct c t) (c :: cs)))
    with (Dashboard.pct c t + total (fun v => v) (map (fun c => Dashboard.pct c t) cs)).
  change (List.length (c :: cs)) with (S (List.length cs)).
  rewrite Nat2Z.inj_succ.
  assert (Hc : 20000 * c - t <= 2 * t * Dashboard.pct c t <= 20000 * c + t).
  { unfold Dashboard.pct, JS.round_div.
    assert (Hpos : 0 < 2 * t) by lia.
    pose proof (Z.mul_div_le (2 * (10000 * c) + t) _ Hpos).
    pose proof (Z.mul_succ_div_gt (2 * (10000 * c) + t) _ Hpos).
    lia. }
  lia.
Qed.

Lemma day_values_bound (j : nat) (day : string) :
  nth_error (Dashboard.getSortedDays records) j = Some day ->
  dayTotal records field cnt day > 0 ->
  sums_to_100 3 (day_values (Dashboard.usagePerDay records field key cnt) j).
Proof.
  intros Hj Hpos.
  pose proof ks_nodup as Hnd. pose proof ks_length as Hlen.
  unfold day_values, Dashboard.usagePerDay. cbn [DaySeries.series].
  fold top. rewrite (table_init top [] Hnd). fold ks.
  rewrite (series_fold ks (Dashboard.getSortedDays records)
             (fun day =>
                Dashboard.dayShare
                  (Dashboard.dayCounts records field key cnt
                     (Dashboard.recordsOf (Dashboard.getRecordsByDay records) day)))
             (fun _ => []) Hnd).
  rewrite map_map. cbn [snd app].
  set (dc := Dashboard.dayCounts records field key cnt
               (Dashboard.recordsOf (Dashboard.getRecordsByDay records) day)).
  rewrite (map_ext _ (fun k => Dashboard.dayShare dc k)).
  2:{ intros k. now rewrite (nth_map_some _ _ _ _ day Hj). }
  destruct (dayCounts_facts (Dashboard.recordsOf (Dashboard.getRecordsByDay records) day))
    as [Hkeys Hsum].
  fold dc in Hkeys, Hsum.
  rewrite recordsOf_filter in Hsum.
  change (total cnt _) with (dayTotal records field cnt day) in Hsum.
  unfold Dashboard.dayShare.
  assert (Ht : JS.reduce Z.add 0 (JS.values dc) = dayTotal records field cnt day).
  { rewrite <- Hsum.
    exact (eq_trans (reduce_total (fun v => v) (JS.values dc) 0) (Z.add_0_l _)). }
  rewrite Ht.
  destruct (Z.gtb_spec (dayTotal records field cnt day) 0) as [Hgt|]; [|lia].
  rewrite <- (map_map (fun k => JS.orZero (JS.get dc k))
                (fun c => Dashboard.pct c (dayTotal records field cnt day))).
  assert (Hvals : map (fun k => JS.orZero (JS.get dc k)) ks = JS.values dc).
  { rewrite <- Hkeys. apply (get_values dc 0). rewrite Hkeys. exact Hnd. }
  rewrite Hvals.
  pose proof (pct_sum_bound _ (JS.values dc) Hgt) as Hb.
  rewrite Hsum in Hb.
  assert (Hn : (List.length (JS.values dc) <= 6)%nat).
  { unfold JS.values. rewrite length_map.
    rewrite <- (length_map fst). fold (JS.keys dc). now rewrite Hkeys. }
  unfold sums_to_100. nia.
Qed.

End UsageFacts.

(** C5 as stated fails.  On a day on which six models are used once each,
    every share rounds up to 16.67 and the six shares sum to 100.02; the same
    holds of six languages.  The day's total is nonzero and the sum is not
    within 0.01 of 100.00. *)
Lemma normalized_day_off_by_two :
  dayTotal six_each Rec.totals_by_model_feature model_cnt "2026-01-01" = 6
  /\ day_values (Dashboard.aggregateModelUsagePerDay six_each) 0
     = [ 1667; 1667; 1667; 1667; 1667; 1667 ]
  /\ ~ sums_to_100 1 (day_values (Dashboard.aggregateModelUsagePerDay six_each) 0)
  /\ dayTotal six_each Rec.totals_by_language_feature language_cnt "2026-01-01" = 6
  /\ day_values (Dashboard.aggregateLanguageUsagePerDay six_each) 0
     = [ 1667; 1667; 1667; 1667; 1667; 1667 ]
  /\ ~ sums_to_100 1 (day_values (Dashboard.aggregateLanguageUsagePerDay six_each) 0).
Proof.
  repeat split; try reflexivity; unfold sums_to_100; vm_compute; intros H; apply H;
    reflexivity.
Qed.

(** The tolerance of three hundredths is reached: shares of 27/32 and five
    times 1/32 are all ties, which round up, and sum to 100.03. *)
Example normalized_day_off_by_three :
  day_values (Dashboard.aggregateModelUsagePerDay one_dominant) 0
  = [ 8438; 313; 313; 313; 313; 313 ]
  /\ total (fun v => v) (day_values (Dashboard.aggregateModelUsagePerDay one_dominant) 0)
     = 10003.
Proof.
  split; reflexivity.
Qed.

(** A model called "Other" among the top five shares the key of the
    remainder bucket: that key then receives two values a day, and the values
    found at a day's index no longer belong to one day. *)
Example normalized_day_other_collision :
  DaySeries.series (Dashboard.aggregateModelUsagePerDay other_named)
  = [ ("Other", [ 7500; 7500; 5000; 5000 ]); ("m-b", [ 2500; 5000 ]) ]
  /\ total (fun v => v)
       (day_values (Dashboard.aggregateModelUsagePerDay other_named) 1)
     = 12500.
Proof.
  split; reflexivity.
Qed.

(** C5, amended.  In the percentage-normalized per-day series of model usage
    and of language usage, for every day whose total of the measured metric is
    positive, the day's percentages of the top five categories and of "Other"
    sum to 100.00 within 0.03 (half a hundredth for each of at most six
    shares), provided no category is itself called "Other". *)
Theorem normalized_day_total (records : list Rec.t) (j : nat) (day : string) :
  nth_error (Dashboard.getSortedDays records) j = Some day ->
  (no_Other records Rec.totals_by_model_feature Entry.model ->
   dayTotal records Rec.totals_by_model_feature model_cnt day > 0 ->
   sums_to_100 3 (day_values (Dashboard.aggregateModelUsagePerDay records) j))
  /\ (no_Other records Rec.totals_by_language_feature Entry.language ->
      dayTotal records Rec.totals_by_language_feature language_cnt day > 0 ->
      sums_to_100 3 (day_values (Dashboard.aggregateLanguageUsagePerDay records) j)).
Proof.
  intros Hj. split; intros Hother Hpos.
  - exact (day_values_bound records Rec.totals_by_model_feature Entry.model
             model_cnt Hother j day Hj Hpos).
  - exact (day_values_bound records Rec.totals_by_language_feature Entry.language
             language_cnt Hother j day Hj Hpos).
Qed.

Lemma six_each_no_Other :
  no_Other six_each Rec.totals_by_model_feature Entry.model
  /\ no_Other six_each Rec.totals_by_language_feature Entry.language.
Proof.
  split; intros r e [<-|[]] He; simpl in He;
    repeat (destruct He as [<-|He]; [simpl; discriminate|]); contradiction.
Qed.

Lemma normalized_day_total_witness :
  sums_to_100 3 (day_values (Dashboard.aggregateModelUsagePerDay six_each) 0)
  /\ sums_to_100 3 (day_values (Dashboard.aggregateLanguageUsagePerDay six_each) 0).
Proof.
  destruct (normalized_day_total six_each 0 "2026-01-01" eq_refl) as [Hm Hl].
  destruct six_each_no_Other as [Om Ol].
  split; [apply Hm | apply Hl]; try assumption; reflexivity.
Defined.

(* ------------------------------------------------------------------------- *)
(** ** Further properties of the sources *)

(** *** Sums and top-N *)

(** X1.  [sumField] does not depend on the order of the records. *)
Theorem sumField_permutation (records records' : list Rec.t)
    (field : Rec.t -> option Z) :
  Permutation records records' ->
  Dashboard.sumField records field = Dashboard.sumField records' field.
Proof.
  intros Hp. unfold Dashboard.sumField.
  rewrite !(reduce_total (fun r => JS.orZero (field r))).
  f_equal. now apply total_perm.
Qed.

Lemma sumField_permutation_witness :
  Dashboard.sumField two_days Rec.daily_active_users
  = Dashboard.sumField (rev two_days) Rec.daily_active_users.
Proof.
  apply (sumField_permutation two_days (rev two_days)).
  apply Permutation_rev.
Defined.

Lemma slice_split {A : Type} (l : list A) (n : Z) :
  JS.slice l 0 n = firstn (Z.to_nat (JS.rel_index (Z.of_nat (List.length l)) n)) l
  /\ JS.slice_from l n
     = skipn (Z.to_nat (JS.rel_index (Z.of_nat (List.length l)) n)) l.
Proof.
  unfold JS.slice_from, JS.slice.
  set (len := Z.of_nat (List.length l)).
  set (m := JS.rel_index len n).
  assert (Hm : 0 <= m <= len).
  { unfold m, JS.rel_index. destruct (Z.ltb_spec n 0); lia. }
  assert (H0 : JS.rel_index len 0 = 0).
  { unfold JS.rel_index. simpl. lia. }
  assert (Hl : JS.rel_index len len = len).
  { unfold JS.rel_index. destruct (Z.ltb_spec len 0); lia. }
  rewrite H0, Hl. simpl. rewrite Z.sub_0_r. split; [reflexivity|].
  apply firstn_all2. rewrite length_skipn. lia.
Qed.

(** X2.  [topN] on any integer [n]: [top] and the buckets summed into
    [otherVal] together are a rearrangement of the input, so the sort key
    summed over [top] plus [otherVal] is the total of the input also for a
    negative [n], which [slice] counts from the end; [top] has
    [min(n, length)] buckets for [n >= 0] and [max(length + n, 0)] for
    [n < 0]. *)
Theorem topN_any_integer {A : Type} (key : A -> Z) (arr : list A) (n : Z) :
  let r := Dashboard.topN key arr n in
  let len := Z.of_nat (List.length arr) in
  (exists rest,
      Permutation (TopN.top r ++ rest) arr /\ TopN.otherVal r = total key rest)
  /\ total key (TopN.top r) + TopN.otherVal r = total key arr
  /\ Z.of_nat (List.length (TopN.top r))
     = if n <? 0 then Z.max (len + n) 0 else Z.min n len.
Proof.
  intros r len. unfold r, Dashboard.topN.
  set (sorted := JS.sort (fun a b => key b - key a) arr).
  destruct (slice_split sorted n) as [Htop Hrest].
  cbn [TopN.top TopN.otherVal]. rewrite Htop, Hrest, reduce_total.
  assert (Hlen : List.length sorted = List.length arr) by apply sort_length.
  rewrite Hlen. fold len.
  set (m := Z.to_nat (JS.rel_index len n)).
  assert (Hperm : Permutation (firstn m sorted ++ skipn m sorted) arr).
  { rewrite firstn_skipn. apply sort_perm. }
  split; [|split].
  - exists (skipn m sorted). split; [exact Hperm|lia].
  - rewrite Z.add_0_l, <- total_app. now apply total_perm.
  - rewrite length_firstn, Hlen. unfold m, JS.rel_index.
    destruct (Z.ltb_spec n 0); lia.
Qed.

(** *** Grouping entries by category *)

Lemma insert_desc {A : Type} (key : A -> Z) (x : A) (l : list A) :
  desc key l -> desc key (JS.insert (fun a b => key b - key a) x l).
Proof.
  unfold desc. induction l as [|y l IH]; intros Hs; simpl.
  - repeat constructor.
  - inversion Hs as [|? ? Hs' Hy]; subst.
    destruct (Z.leb_spec (key y - key x) 0) as [Hle|Hgt].
    + constructor; [assumption|]. constructor; [lia|].
      rewrite Forall_forall in *. intros z Hz. specialize (Hy z Hz). lia.
    + constructor; [auto|].
      rewrite Forall_forall in *. intros z Hz.
      apply (Permutation_in _ (insert_perm _ x l)) in Hz.
      destruct Hz as [<-|Hz]; [lia | now apply Hy].
Qed.

Lemma sort_desc {A : Type} (key : A -> Z) (l : list A) :
  desc key (JS.sort (fun a b => key b - key a) l).
Proof.
  induction l as [|x l IH]; unfold JS.sort in *; simpl.
  - constructor.
  - now apply insert_desc.
Qed.

Lemma desc_app {A : Type} (key : A -> Z) (l1 l2 : list A) :
  desc key (l1 ++ l2) ->
  forall a b, In a l1 -> In b l2 -> key a >= key b.
Proof.
  unfold desc. induction l1 as [|x l1 IH]; intros Hs a b Ha Hb; [contradiction|].
  simpl in Hs. inversion Hs as [|? ? Hs' Hx]; subst.
  destruct Ha as [<-|Ha].
  - rewrite Forall_forall in Hx. apply Hx. apply in_or_app. now right.
  - now apply IH.
Qed.

Lemma desc_firstn {A : Type} (key : A -> Z) (n : nat) (l : list A) :
  desc key l -> desc key (firstn n l).
Proof. apply StronglySorted_firstn. Qed.

Lemma filter_none {A : Type} (p : A -> bool) (l : list A) :
  existsb p l = false -> filter p l = [].
Proof.
  induction l as [|x l IH]; simpl; [reflexivity|].
  destruct (p x); simpl; [discriminate|exact IH].
Qed.

Section Grouping.

Context {A : Type}.
Variable key : A -> string.

(** A dictionary of sums: what it holds under a key. *)
Lemma grouped_get (c : A -> Z) (es : list A) (k : string) :
  JS.get (fold_left (fun o e => JS.upsert (key e) 0 (fun v => v + c e) o) es []) k
  = if existsb (fun e => String.eqb (key e) k) es
    then Some (key_total key c es k) else None.
Proof.
  unfold key_total.
  induction es as [|e es IH] using rev_ind; [reflexivity|].
  rewrite fold_left_app, existsb_app, filter_app, total_app. simpl.
  rewrite get_upsert, orb_false_r.
  destruct (String.eqb_spec k (key e)) as [->|Hne].
  - rewrite String.eqb_refl, orb_true_r. rewrite IH.
    destruct (existsb _ es) eqn:E.
    + unfold total. simpl. f_equal. lia.
    + rewrite (filter_none _ _ E). unfold total. simpl. f_equal. lia.
  - destruct (String.eqb_spec (key e) k) as [Heq|_]; [congruence|].
    rewrite orb_false_r, IH. unfold total. simpl.
    destruct (existsb _ es); [f_equal; lia|reflexivity].
Qed.

(** The keys of a dictionary that every entry upserts into. *)
Lemma grouped_keys {V : Type} (init : V) (f : A -> V -> V)
    (es : list A) :
  NoDup (JS.keys (fold_left (fun o e => JS.upsert (key e) init (f e) o) es []))
  /\ forall k,
       In k (JS.keys (fold_left (fun o e => JS.upsert (key e) init (f e) o) es []))
       <-> exists e, In e es /\ key e = k.
Proof.
  induction es as [|e es [Hnd Hin]] using rev_ind; simpl.
  - split; [constructor|]. intros k. split; [contradiction|]. intros [e [He _]]. destruct He.
  - rewrite fold_left_app. simpl. split; [now apply keys_upsert_nodup|].
    intros k.
    assert (Hk : In k (JS.keys (JS.upsert (key e) init (f e)
                   (fold_left (fun o e0 => JS.upsert (key e0) init (f e0) o) es [])))
                 <-> In k (JS.keys (fold_left
                                      (fun o e0 => JS.upsert (key e0) init (f e0) o) es []))
                     \/ k = key e).
    { destruct (keys_upsert (key e) init (f e)
                  (fold_left (fun o e0 => JS.upsert (key e0) init (f e0) o) es []))
        as [Heq|[Hnin Heq]]; rewrite Heq.
      - split; [now left|]. intros [H| ->]; [assumption|].
        rewrite <- Heq.
        destruct (in_dec String.string_dec (key e)
                    (JS.keys (fold_left
                                (fun o e0 => JS.upsert (key e0) init (f e0) o) es [])))
          as [Hi|Hn].
        + now rewrite Heq.
        + rewrite upsert_fresh by assumption. unfold JS.keys.
          rewrite map_app. apply in_or_app. right. now left.
      - rewrite in_app_iff. simpl. intuition. }
    rewrite Hk, Hin. split.
    + intros [[e' [He' Hk']]| ->].
      * exists e'. split; [apply in_or_app; now left|assumption].
      * exists e. split; [apply in_or_app; right; now left|reflexivity].
    + intros [e' [He' Hk']]. apply in_app_or in He'.
      destruct He' as [He'|[<-|[]]]; [left; now exists e'|now right].
Qed.

End Grouping.

Lemma get_map {V W : Type} (g : V -> W) (o : JS.obj V) (k : string) :
  JS.get (map (fun kv => (fst kv, g (snd kv))) o) k = option_map g (JS.get o k).
Proof.
  induction o as [|[k' v] o IH]; simpl; [reflexivity|].
  destruct (String.eqb k k'); [reflexivity|exact IH].
Qed.

Lemma in_get {V : Type} (o : JS.obj V) (k : string) (v : V) :
  NoDup (JS.keys o) -> In (k, v) o -> JS.get o k = Some v.
Proof.
  induction o as [|[k' v'] o IH]; simpl; intros Hnd Hin; [contradiction|].
  inversion Hnd as [|? ? Hk Hnd']; subst.
  destruct Hin as [Heq|Hin].
  - inversion Heq; subst. now rewrite String.eqb_refl.
  - destruct (String.eqb_spec k k') as [->|_]; [|now apply IH].
    exfalso. apply Hk. unfold JS.keys. apply in_map_iff. now exists (k', v).
Qed.

(** One component of a grouped dictionary of tuples is the sum of that
    component of the entries of the key. *)
Lemma grouped_component {A V : Type} (g : V -> Z) (key : A -> string)
    (c : A -> Z) (init : V) (f : A -> V -> V) (es : list A)
    (k : string) (v : V) :
  g init = 0 ->
  (forall e x, g (f e x) = g x + c e) ->
  In (k, v) (fold_left (fun o e => JS.upsert (key e) init (f e) o) es []) ->
  g v = key_total key c es k.
Proof.
  intros Hi Hf Hin.
  assert (Hmap : map (fun kv => (fst kv, g (snd kv)))
                   (fold_left (fun o e => JS.upsert (key e) init (f e) o) es [])
                 = fold_left (fun o e => JS.upsert (key e) 0 (fun x => x + c e) o) es []).
  { change (@nil (string * Z))
      with (map (fun kv : string * V => (fst kv, g (snd kv))) []).
    generalize (@nil (string * V)). clear Hin.
    induction es as [|e es IH]; intros o; simpl; [reflexivity|].
    rewrite IH. f_equal. apply (upsert_map g).
    - rewrite Hf, Hi. reflexivity.
    - intros x. apply Hf. }
  destruct (grouped_keys key init f es) as [Hnd Hkeys].
  pose proof (in_get _ _ _ Hnd Hin) as Hget.
  pose proof (get_map g (fold_left (fun o e => JS.upsert (key e) init (f e) o) es []) k)
    as Hgm.
  rewrite Hmap, Hget, grouped_get in Hgm. simpl in Hgm.
  destruct (existsb _ es); [now inversion Hgm|discriminate].
Qed.

(** X3.  [aggregateByFeature] returns one row per feature that occurs in a
    [totals_by_feature] entry, ordered by descending interactions; each
    metric of a row is the sum of that metric (a missing field counting 0)
    over all entries of the row's feature. *)
Theorem aggregateByFeature_rows (records : list Rec.t) :
  let rows := Dashboard.aggregateByFeature records in
  let es := all_entries records Rec.totals_by_feature in
  NoDup (map FeatureRow.feature rows)
  /\ desc FeatureRow.interactions rows
  /\ (forall k, In k (map FeatureRow.feature rows)
                <-> exists e, In e es /\ Entry.feature e = k)
  /\ forall row, In row rows ->
       FeatureRow.interactions row
       = key_total Entry.feature interactions_of es (FeatureRow.feature row)
       /\ FeatureRow.codeGenerated row
          = key_total Entry.feature generated_of es (FeatureRow.feature row)
       /\ FeatureRow.locAdded row
          = key_total Entry.feature added_of es (FeatureRow.feature row).
Proof.
  intros rows es. unfold rows, Dashboard.aggregateByFeature.
  rewrite for_entries_flat. fold (all_entries records Rec.totals_by_feature). fold es.
  set (f := fun (e : Entry.t) (t : Z * Z * Z) =>
              let '(i, c, l) := t in
              (i + JS.orZero (Entry.user_initiated_interaction_count e),
               c + JS.orZero (Entry.code_generation_activity_count e),
               l + JS.orZero (Entry.loc_added_sum e))).
  set (dict := fold_left (fun o e => JS.upsert (Entry.feature e) (0, 0, 0) (f e) o)
                 es []).
  match goal with
  | |- context [fold_left ?b es []] => change (fold_left b es []) with dict
  end.
  set (mk := fun '(feature, (i, c, l)) => FeatureRow.mk feature i c l).
  destruct (grouped_keys Entry.feature (0, 0, 0) f es) as [Hnd Hkeys].
  fold dict in Hnd, Hkeys.
  assert (Hk : map FeatureRow.feature (map mk dict) = JS.keys dict).
  { rewrite map_map. apply map_ext. intros [k [[i c] l]]. reflexivity. }
  assert (Hperm : Permutation
                    (map FeatureRow.feature
                       (JS.sort (fun a b => FeatureRow.interactions b
                                            - FeatureRow.interactions a)
                          (map mk dict)))
                    (JS.keys dict)).
  { rewrite <- Hk. apply Permutation_map, sort_perm. }
  split; [|split; [|split]].
  - eapply Permutation_NoDup; [symmetry; exact Hperm|exact Hnd].
  - apply sort_desc.
  - intros k. rewrite <- Hkeys. split; apply Permutation_in;
      [exact Hperm|symmetry; exact Hperm].
  - intros row Hrow. apply sort_in in Hrow. apply in_map_iff in Hrow.
    destruct Hrow as [[k [[i c] l]] [<- Hin]]. simpl.
    split; [|split].
    + apply (grouped_component (fun t : Z * Z * Z => fst (fst t)) Entry.feature
               interactions_of (0, 0, 0) f es k (i, c, l)); auto.
      intros e [[x y] z]. reflexivity.
    + apply (grouped_component (fun t : Z * Z * Z => snd (fst t)) Entry.feature
               generated_of (0, 0, 0) f es k (i, c, l)); auto.
      intros e [[x y] z]. reflexivity.
    + apply (grouped_component (fun t : Z * Z * Z => snd t) Entry.feature
               added_of (0, 0, 0) f es k (i, c, l)); auto.
      intros e [[x y] z]. reflexivity.
Qed.

(** X4.  The categories that the per-day series keep apart ([topModels],
    [topLangs]) are at most five distinct categories, each with an entry; and
    when a category with an entry is left to "Other", five are kept and each
    of them has a total at least as large as that of the category left out. *)
Theorem topKeys_largest (records : list Rec.t)
    (field : Rec.t -> option (list Entry.t)) (key : Entry.t -> string)
    (cnt : Entry.t -> Z) :
  let top := Dashboard.topKeys records field key cnt in
  let es := all_entries records field in
  NoDup top
  /\ (List.length top <= 5)%nat
  /\ (forall k, In k top -> exists e, In e es /\ key e = k)
  /\ forall e, In e es -> ~ In (key e) top ->
       List.length top = 5%nat
       /\ forall k, In k top -> key_total key cnt es (key e) <= key_total key cnt es k.
Proof.
  intros top es.
  destruct (top_facts records field key cnt) as [Hnd [Hlen Hin]].
  split; [exact Hnd|]. split; [exact Hlen|]. split; [exact Hin|].
  intros e He Hout.
  set (dict := fold_left (fun o e => JS.upsert (key e) 0 (fun v => v + cnt e) o) es []).
  set (sorted := JS.sort (fun a b : string * Z => snd b - snd a) dict).
  assert (Htop : top = map fst (firstn 5 sorted)).
  { unfold top, Dashboard.topKeys, Dashboard.categoryTotals.
    change 5 with (Z.of_nat 5). rewrite slice_firstn, for_entries_flat.
    reflexivity. }
  clearbody top. subst top. clear Hnd Hlen Hin.
  destruct (grouped_keys key 0 (fun e v => v + cnt e) es) as [Hdnd Hkeys].
  fold dict in Hdnd, Hkeys.
  assert (Hval : forall k v, In (k, v) sorted -> v = key_total key cnt es k).
  { intros k v Hkv. apply sort_in in Hkv.
    pose proof (in_get _ _ _ Hdnd Hkv) as Hget.
    unfold dict in Hget. rewrite grouped_get in Hget.
    destruct (existsb _ es); [now inversion Hget|discriminate]. }
  assert (Hke : In (key e) (JS.keys dict)).
  { apply Hkeys. now exists e. }
  unfold JS.keys in Hke. apply in_map_iff in Hke.
  destruct Hke as [[k0 v0] [Hk0 Hkv0]]. simpl in Hk0. subst k0.
  apply (sort_in (fun a b : string * Z => snd b - snd a)) in Hkv0. fold sorted in Hkv0.
  rewrite <- (firstn_skipn 5 sorted) in Hkv0. apply in_app_or in Hkv0.
  destruct Hkv0 as [Hfirst|Hrest].
  { exfalso. apply Hout. apply in_map_iff. now exists (key e, v0). }
  split.
  - rewrite length_map, length_firstn.
    assert (Hl : (5 < List.length sorted)%nat).
    { destruct (Nat.le_gt_cases (List.length sorted) 5) as [Hle|Hgt]; [|exact Hgt].
      rewrite skipn_all2 in Hrest by exact Hle. contradiction. }
    lia.
  - intros k Hk. apply in_map_iff in Hk. destruct Hk as [[k1 v1] [Hk1 Hkv1]].
    simpl in Hk1. subst k1.
    assert (Hdesc : desc (fun kv : string * Z => snd kv) sorted)
      by exact (sort_desc (fun kv : string * Z => snd kv) dict).
    rewrite <- (firstn_skipn 5 sorted) in Hdesc.
    pose proof (desc_app _ _ _ Hdesc _ _ Hkv1 Hrest) as Hge. simpl in Hge.
    rewrite <- (Hval k v1), <- (Hval (key e) v0); [lia| |].
    + rewrite <- (firstn_skipn 5 sorted). apply in_or_app. now right.
    + eapply in_firstn; eassumption.
Qed.

(** *** The dispatcher: the shape of a response *)

(** X6.  The shape of every response of [handleQuery]: the list of charts
    ([chartsData]) is there exactly for a report request, and a response never
    carries both a single chart and a list of charts. *)
Theorem handleQuery_shape (records : list Rec.t) (prompt : string)
    (response : Response.t) :
  Dashboard.handleQuery records prompt = Return response ->
  (Response.chartsData response <> None <-> Dashboard.isReport prompt = true)
  /\ (Response.chartData response = None \/ Response.chartsData response = None).
Proof.
  unfold Dashboard.handleQuery. cbv zeta.
  destruct (Dashboard.isReport prompt).
  - intros H.
    assert (Hs : Response.chartData response = None
                 /\ Response.chartsData response <> None).
    { repeat match type of H with
             | context [if ?b then _ else _] => destruct b
             end; inversion H; subst; split; try reflexivity; discriminate. }
    destruct Hs as [Hd Hc]. split; [|now left].
    split; [reflexivity|intros _; exact Hc].
  - intros H.
    assert (Hs : Response.chartsData response = None).
    { destruct (Dashboard.userMatch prompt).
      { inversion H. reflexivity. }
      repeat match type of H with
             | context [if ?b then _ else _] => destruct b
             end;
        try (inversion H; subst; reflexivity).
      - unfold Dashboard.ideResponse in H.
        destruct (mapM _ (Dashboard.aggregateByIDE records)); simpl in H;
          [inversion H; reflexivity|discriminate].
      - unfold Dashboard.summaryResponse in H.
        destruct (Dashboard.agentAndChatActivity records).
        inversion H. reflexivity. }
    split; [|now right].
    rewrite Hs. split; [intros Hn; now contradiction Hn|discriminate].
Qed.

Lemma handleQuery_shape_witness :
  Response.chartsData (Dashboard.languageReport []) <> None
  <-> Dashboard.isReport "generate a language and model report" = true.
Proof.
  exact (proj1 (handleQuery_shape [] "generate a language and model report"
                  (Dashboard.languageReport []) eq_refl)).
Defined.

(** *** Report compilation on a window that is not empty *)

Lemma get_put {V : Type} (k k' : string) (v : V) (o : JS.obj V) :
  JS.get (JS.put k v o) k' = if String.eqb k' k then Some v else JS.get o k'.
Proof. unfold JS.put. now rewrite get_upsert. Qed.

Lemma fold_upsert_not_nil {R V : Type} (k : R -> string) (init : V)
    (f : R -> V -> V) (l : list R) (o : JS.obj V) :
  l <> [] -> fold_left (fun o x => JS.upsert (k x) init (f x) o) l o <> [].
Proof.
  assert (G : forall l o, o <> [] ->
                fold_left (fun o x => JS.upsert (k x) init (f x) o) l o <> []).
  { clear l o. induction l as [|x l IH]; intros o Ho; simpl; [assumption|].
    apply IH, upsert_not_nil. }
  destruct l as [|x l]; [contradiction|]. intros _. simpl.
  apply G, upsert_not_nil.
Qed.

Lemma aggregateByDay_not_nil (records : list Rec.t) :
  records <> [] -> Dashboard.aggregateByDay records <> [].
Proof.
  intros Hr Hnil. unfold Dashboard.aggregateByDay in Hnil.
  apply (f_equal (@List.length _)) in Hnil.
  rewrite sort_length, length_map in Hnil.
  apply length_zero_iff_nil in Hnil. revert Hnil.
  apply (fold_upsert_not_nil Rec.day (0, 0, 0, 0)
           (fun r '(i, c, l, _) =>
              (i + JS.orZero (Rec.user_initiated_interaction_count r),
               c + JS.orZero (Rec.code_generation_activity_count r),
               l + JS.orZero (Rec.loc_added_sum r),
               JS.orZero (Rec.daily_active_users r)))
           records [] Hr).
Qed.

Lemma usageTrendsReport_returns (period : option string * option string)
    (trends : list DayRow.t) :
  trends <> [] ->
  exists report, Dashboard.usageTrendsReport period trends = Return report.
Proof.
  intros Ht. destruct trends as [|t ts]; [contradiction|].
  unfold Dashboard.usageTrendsReport, Dashboard.reduce_or_throw. simpl.
  eexists; reflexivity.
Qed.

(** The store after the nine assignments of [generateReports]. *)
Lemma stored_reports (v1 v2 v3 v4 v5 v6 v7 v8 v9 : Response.t)
    (pre : JS.obj Response.t) (id : string) :
  In id Dashboard.report_ids ->
  let store o :=
    JS.put "top-users" v9
      (JS.put "ide-distribution" v8
         (JS.put "model-usage" v7
            (JS.put "language-breakdown" v6
               (JS.put "feature-adoption" v5
                  (JS.put "usage-trends" v4
                     (JS.put "executive-summary" v3
                        (JS.put "code-generation" v2
                           (JS.put "copilot-usage" v1 o)))))))) in
  exists report,
    Dashboard.getReport (store pre) id = Dashboard.Json report
    /\ Dashboard.getReport (store []) id = Dashboard.Json report.
Proof.
  intros Hin store. unfold Dashboard.getReport, store. rewrite !get_put.
  simpl in Hin.
  repeat (destruct Hin as [<-|Hin]; [simpl; eexists; split; reflexivity|]).
  contradiction.
Qed.

(** X7.  On a record collection that is not empty and whose days are no
    property names of [Object.prototype], [generateReports] completes, and
    afterwards [GET /api/reports/:id] serves every report of [REPORT_LIST];
    what it serves does not depend on the reports stored before.  (On a day
    such as ["constructor"], [byDay[r.day]] in [getRecordsByDay] is the
    inherited value and [byDay[r.day].push] throws before a report is stored:
    those collections are left out.) *)
Theorem generateReports_nonempty (records : list Rec.t)
    (pre : JS.obj Response.t) :
  records <> [] ->
  (forall r, In r records -> JS.inherited (Rec.day r) = false) ->
  snd (Dashboard.generateReports records pre) = Return tt
  /\ forall id, In id Dashboard.report_ids ->
       exists report,
         Dashboard.getReport (fst (Dashboard.generateReports records pre)) id
         = Dashboard.Json report
         /\ Dashboard.getReport (fst (Dashboard.generateReports records [])) id
            = Dashboard.Json report.
Proof.
  intros Hr _. unfold Dashboard.generateReports.
  destruct (Dashboard.agentAndChatActivity records) as [agent chat].
  destruct (usageTrendsReport_returns (Dashboard.getDateRange records)
              (Dashboard.aggregateByDay records)
              (aggregateByDay_not_nil records Hr)) as [trendsReport Ht].
  rewrite Ht. cbn [fst snd]. split; [reflexivity|].
  intros id Hin. now apply stored_reports.
Qed.

Lemma generateReports_nonempty_witness :
  snd (Dashboard.generateReports two_days []) = Return tt
  /\ exists report,
       Dashboard.getReport (fst (Dashboard.generateReports two_days [])) "usage-trends"
       = Dashboard.Json report.
Proof.
  assert (Hne : two_days <> []) by discriminate.
  assert (Hdays : forall r, In r two_days -> JS.inherited (Rec.day r) = false).
  { intros r [<-|[<-|[]]]; reflexivity. }
  destruct (generateReports_nonempty two_days [] Hne Hdays) as [Hdone Hall].
  split; [exact Hdone|].
  destruct (Hall "usage-trends") as [report [H _]].
  - simpl. auto.
  - now exists report.
Defined.

(** *** The period and the peak *)

Lemma getDateRange_snoc (rs : list Rec.t) (r : Rec.t) :
  Dashboard.getDateRange (rs ++ [r])
  = let (start, fin) := Dashboard.getDateRange rs in
    (match start with
     | Some s =>
         if Dashboard.falsy start || JS.str_lt (Rec.day r) s
         then Some (Rec.day r) else start
     | None => Some (Rec.day r)
     end,
     match fin with
     | Some e =>
         if Dashboard.falsy fin || JS.str_lt e (Rec.day r)
         then Some (Rec.day r) else fin
     | None => Some (Rec.day r)
     end).
Proof.
  unfold Dashboard.getDateRange. rewrite fold_left_app. simpl.
  destruct (fold_left _ rs (None, None)). reflexivity.
Qed.

Lemma str_cmp_refl (a : string) : JS.str_cmp a a <= 0.
Proof.
  unfold JS.str_cmp.
  pose proof (String.compare_antisym a a) as H.
  destruct (String.compare a a); simpl in H; try discriminate; lia.
Qed.

Lemma str_lt_le (a b : string) : JS.str_lt a b = true -> JS.str_cmp a b <= 0.
Proof. unfold JS.str_lt. intros H. apply Z.ltb_lt in H. lia. Qed.

Lemma str_not_lt_le (a b : string) : JS.str_lt a b = false -> JS.str_cmp b a <= 0.
Proof.
  unfold JS.str_lt. intros H. apply Z.ltb_ge in H.
  destruct (Z.eq_dec (JS.str_cmp a b) 0) as [E|E].
  - unfold JS.str_cmp in E.
    destruct (String.compare a b) eqn:C; try lia.
    apply String.compare_eq_iff in C. subst. apply str_cmp_refl.
  - apply str_cmp_le_total. lia.
Qed.

(** X8.  [getDateRange] over records whose days are not empty strings: the
    start is the least day of the records and the end the greatest, in the
    order of strings; without records both are [null]. *)
Theorem getDateRange_min_max (records : list Rec.t) :
  (forall r, In r records -> Rec.day r <> "") ->
  match records with
  | [] => Dashboard.getDateRange records = (None, None)
  | _ :: _ =>
      exists start fin,
        Dashboard.getDateRange records = (Some start, Some fin)
        /\ In start (map Rec.day records) /\ In fin (map Rec.day records)
        /\ forall d, In d (map Rec.day records) ->
             JS.str_cmp start d <= 0 /\ JS.str_cmp d fin <= 0
  end.
Proof.
  intros Hne.
  assert (G : forall rs, (forall r, In r rs -> Rec.day r <> "") -> rs <> [] ->
            exists start fin,
              Dashboard.getDateRange rs = (Some start, Some fin)
              /\ In start (map Rec.day rs) /\ In fin (map Rec.day rs)
              /\ forall d, In d (map Rec.day rs) ->
                   JS.str_cmp start d <= 0 /\ JS.str_cmp d fin <= 0).
  { clear. induction rs as [|r rs IH] using rev_ind; intros Hne Hnil;
      [contradiction|].
    rewrite getDateRange_snoc.
    destruct rs as [|r0 rs0].
    - simpl. exists (Rec.day r), (Rec.day r). simpl.
      split; [reflexivity|]. split; [now left|]. split; [now left|].
      intros d [<-|[]]. split; apply str_cmp_refl.
    - destruct IH as [s [e [Hrange [Hs [He Hall]]]]].
      + intros x Hx. apply Hne. apply in_or_app. now left.
      + discriminate.
      + rewrite Hrange. rewrite map_app. simpl map at 1.
        assert (Hsne : Dashboard.falsy (Some s) = false).
        { simpl. apply String.eqb_neq. apply in_map_iff in Hs.
          destruct Hs as [x [<- Hx]]. apply Hne. apply in_or_app. now left. }
        assert (Hene : Dashboard.falsy (Some e) = false).
        { simpl. apply String.eqb_neq. apply in_map_iff in He.
          destruct He as [x [<- Hx]]. apply Hne. apply in_or_app. now left. }
        rewrite Hsne, Hene. simpl orb.
        destruct (Hall s Hs) as [_ Hse].
        exists (if JS.str_lt (Rec.day r) s then Rec.day r else s),
               (if JS.str_lt e (Rec.day r) then Rec.day r else e).
        split.
        { destruct (JS.str_lt (Rec.day r) s), (JS.str_lt e (Rec.day r)); reflexivity. }
        split.
        { apply in_or_app.
          destruct (JS.str_lt (Rec.day r) s); [right; now left|now left]. }
        split.
        { apply in_or_app.
          destruct (JS.str_lt e (Rec.day r)); [right; now left|now left]. }
        intros d Hd. apply in_app_or in Hd.
        destruct (JS.str_lt (Rec.day r) s) eqn:E1;
          destruct (JS.str_lt e (Rec.day r)) eqn:E2;
          destruct Hd as [Hd|[<-|[]]];
          try (destruct (Hall d Hd) as [H1 H2]);
          split;
          eauto using str_cmp_refl, str_lt_le, str_not_lt_le, str_cmp_le_trans. }
  destruct records as [|r rs]; [reflexivity|].
  apply G; [assumption|discriminate].
Qed.

Lemma getDateRange_min_max_witness :
  exists start fin,
    Dashboard.getDateRange (rev two_days) = (Some start, Some fin)
    /\ JS.str_cmp start "2026-01-01" <= 0 /\ JS.str_cmp "2026-01-02" fin <= 0.
Proof.
  assert (Hne : forall r, In r (rev two_days) -> Rec.day r <> "").
  { intros r [<-|[<-|[]]]; discriminate. }
  destruct (getDateRange_min_max (rev two_days) Hne) as [s [e [H [_ [_ Hall]]]]].
  exists s, e. split; [exact H|]. split.
  - apply (Hall "2026-01-01"). simpl. auto.
  - apply (Hall "2026-01-02"). simpl. auto.
Defined.

Lemma peak_ge (records : list Rec.t) :
  0 <= Dashboard.getUniqueUsers records
  /\ forall r, In r records ->
       JS.orZero (Rec.daily_active_users r) <= Dashboard.getUniqueUsers records.
Proof.
  unfold Dashboard.getUniqueUsers, JS.reduce.
  assert (G : forall l m,
            m <= fold_left (fun m r => Z.max m (JS.orZero (Rec.daily_active_users r))) l m
            /\ forall r, In r l ->
                 JS.orZero (Rec.daily_active_users r)
                 <= fold_left (fun m r => Z.max m (JS.orZero (Rec.daily_active_users r))) l m).
  { induction l as [|x l IH]; intros m; simpl.
    - split; [lia|contradiction].
    - destruct (IH (Z.max m (JS.orZero (Rec.daily_active_users x)))) as [H1 H2].
      split; [lia|]. intros r [<-|Hr]; [lia|now apply H2]. }
  apply G.
Qed.

Lemma round_div_le (sum n m : Z) :
  0 <= n -> 0 <= m -> sum <= n * m -> JS.round_div sum n <= m.
Proof.
  intros Hn Hm Hs. unfold JS.round_div.
  destruct (Z.eq_dec n 0) as [->|Hne].
  - simpl. now rewrite Z.div_0_r.
  - assert (H : (2 * sum + n) / (2 * n) < m + 1).
    { apply Z.div_lt_upper_bound; lia. }
    lia.
Qed.

Lemma total_le {A : Type} (f : A -> Z) (l : list A) (m : Z) :
  (forall x, In x l -> f x <= m) -> total f l <= Z.of_nat (List.length l) * m.
Proof.
  unfold total. induction l as [|x l IH]; intros H; simpl List.length; simpl map;
    simpl fold_right; [lia|].
  rewrite Nat2Z.inj_succ.
  assert (f x <= m) by (apply H; now left).
  assert (fold_right Z.add 0 (map f l) <= Z.of_nat (List.length l) * m).
  { apply IH. intros y Hy. apply H. now right. }
  lia.
Qed.

Lemma rawDau_le_peak (records : list Rec.t) (d : string) :
  rawDau records d <= Dashboard.getUniqueUsers records.
Proof.
  destruct (peak_ge records) as [H0 Hr]. unfold rawDau.
  destruct (find _ (rev records)) as [r|] eqn:E; [|exact H0].
  apply find_some in E. destruct E as [Hin _].
  apply Hr. now apply in_rev.
Qed.

Lemma mapi_from_forall {A B : Type} (P : B -> Prop) (f : A -> Z -> B)
    (l : list A) (i : Z) :
  (forall x z, P (f x z)) -> Forall P (mapi_from f i l).
Proof.
  intros H. revert i. induction l as [|x l IH]; intros i; simpl; constructor; auto.
Qed.

(** X9.  The peak of daily active users ([getUniqueUsers], the "Peak DAU" of
    the reports) is never negative and bounds the other figures derived from
    the same field: the average shown beside it, every value of the raw daily
    series and every value of the rolling average. *)
Theorem peak_bounds (records : list Rec.t) :
  let peak := Dashboard.getUniqueUsers records in
  0 <= peak
  /\ Dashboard.avgDailyActiveUsers records <= peak
  /\ Forall (fun p => DauPoint.users p <= peak)
       (Dashboard.aggregateDailyActiveUsers records)
  /\ Forall (fun p => DauPoint.users p <= peak)
       (Dashboard.aggregateWeeklyActiveUsers records).
Proof.
  intros peak. destruct (peak_ge records) as [H0 Hr]. fold peak in H0, Hr.
  split; [exact H0|]. split; [|split].
  - unfold Dashboard.avgDailyActiveUsers.
    destruct (Z.of_nat (List.length records) >? 0); [|exact H0].
    apply round_div_le; [lia|exact H0|].
    rewrite (reduce_total (fun r => JS.orZero (Rec.daily_active_users r))).
    rewrite Z.add_0_l. now apply total_le.
  - unfold Dashboard.aggregateDailyActiveUsers. apply Forall_map.
    apply Forall_forall. intros d _. simpl.
    destruct (find _ records) as [r|] eqn:E; [|exact H0].
    apply find_some in E. now apply Hr.
  - unfold Dashboard.aggregateWeeklyActiveUsers, mapi.
    apply mapi_from_forall. intros day idx. simpl.
    apply round_div_le; [lia|exact H0|].
    rewrite (reduce_total
               (fun d => JS.orZero (JS.get (Dashboard.dauByDay records) d))).
    rewrite Z.add_0_l. apply total_le.
    intros d _. rewrite dauByDay_raw. apply rawDau_le_peak.
Qed.

(** *** The percentage-normalized series, day by day *)

Lemma usagePerDay_series (records : list Rec.t)
    (field : Rec.t -> option (list Entry.t)) (key : Entry.t -> string)
    (cnt : Entry.t -> Z) :
  no_Other records field key ->
  DaySeries.series (Dashboard.usagePerDay records field key cnt)
  = map
      (fun k =>
         (k,
          map
            (fun day =>
               Dashboard.dayShare
                 (Dashboard.dayCounts records field key cnt
                    (Dashboard.recordsOf (Dashboard.getRecordsByDay records) day))
                 k)
            (Dashboard.getSortedDays records)))
      (Dashboard.topKeys records field key cnt ++ ["Other"]).
Proof.
  intros Hother.
  pose proof (ks_nodup records field key cnt Hother) as Hnd.
  unfold Dashboard.usagePerDay. cbn [DaySeries.series].
  rewrite (table_init _ [] Hnd).
  exact (series_fold _ (Dashboard.getSortedDays records)
           (fun day =>
              Dashboard.dayShare
                (Dashboard.dayCounts records field key cnt
                   (Dashboard.recordsOf (Dashboard.getRecordsByDay records) day)))
           (fun _ => []) Hnd).
Qed.

(** X10.  The per-day series of model usage and of language usage, when no
    category is itself called "Other": the series keys are the top categories
    followed by "Other", every series holds one value per day, and on a day
    whose total is not positive every value is 0. *)
Theorem usagePerDay_aligned (records : list Rec.t)
    (field : Rec.t -> option (list Entry.t)) (key : Entry.t -> string)
    (cnt : Entry.t -> Z) :
  no_Other records field key ->
  let s := Dashboard.usagePerDay records field key cnt in
  DaySeries.days s = Dashboard.getSortedDays records
  /\ JS.keys (DaySeries.series s)
     = Dashboard.topKeys records field key cnt ++ ["Other"]
  /\ Forall (fun kv => List.length (snd kv) = List.length (DaySeries.days s))
       (DaySeries.series s)
  /\ forall j day,
       nth_error (DaySeries.days s) j = Some day ->
       dayTotal records field cnt day <= 0 ->
       Forall (fun v => v = 0) (day_values s j).
Proof.
  intros Hother s.
  pose proof (usagePerDay_series records field key cnt Hother) as Hs.
  fold s in Hs.
  assert (Hd : DaySeries.days s = Dashboard.getSortedDays records) by reflexivity.
  split; [exact Hd|]. split; [|split].
  - rewrite Hs. unfold JS.keys. rewrite map_map. apply map_id.
  - rewrite Hs, Hd. apply Forall_map. apply Forall_forall. intros k _. simpl.
    apply length_map.
  - intros j day Hj Hz. unfold day_values. rewrite Hs, map_map.
    apply Forall_map. apply Forall_forall. intros k _. cbn [snd].
    rewrite Hd in Hj. rewrite (nth_map_some _ _ _ _ day Hj).
    unfold Dashboard.dayShare.
    destruct (dayCounts_facts records field key cnt Hother
                (Dashboard.recordsOf (Dashboard.getRecordsByDay records) day))
      as [_ Hsum].
    rewrite recordsOf_filter in Hsum.
    change (total cnt _) with (dayTotal records field cnt day) in Hsum.
    assert (Ht : JS.reduce Z.add 0
                   (JS.values
                      (Dashboard.dayCounts records field key cnt
                         (Dashboard.recordsOf (Dashboard.getRecordsByDay records) day)))
                 = dayTotal records field cnt day).
    { rewrite <- Hsum, recordsOf_filter.
      exact (eq_trans (reduce_total (fun v => v) _ 0) (Z.add_0_l _)). }
    rewrite Ht.
    destruct (Z.gtb_spec (dayTotal records field cnt day) 0); [lia|reflexivity].
Qed.

Lemma usagePerDay_aligned_witness :
  JS.keys (DaySeries.series (Dashboard.aggregateModelUsagePerDay six_each))
  = [ "m-a"; "m-b"; "m-c"; "m-d"; "m-e"; "Other" ]
  /\ Forall (fun kv => List.length (snd kv) = 1%nat)
       (DaySeries.series (Dashboard.aggregateModelUsagePerDay six_each)).
Proof.
  destruct six_each_no_Other as [Om _].
  destruct (usagePerDay_aligned six_each Rec.totals_by_model_feature Entry.model
              (fun m =>
                 JS.orZero (Entry.user_initiated_interaction_count m)
                 + JS.orZero (Entry.code_generation_activity_count m)) Om)
    as [_ [Hk [Hl _]]].
  split; [exact Hk | exact Hl].
Defined.

(** *** The MCP tools and the dashboard aggregations *)

(** X11.  The MCP server's [getModelUsage] is the dashboard's
    [aggregateByModel]; its [getIDEUsage] is the dashboard's [aggregateByIDE]
    with one more column ([locAdded]): the same IDEs in the same order with
    the same interactions and generated code. *)
Theorem mcp_model_ide_agree (records : list Rec.t) :
  Mcp.getModelUsage records = Dashboard.aggregateByModel records
  /\ map ide_row (Mcp.getIDEUsage records) = Dashboard.aggregateByIDE records.
Proof.
  split; [reflexivity|].
  unfold Mcp.getIDEUsage, Dashboard.aggregateByIDE.
  rewrite (sort_map ide_row _
             (fun a b => IdeRow.interactions b - IdeRow.interactions a))
    by reflexivity.
  f_equal. rewrite map_map.
  rewrite <- (for_entries_map (fun t : Z * Z * Z => fst t) records
                Rec.totals_by_ide
                (fun (ides : JS.obj (Z * Z * Z)) i =>
                   JS.upsert (Entry.ide i) (0, 0, 0)
                     (fun '(n, c, l) =>
                        (n + JS.orZero (Entry.user_initiated_interaction_count i),
                         c + JS.orZero (Entry.code_generation_activity_count i),
                         l + JS.orZero (Entry.loc_added_sum i)))
                     ides)).
  - rewrite map_map. apply map_ext. intros [k [[n c] l]]. reflexivity.
  - intros o e.
    apply (upsert_map (fun t : Z * Z * Z => fst t)).
    + reflexivity.
    + intros [[n c] l]. reflexivity.
Qed.

(** X12.  The MCP server's [getFeatureUsage] holds the rows of the
    dashboard's [aggregateByFeature] (with [codeAccepted] and the display name
    added), in another order: the MCP rows descend by generated code, the
    dashboard's by interactions.  A feature without a display name is shown
    under its own name. *)
Theorem mcp_features_agree (records : list Rec.t) :
  let rows := Mcp.getFeatureUsage records in
  Permutation (map feature_row rows) (Dashboard.aggregateByFeature records)
  /\ desc Mcp.FeatureRow.codeGenerated rows
  /\ Forall
       (fun row =>
          Mcp.FeatureRow.displayName row
          = Dashboard.display_or (Mcp.FeatureRow.feature row))
       rows.
Proof.
  intros rows. unfold rows, Mcp.getFeatureUsage. split; [|split].
  - unfold Dashboard.aggregateByFeature.
    etransitivity; [apply Permutation_map, sort_perm|].
    symmetry. etransitivity; [apply sort_perm|]. symmetry.
    rewrite map_map.
    rewrite <- (for_entries_map
                  (fun t : Z * Z * Z * Z => (fst (fst (fst t)), snd (fst (fst t)), snd t))
                  records Rec.totals_by_feature
                  (fun (features : JS.obj (Z * Z * Z * Z)) f =>
                     JS.upsert (Entry.feature f) (0, 0, 0, 0)
                       (fun '(i, c, acc, l) =>
                          (i + JS.orZero (Entry.user_initiated_interaction_count f),
                           c + JS.orZero (Entry.code_generation_activity_count f),
                           acc + JS.orZero (Entry.code_acceptance_activity_count f),
                           l + JS.orZero (Entry.loc_added_sum f)))
                       features)).
    + rewrite map_map.
      match goal with
      | |- Permutation ?a ?b => assert (E : a = b); [|rewrite E; reflexivity]
      end.
      apply map_ext. intros [k [[[i c] acc] l]]. reflexivity.
    + intros o e.
      apply (upsert_map
               (fun t : Z * Z * Z * Z => (fst (fst (fst t)), snd (fst (fst t)), snd t))).
      * reflexivity.
      * intros [[[i c] acc] l]. reflexivity.
  - apply sort_desc.
  - apply Forall_forall. intros row Hrow. apply sort_in in Hrow.
    apply in_map_iff in Hrow. destruct Hrow as [[k [[[i c] acc] l]] [<- _]].
    reflexivity.
Qed.

(** *** A lazy load that fails *)

Lemma run_app (s : Mcp.state) (pre post : list Mcp.event) :
  Mcp.run s (pre ++ post) = Mcp.run (Mcp.run s pre) post.
Proof. unfold Mcp.run. apply fold_left_app. Qed.

Lemma failed_stays (id : nat) (post : list Mcp.event) (s : Mcp.state) :
  forallb Mcp.lazy_only post = true ->
  Mcp.dataLoaded s = false -> Mcp.dataLoading s = Some id -> Mcp.inflight s = [] ->
  let s' := Mcp.run s post in
  Mcp.dataLoaded s' = false /\ Mcp.dataLoading s' = Some id
  /\ Mcp.inflight s' = [] /\ Mcp.started s' = Mcp.started s.
Proof.
  revert s. induction post as [|e post IH]; intros s Hp Hl Hd Hi; simpl.
  - auto.
  - simpl in Hp. apply andb_prop in Hp. destruct Hp as [He Hp].
    assert (Hs : Mcp.step s e = s).
    { destruct s as [l d i n]. simpl in Hl, Hd, Hi. subst l d i.
      destruct e as [| |x|x]; try discriminate; reflexivity. }
    rewrite Hs. now apply IH.
Qed.

(** X13.  On the MCP server, as long as loads are started by [ensureData]
    only, the rejection of the running load is final: whatever calls of
    [ensureData] follow, no other load is started, nothing is loaded, and
    every call is handed the promise of the load that was rejected. *)
Theorem failed_load_is_final (pre post : list Mcp.event) (id : nat) :
  forallb Mcp.lazy_only (pre ++ Mcp.Rejected id :: post) = true ->
  In id (Mcp.inflight (Mcp.run Mcp.init pre)) ->
  let s := Mcp.run Mcp.init (pre ++ Mcp.Rejected id :: post) in
  Mcp.dataLoaded s = false
  /\ Mcp.inflight s = []
  /\ Mcp.started s = Mcp.started (Mcp.run Mcp.init pre)
  /\ Mcp.ensureData s = (s, Mcp.Load id).
Proof.
  intros Ht Hin s.
  rewrite forallb_app in Ht. apply andb_prop in Ht. destruct Ht as [Hpre Hpost].
  simpl in Hpost.
  assert (Hinv : lazy_inv (Mcp.run Mcp.init pre)).
  { apply lazy_inv_run; [assumption|]. left. simpl. auto. }
  destruct Hinv as [[H _] | [x [H [Hp Hl]]]]; rewrite H in Hin; [contradiction|].
  destruct Hin as [<-|[]].
  unfold s. rewrite run_app.
  change (Mcp.run (Mcp.run Mcp.init pre) (Mcp.Rejected x :: post))
    with (Mcp.run (Mcp.step (Mcp.run Mcp.init pre) (Mcp.Rejected x)) post).
  destruct (failed_stays x post (Mcp.step (Mcp.run Mcp.init pre) (Mcp.Rejected x)) Hpost)
    as [Hl' [Hd' [Hi' Hs']]].
  - exact Hl.
  - exact Hp.
  - simpl. rewrite H. unfold Mcp.remove_id. simpl. now rewrite Nat.eqb_refl.
  - split; [exact Hl'|]. split; [exact Hi'|]. split; [exact Hs'|].
    unfold Mcp.ensureData. now rewrite Hl', Hd'.
Qed.

Lemma failed_load_is_final_witness :
  let s :=
    Mcp.run Mcp.init
      ([ Mcp.CallEnsureData ]
         ++ Mcp.Rejected 0 :: [ Mcp.CallEnsureData; Mcp.CallEnsureData ]) in
  Mcp.dataLoaded s = false
  /\ Mcp.inflight s = []
  /\ Mcp.started s = 1%nat
  /\ Mcp.ensureData s = (s, Mcp.Load 0%nat).
Proof.
  apply (failed_load_is_final [ Mcp.CallEnsureData ]
           [ Mcp.CallEnsureData; Mcp.CallEnsureData ] 0%nat).
  - reflexivity.
  - simpl. now left.
Defined.

(** *** Deduplication of the fetched records *)

Lemma in_put {V : Type} (k k0 : string) (v x : V) (o : JS.obj V) :
  In (k, v) (JS.put k0 x o) -> In (k, v) o \/ (k = k0 /\ v = x).
Proof.
  unfold JS.put. induction o as [|[k' v'] o IH]; simpl.
  - intros [H|[]]. inversion H. now right.
  - destruct (String.eqb_spec k0 k') as [->|Hne]; simpl.
    + intros [H|H]; [inversion H; now right|left; now right].
    + intros [H|H]; [left; now left|].
      destruct (IH H) as [Hin|Heq]; [left; now right|now right].
Qed.

Lemma get_in {V : Type} (o : JS.obj V) (k : string) (v : V) :
  JS.get o k = Some v -> In (k, v) o.
Proof.
  induction o as [|[k' v'] o IH]; simpl; [discriminate|].
  destruct (String.eqb_spec k k') as [->|_].
  - intros H. inversion H. now left.
  - intros H. right. now apply IH.
Qed.

Section Dedupe.

Context {R : Type}.
Variable key : R -> string.

Let put_all (l : list R) (o : JS.obj R) : JS.obj R :=
  fold_left (fun seen rec => JS.put (key rec) rec seen) l o.

Lemma seen_get (l : list R) (k : string) :
  JS.get (put_all l []) k = find (fun y => String.eqb (key y) k) (rev l).
Proof.
  unfold put_all. induction l as [|x l IH] using rev_ind; [reflexivity|].
  rewrite fold_left_app, rev_app_distr. simpl.
  rewrite get_put, IH, (String.eqb_sym k (key x)). reflexivity.
Qed.

Lemma seen_keys_nodup (l : list R) : NoDup (JS.keys (put_all l [])).
Proof.
  unfold put_all. induction l as [|x l IH] using rev_ind; simpl; [constructor|].
  rewrite fold_left_app. simpl. unfold JS.put. now apply keys_upsert_nodup.
Qed.

Lemma seen_sound (l : list R) (k : string) (v : R) :
  In (k, v) (put_all l []) -> key v = k /\ In v l.
Proof.
  unfold put_all. induction l as [|x l IH] using rev_ind; simpl; [contradiction|].
  rewrite fold_left_app. simpl. intros H. apply in_put in H.
  destruct H as [H|[-> ->]].
  - destruct (IH H) as [Hk Hin]. split; [assumption|]. apply in_or_app. now left.
  - split; [reflexivity|]. apply in_or_app. right. now left.
Qed.

Lemma seen_distinct (l : list R) (o : JS.obj R) :
  NoDup (map key l) -> (forall x, In x l -> ~ In (key x) (JS.keys o)) ->
  put_all l o = o ++ map (fun x => (key x, x)) l.
Proof.
  unfold put_all. revert o. induction l as [|x l IH]; intros o Hnd Hfresh; simpl.
  - now rewrite app_nil_r.
  - simpl in Hnd. inversion Hnd as [|? ? Hx Hnd']; subst.
    unfold JS.put at 2. rewrite upsert_fresh by (apply Hfresh; now left).
    rewrite IH; [now rewrite <- app_assoc | assumption |].
    intros y Hy. unfold JS.keys. rewrite map_app, in_app_iff. simpl.
    intros [H|[H|[]]].
    + apply (Hfresh y); [now right|exact H].
    + apply Hx. rewrite H. now apply in_map.
Qed.

Lemma seen_values_keys (l : list R) :
  map key (JS.values (put_all l [])) = JS.keys (put_all l []).
Proof.
  unfold JS.values, JS.keys. rewrite map_map. apply map_ext_in.
  intros [k v] Hin. simpl. now apply (seen_sound l).
Qed.

End Dedupe.

Lemma cat_assoc (a b c : string) : JS.cat (JS.cat a b) c = JS.cat a (JS.cat b c).
Proof.
  unfold JS.cat. induction a as [|x a IH]; simpl; [reflexivity|]. now rewrite IH.
Qed.

(** X14.  What [loadAllData] keeps of the fetched records: no two kept
    records share a key; a record is kept exactly when it is the last fetched
    one with its key; deduplicating again changes nothing; and when all
    records carry the same [enterprise_id], the kept records have distinct
    days. *)
Theorem dedupe_last_wins (allRecords : list Loader.Fetched.t) :
  let kept := Loader.dedupe allRecords in
  NoDup (map Loader.key_of kept)
  /\ (forall x,
        In x kept
        <-> find (fun y => String.eqb (Loader.key_of y) (Loader.key_of x))
              (rev allRecords)
            = Some x)
  /\ Loader.dedupe kept = kept
  /\ forall e,
       (forall x, In x allRecords -> Loader.Fetched.enterprise_id x = e) ->
       NoDup (map (fun x => Rec.day (Loader.Fetched.record x)) kept).
Proof.
  intros kept. unfold kept, Loader.dedupe, Loader.seen.
  pose proof (seen_keys_nodup Loader.key_of allRecords) as Hnd.
  pose proof (seen_values_keys Loader.key_of allRecords) as Hvk.
  pose proof (seen_get Loader.key_of allRecords) as Hget.
  pose proof (seen_sound Loader.key_of allRecords) as Hsound.
  cbv zeta in Hnd, Hvk, Hget, Hsound.
  set (seen := fold_left
                 (fun seen rec => JS.put (Loader.key_of rec) rec seen) allRecords [])
    in *.
  assert (Hkeys : NoDup (map Loader.key_of (JS.values seen))) by now rewrite Hvk.
  split; [exact Hkeys|]. split; [|split].
  - intros x. rewrite <- Hget. split.
    + intros Hin. unfold JS.values in Hin. apply in_map_iff in Hin.
      destruct Hin as [[k v] [Hv Hin]]. simpl in Hv. subst v.
      destruct (Hsound _ _ Hin) as [Hk _]. rewrite Hk.
      now apply in_get.
    + intros H. apply get_in in H. unfold JS.values.
      apply in_map_iff. now exists (Loader.key_of x, x).
  - pose proof (seen_distinct Loader.key_of (JS.values seen) [] Hkeys) as Hd.
    cbv zeta in Hd. rewrite Hd by (intros x _ []).
    simpl. unfold JS.values at 1. rewrite map_map. simpl. apply map_id.
  - intros e He.
    set (p := JS.cat
                match e with
                | Some id => if String.eqb id "" then "default" else id
                | None => "default"
                end "|").
    assert (Hk : map Loader.key_of (JS.values seen)
                 = map (JS.cat p)
                     (map (fun x => Rec.day (Loader.Fetched.record x))
                        (JS.values seen))).
    { rewrite map_map. apply map_ext_in. intros x Hin.
      unfold JS.values in Hin. apply in_map_iff in Hin.
      destruct Hin as [[k v] [Hv Hin]]. simpl in Hv. subst v.
      destruct (Hsound _ _ Hin) as [_ Hall].
      unfold Loader.key_of. rewrite (He x Hall). unfold p.
      now rewrite cat_assoc. }
    rewrite Hk in Hkeys. eapply NoDup_map_inv. exact Hkeys.
Qed.

(** *** The [.env] file *)

Lemma load_line_keeps (env : JS.obj string) (line k : string) :
  Env.unset env k = false ->
  JS.get (Env.load_line env line) k = JS.get env k
  /\ Env.unset (Env.load_line env line) k = false.
Proof.
  intros Hk.
  assert (G : forall key val,
            Env.unset env key = true ->
            JS.get (JS.put key val env) k = JS.get env k).
  { intros key val Hu. rewrite get_put.
    destruct (String.eqb_spec k key) as [->|_]; [congruence|reflexivity]. }
  assert (E : JS.get (Env.load_line env line) k = JS.get env k).
  { unfold Env.load_line.
    destruct (_ || _); [reflexivity|].
    destruct (Env.cut _ _) as [[[eq before] after]|]; [|reflexivity].
    destruct (0 <? eq)%nat; [|reflexivity].
    destruct (Env.unset env (Env.trim before)) eqn:Hu; [|reflexivity].
    now apply G. }
  split; [exact E|]. unfold Env.unset in *. now rewrite E.
Qed.

(** X15.  Loading the [.env] file never changes a variable that the
    environment already sets to a string that is not empty, whatever the
    file holds. *)
Theorem load_keeps_set (text : string) (env : JS.obj string) (k : string) :
  Env.unset env k = false ->
  JS.get (Env.load text env) k = JS.get env k.
Proof.
  unfold Env.load. generalize (Env.split (ascii_of_nat 10) text) as lines.
  intros lines. revert env. induction lines as [|line lines IH]; intros env Hk; simpl.
  - reflexivity.
  - destruct (load_line_keeps env line k Hk) as [E Hu].
    rewrite IH by exact Hu. exact E.
Qed.

Lemma load_keeps_set_witness :
  JS.get
    (Env.load (JS.cat "PORT=3000" (JS.cat JS.nl "HOST = example.org"))
       [ ("PORT", "8080") ])
    "PORT"
  = Some "8080".
Proof.
  exact (load_keeps_set (JS.cat "PORT=3000" (JS.cat JS.nl "HOST = example.org"))
           [ ("PORT", "8080") ] "PORT" eq_refl).
Defined.

(** *** Grouping by day *)

Lemma getRecordsByDay_get (records : list Rec.t) (day : string) :
  JS.get (Dashboard.getRecordsByDay records) day
  = if existsb (fun r => String.eqb (Rec.day r) day) records
    then Some (filter (fun r => String.eqb (Rec.day r) day) records)
    else None.
Proof.
  unfold Dashboard.getRecordsByDay.
  induction records as [|r rs IH] using rev_ind; [reflexivity|].
  rewrite fold_left_app, existsb_app, filter_app. simpl.
  rewrite get_upsert, orb_false_r, (String.eqb_sym day (Rec.day r)).
  destruct (String.eqb_spec (Rec.day r) day) as [Heq|Hne].
  - rewrite orb_true_r. rewrite Heq, IH.
    destruct (existsb _ rs) eqn:E; [reflexivity|].
    now rewrite (filter_none _ _ E).
  - rewrite orb_false_r, app_nil_r. exact IH.
Qed.

Lemma filter_or_perm {A : Type} (p q : A -> bool) (l : list A) :
  (forall x, p x = true -> q x = false) ->
  Permutation (filter (fun x => p x || q x) l) (filter p l ++ filter q l).
Proof.
  intros H. induction l as [|x l IH]; simpl; [constructor|].
  destruct (p x) eqn:Hp; simpl.
  - rewrite (H x Hp). now constructor.
  - destruct (q x); [|exact IH]. now apply Permutation_cons_app.
Qed.

Lemma partition_by_key {A : Type} (key : A -> string) (ds : list string)
    (l : list A) :
  NoDup ds ->
  Permutation (flat_map (fun d => filter (fun x => String.eqb (key x) d) l) ds)
    (filter (fun x => JS.mem (key x) ds) l).
Proof.
  induction ds as [|d ds IH]; intros Hnd; simpl.
  - rewrite filter_none; [constructor|].
    induction l; simpl; auto.
  - inversion Hnd as [|? ? Hd Hnd']; subst.
    rewrite (filter_or_perm (fun x => String.eqb (key x) d)
               (fun x => JS.mem (key x) ds)).
    + apply Permutation_app_head. now apply IH.
    + intros x Hx. apply String.eqb_eq in Hx. rewrite Hx.
      unfold JS.mem. destruct (existsb (String.eqb d) ds) eqn:E; [|reflexivity].
      apply existsb_exists in E. destruct E as [y [Hy Hdy]].
      apply String.eqb_eq in Hdy. subst y. contradiction.
Qed.

Lemma by_day_partition (records : list Rec.t) :
  Permutation
    (flat_map (Dashboard.recordsOf (Dashboard.getRecordsByDay records))
       (Dashboard.getSortedDays records))
    records.
Proof.
  rewrite (flat_map_ext _
             (fun d => filter (fun r => String.eqb (Rec.day r) d) records))
    by (intros d; apply recordsOf_filter).
  rewrite (partition_by_key Rec.day) by apply getSortedDays_nodup.
  assert (E : forall l, (forall r, In r l -> In r records) ->
              filter (fun r => JS.mem (Rec.day r) (Dashboard.getSortedDays records)) l = l).
  { induction l as [|r l IH]; intros Hl; simpl; [reflexivity|].
    assert (Hm : JS.mem (Rec.day r) (Dashboard.getSortedDays records) = true).
    { unfold JS.mem. apply existsb_exists. exists (Rec.day r).
      split; [|apply String.eqb_refl].
      apply getSortedDays_in. exists r. split; [apply Hl; now left|reflexivity]. }
    rewrite Hm. f_equal. apply IH. intros x Hx. apply Hl. now right. }
  rewrite E by auto. reflexivity.
Qed.

Lemma total_flat_map {A B : Type} (f : B -> Z) (g : A -> list B) (l : list A) :
  total f (flat_map g l) = total (fun x => total f (g x)) l.
Proof.
  induction l as [|x l IH]; simpl; [reflexivity|].
  rewrite total_app, IH. reflexivity.
Qed.

Lemma total_map {A B : Type} (f : B -> Z) (g : A -> B) (l : list A) :
  total f (map g l) = total (fun x => f (g x)) l.
Proof. unfold total. now rewrite map_map. Qed.

Lemma total_ext {A : Type} (f g : A -> Z) (l : list A) :
  (forall x, f x = g x) -> total f l = total g l.
Proof. intros H. unfold total. f_equal. now apply map_ext. Qed.

(** Summing a per-record quantity day by day gives its sum over all
    records. *)
Lemma by_day_total (records : list Rec.t) (f : Rec.t -> Z) :
  total
    (fun day => total f (Dashboard.recordsOf (Dashboard.getRecordsByDay records) day))
    (Dashboard.getSortedDays records)
  = total f records.
Proof.
  rewrite <- total_flat_map. apply total_perm, by_day_partition.
Qed.

(** X16.  [getRecordsByDay] against [getSortedDays]: every sorted day is a
    key, whose group is not empty and holds the records of that day in their
    order; nothing else is a key; and the groups of the sorted days, put
    together, are the records: none is lost, none is counted twice. *)
Theorem getRecordsByDay_partition (records : list Rec.t) :
  let byDay := Dashboard.getRecordsByDay records in
  let days := Dashboard.getSortedDays records in
  (forall day, In day days ->
     exists group,
       JS.get byDay day = Some group /\ group <> []
       /\ group = filter (fun r => String.eqb (Rec.day r) day) records)
  /\ (forall day, ~ In day days -> JS.get byDay day = None)
  /\ Permutation (flat_map (Dashboard.recordsOf byDay) days) records.
Proof.
  intros byDay days. unfold byDay, days. split; [|split].
  - intros day Hday. apply getSortedDays_in in Hday. destruct Hday as [r [Hr Hd]].
    rewrite getRecordsByDay_get.
    assert (Hin : In r (filter (fun r => String.eqb (Rec.day r) day) records)).
    { apply filter_In. split; [assumption|]. now apply String.eqb_eq. }
    destruct (existsb _ records) eqn:E.
    + eexists. split; [reflexivity|]. split; [|reflexivity].
      intros Hnil. rewrite Hnil in Hin. contradiction.
    + rewrite (filter_none _ _ E) in Hin. contradiction.
  - intros day Hday. rewrite getRecordsByDay_get.
    destruct (existsb _ records) eqn:E; [|reflexivity].
    apply existsb_exists in E. destruct E as [r [Hr Hd]].
    exfalso. apply Hday. apply getSortedDays_in. exists r.
    split; [assumption|]. now apply String.eqb_eq.
  - apply by_day_partition.
Qed.

(** *** Daily series that add up *)

Lemma fold_pair_total {A : Type} (x y : A -> Z) (l : list A) (a b : Z) :
  fold_left (fun '(a, b) r => (a + x r, b + y r)) l (a, b)
  = (a + total x l, b + total y l).
Proof.
  unfold total. revert a b. induction l as [|r l IH]; intros a b; simpl.
  - f_equal; lia.
  - rewrite IH. f_equal; lia.
Qed.

Lemma fold_pair_if {A : Type} (p : A -> bool) (x y : A -> Z) (l : list A) (a b : Z) :
  fold_left (fun '(a, b) f => if p f then (a + x f, b + y f) else (a, b)) l (a, b)
  = (a + total (fun f => if p f then x f else 0) l,
     b + total (fun f => if p f then y f else 0) l).
Proof.
  unfold total. revert a b. induction l as [|r l IH]; intros a b; simpl.
  - f_equal; lia.
  - destruct (p r); rewrite IH; f_equal; lia.
Qed.

(** X17.  The daily lines-of-code series has one point per sorted day, and
    its values add up to the totals over all records: the added lines to
    [sumField('loc_added_sum')], the deleted lines to
    [sumField('loc_deleted_sum')]. *)
Theorem aggregateDailyLocAddedDeleted_totals (records : list Rec.t) :
  let points := Dashboard.aggregateDailyLocAddedDeleted records in
  map LocPoint.day points = Dashboard.getSortedDays records
  /\ total LocPoint.added points = Dashboard.sumField records Rec.loc_added_sum
  /\ total LocPoint.deleted points = Dashboard.sumField records Rec.loc_deleted_sum.
Proof.
  intros points. unfold points, Dashboard.aggregateDailyLocAddedDeleted.
  assert (E : forall day,
            (let '(added, deleted) :=
               fold_left
                 (fun '(added, deleted) r =>
                    (added + JS.orZero (Rec.loc_added_sum r),
                     deleted + JS.orZero (Rec.loc_deleted_sum r)))
                 (Dashboard.recordsOf (Dashboard.getRecordsByDay records) day) (0, 0) in
             LocPoint.mk day added deleted)
            = LocPoint.mk day
                (total (fun r => JS.orZero (Rec.loc_added_sum r))
                   (Dashboard.recordsOf (Dashboard.getRecordsByDay records) day))
                (total (fun r => JS.orZero (Rec.loc_deleted_sum r))
                   (Dashboard.recordsOf (Dashboard.getRecordsByDay records) day))).
  { intros day.
    rewrite (fold_pair_total (fun r => JS.orZero (Rec.loc_added_sum r))
               (fun r => JS.orZero (Rec.loc_deleted_sum r))).
    reflexivity. }
  rewrite (map_ext _ _ E).
  split; [|split].
  - rewrite map_map. apply map_id.
  - rewrite total_map. cbn [LocPoint.added].
    rewrite by_day_total. unfold Dashboard.sumField.
    now rewrite (reduce_total (fun r => JS.orZero (Rec.loc_added_sum r))).
  - rewrite total_map. cbn [LocPoint.deleted].
    rewrite by_day_total. unfold Dashboard.sumField.
    now rewrite (reduce_total (fun r => JS.orZero (Rec.loc_deleted_sum r))).
Qed.

Lemma fold_quad_if (pu pa : Entry.t -> bool) (es : list Entry.t) (a b c d : Z) :
  fold_left
    (fun '(userSuggested, userAdded, agentAdded, agentDeleted) f =>
       let '(userSuggested, userAdded) :=
         if pu f
         then (userSuggested + JS.orZero (Entry.loc_suggested_to_add_sum f),
               userAdded + JS.orZero (Entry.loc_added_sum f))
         else (userSuggested, userAdded) in
       let '(agentAdded, agentDeleted) :=
         if pa f
         then (agentAdded + JS.orZero (Entry.loc_added_sum f),
               agentDeleted + JS.orZero (Entry.loc_deleted_sum f))
         else (agentAdded, agentDeleted) in
       (userSuggested, userAdded, agentAdded, agentDeleted))
    es (a, b, c, d)
  = (a + total (fun f => if pu f then suggested_of f else 0) es,
     b + total (fun f => if pu f then added_of f else 0) es,
     c + total (fun f => if pa f then added_of f else 0) es,
     d + total (fun f => if pa f then deleted_of f else 0) es).
Proof.
  unfold total, suggested_of, added_of, deleted_of.
  revert a b c d. induction es as [|e es IH]; intros a b c d; simpl.
  - repeat match goal with |- (_, _) = (_, _) => apply (f_equal2 pair) end; lia.
  - destruct (pu e), (pa e); rewrite IH;
      repeat match goal with |- (_, _) = (_, _) => apply (f_equal2 pair) end; lia.
Qed.

Lemma completions_of_day (rs : list Rec.t) :
  fold_left
    (fun acc r =>
       fold_left
         (fun '(shown, accepted) f =>
            if String.eqb (Entry.feature f) "code_completion"
            then (shown + JS.orZero (Entry.code_generation_activity_count f),
                  accepted + JS.orZero (Entry.code_acceptance_activity_count f))
            else (shown, accepted))
         (JS.orNil (Rec.totals_by_feature r)) acc)
    rs (0, 0)
  = (total
       (fun r =>
          total
            (fun f =>
               if String.eqb (Entry.feature f) "code_completion"
               then generated_of f else 0)
            (JS.orNil (Rec.totals_by_feature r)))
       rs,
     total
       (fun r =>
          total
            (fun f =>
               if String.eqb (Entry.feature f) "code_completion"
               then accepted_of f else 0)
            (JS.orNil (Rec.totals_by_feature r)))
       rs).
Proof.
  change (fold_left _ rs (0, 0))
    with (Dashboard.for_entries rs Rec.totals_by_feature
            (fun '(shown, accepted) f =>
               if String.eqb (Entry.feature f) "code_completion"
               then (shown + JS.orZero (Entry.code_generation_activity_count f),
                     accepted + JS.orZero (Entry.code_acceptance_activity_count f))
               else (shown, accepted))
            (0, 0)).
  rewrite for_entries_flat.
  rewrite (fold_pair_if
             (fun f => String.eqb (Entry.feature f) "code_completion")
             (fun f => JS.orZero (Entry.code_generation_activity_count f))
             (fun f => JS.orZero (Entry.code_acceptance_activity_count f))).
  rewrite !total_flat_map. reflexivity.
Qed.

(** X18.  The MCP server's [getCodeGenerationStats] against the dashboard:
    its user-initiated and agent-initiated lines are the dashboard's
    [aggregateUserInitiatedCodeChanges] and
    [aggregateAgentInitiatedCodeChanges], and its completions shown and
    accepted are the sums of the dashboard's daily [aggregateCodeCompletions]
    series. *)
Theorem getCodeGenerationStats_agrees (records : list Rec.t) :
  let stats := Mcp.getCodeGenerationStats records in
  let daily := Dashboard.aggregateCodeCompletions records in
  Mcp.CodeGenStats.userInitiated stats
  = Dashboard.aggregateUserInitiatedCodeChanges records
  /\ Mcp.CodeGenStats.agentInitiated stats
     = Dashboard.aggregateAgentInitiatedCodeChanges records
  /\ Mcp.CodeGenStats.shown stats = total Completion.shown daily
  /\ Mcp.CodeGenStats.accepted stats = total Completion.accepted daily
  /\ map Completion.day daily = Dashboard.getSortedDays records.
Proof.
  intros stats daily.
  assert (Hs : stats
               = let es := all_entries records Rec.totals_by_feature in
                 let pu := fun f => JS.mem (Entry.feature f) Dashboard.USER_INITIATED_FEATURES in
                 let pa := fun f => JS.mem (Entry.feature f) Dashboard.AGENT_FEATURES in
                 let cc := fun f => String.eqb (Entry.feature f) "code_completion" in
                 let shown := total (fun f => if cc f then generated_of f else 0) es in
                 let accepted := total (fun f => if cc f then accepted_of f else 0) es in
                 Mcp.CodeGenStats.mk
                   (SuggestedAdded.mk
                      (total (fun f => if pu f then suggested_of f else 0) es)
                      (total (fun f => if pu f then added_of f else 0) es))
                   (AddedDeleted.mk
                      (total (fun f => if pa f then added_of f else 0) es)
                      (total (fun f => if pa f then deleted_of f else 0) es))
                   shown accepted
                   (if shown >? 0 then Dashboard.pct accepted shown else 0)).
  { unfold stats, Mcp.getCodeGenerationStats.
    rewrite !for_entries_flat. fold (all_entries records Rec.totals_by_feature).
    rewrite (fold_quad_if
               (fun f => JS.mem (Entry.feature f) Dashboard.USER_INITIATED_FEATURES)
               (fun f => JS.mem (Entry.feature f) Dashboard.AGENT_FEATURES)).
    rewrite (fold_pair_if
               (fun f => String.eqb (Entry.feature f) "code_completion")
               (fun f => JS.orZero (Entry.code_generation_activity_count f))
               (fun f => JS.orZero (Entry.code_acceptance_activity_count f))).
    reflexivity. }
  assert (Hd : daily
               = map
                   (fun day =>
                      let rs := Dashboard.recordsOf (Dashboard.getRecordsByDay records) day in
                      Completion.mk day
                        (total
                           (fun r =>
                              total
                                (fun f =>
                                   if String.eqb (Entry.feature f) "code_completion"
                                   then generated_of f else 0)
                                (JS.orNil (Rec.totals_by_feature r)))
                           rs)
                        (total
                           (fun r =>
                              total
                                (fun f =>
                                   if String.eqb (Entry.feature f) "code_completion"
                                   then accepted_of f else 0)
                                (JS.orNil (Rec.totals_by_feature r)))
                           rs))
                   (Dashboard.getSortedDays records)).
  { unfold daily, Dashboard.aggregateCodeCompletions. apply map_ext. intros day.
    now rewrite completions_of_day. }
  rewrite Hs, Hd. cbv zeta.
  cbn [Mcp.CodeGenStats.userInitiated Mcp.CodeGenStats.agentInitiated
       Mcp.CodeGenStats.shown Mcp.CodeGenStats.accepted].
  split; [|split; [|split; [|split]]].
  - unfold Dashboard.aggregateUserInitiatedCodeChanges.
    rewrite for_entries_flat. fold (all_entries records Rec.totals_by_feature).
    rewrite (fold_pair_if
               (fun f => JS.mem (Entry.feature f) Dashboard.USER_INITIATED_FEATURES)
               (fun f => JS.orZero (Entry.loc_suggested_to_add_sum f))
               (fun f => JS.orZero (Entry.loc_added_sum f))).
    reflexivity.
  - unfold Dashboard.aggregateAgentInitiatedCodeChanges.
    rewrite for_entries_flat. fold (all_entries records Rec.totals_by_feature).
    rewrite (fold_pair_if
               (fun f => JS.mem (Entry.feature f) Dashboard.AGENT_FEATURES)
               (fun f => JS.orZero (Entry.loc_added_sum f))
               (fun f => JS.orZero (Entry.loc_deleted_sum f))).
    reflexivity.
  - rewrite total_map. cbn [Completion.shown]. rewrite by_day_total.
    unfold all_entries. now rewrite total_flat_map.
  - rewrite total_map. cbn [Completion.accepted]. rewrite by_day_total.
    unfold all_entries. now rewrite total_flat_map.
  - rewrite map_map. apply map_id.
Qed.

(** *** Requests per chat mode *)

Lemma get_table {V : Type} (h : string -> V) (ks : list string) (k : string) :
  In k ks -> JS.get (map (fun k => (k, h k)) ks) k = Some (h k).
Proof.
  induction ks as [|x ks IH]; simpl; [contradiction|].
  destruct (String.eqb_spec k x) as [->|Hne]; [reflexivity|].
  intros [H|H]; [congruence|now apply IH].
Qed.

Lemma total_filter {A : Type} (p : A -> bool) (c : A -> Z) (l : list A) :
  total c (filter p l) = total (fun e => if p e then c e else 0) l.
Proof.
  unfold total. induction l as [|x l IH]; simpl; [reflexivity|].
  destruct (p x); simpl; rewrite IH; reflexivity.
Qed.

(** A table of counters that starts at 0 for the keys [ks] and is bumped by
    the selected entries: what it holds under a key of [ks]. *)
Lemma table_sum {A : Type} (ks : list string) (kf : A -> string) (sel : A -> bool)
    (c : A -> Z) (es : list A) (k : string) :
  In k ks ->
  JS.get
    (fold_left
       (fun o e => if sel e then JS.upsert (kf e) 0 (fun v => v + c e) o else o)
       es (map (fun k => (k, 0)) ks))
    k
  = Some (total (fun e => if sel e && String.eqb (kf e) k then c e else 0) es).
Proof.
  intros Hk. induction es as [|e es IH] using rev_ind.
  - simpl. now rewrite (get_table (fun _ => 0)).
  - rewrite fold_left_app, total_app. simpl. unfold total at 2. simpl.
    destruct (sel e); simpl.
    + rewrite get_upsert, (String.eqb_sym (kf e) k).
      destruct (String.eqb_spec k (kf e)) as [<-|_].
      * rewrite IH. f_equal. lia.
      * rewrite IH. f_equal. lia.
    + rewrite IH. f_equal. lia.
Qed.

Lemma series_fold_keys {D : Type} (ks : list string) (days : list D)
    (value : D -> string -> Z) (h : string -> list Z) :
  NoDup ks ->
  fold_left
    (fun series day => Dashboard.push_all series (JS.keys series) (value day))
    days (map (fun k => (k, h k)) ks)
  = map (fun k => (k, h k ++ map (fun d => value d k) days)) ks.
Proof.
  intros Hnd. revert h. induction days as [|d days IH]; intros h; simpl.
  - apply map_ext. intros k. now rewrite app_nil_r.
  - assert (Hk : JS.keys (map (fun k => (k, h k)) ks) = ks).
    { unfold JS.keys. rewrite map_map. apply map_id. }
    rewrite Hk, push_all_table by assumption.
    rewrite (IH (fun k => h k ++ [value d k])).
    apply map_ext. intros k. now rewrite <- app_assoc.
Qed.

Lemma chat_mode_selects (feature mode : string) :
  In mode Dashboard.CHAT_MODES ->
  JS.mem feature Dashboard.CHAT_MODES
  && String.eqb (Dashboard.display feature) (Dashboard.display mode)
  = String.eqb feature mode.
Proof.
  intros Hmode.
  destruct (String.eqb_spec feature mode) as [->|Hne].
  - rewrite String.eqb_refl, andb_true_r.
    unfold JS.mem. apply existsb_exists. exists mode.
    split; [assumption|apply String.eqb_refl].
  - destruct (JS.mem feature Dashboard.CHAT_MODES) eqn:E; [|reflexivity].
    unfold JS.mem in E. apply existsb_exists in E. destruct E as [x [Hx Hfx]].
    apply String.eqb_eq in Hfx. subst x. simpl.
    simpl in Hx, Hmode.
    repeat (destruct Hx as [Hx|Hx]; [subst feature|]); try contradiction;
      repeat (destruct Hmode as [Hmode|Hmode]; [subst mode|]); try contradiction;
      try reflexivity; exfalso; now apply Hne.
Qed.

Lemma chat_mode_series (records : list Rec.t) :
  DaySeries.series (Dashboard.aggregateRequestsPerChatMode records)
  = map
      (fun mode =>
         (Dashboard.display mode,
          map
            (fun day =>
               key_total Entry.feature interactions_of
                 (day_entries records Rec.totals_by_feature day) mode)
            (Dashboard.getSortedDays records)))
      Dashboard.CHAT_MODES.
Proof.
  unfold Dashboard.aggregateRequestsPerChatMode. cbn [DaySeries.series].
  set (names := map Dashboard.display Dashboard.CHAT_MODES).
  assert (Hnd : NoDup names).
  { unfold names. simpl. repeat constructor; simpl; intuition discriminate. }
  assert (H0 : fold_left
                 (fun series feat => JS.put (Dashboard.display feat) [] series)
                 Dashboard.CHAT_MODES []
               = map (fun k => (k, @nil Z)) names) by reflexivity.
  assert (C0 : fold_left
                 (fun counts feat => JS.put (Dashboard.display feat) 0 counts)
                 Dashboard.CHAT_MODES []
               = map (fun k => (k, 0)) names) by reflexivity.
  rewrite H0, C0.
  rewrite (series_fold_keys names (Dashboard.getSortedDays records)
             (fun day name =>
                JS.orZero
                  (JS.get
                     (fold_left
                        (fun counts r =>
                           fold_left
                             (fun counts f =>
                                if JS.mem (Entry.feature f) Dashboard.CHAT_MODES
                                then JS.upsert (Dashboard.display (Entry.feature f)) 0
                                       (fun v =>
                                          v + JS.orZero
                                                (Entry.user_initiated_interaction_count f))
                                       counts
                                else counts)
                             (JS.orNil (Rec.totals_by_feature r)) counts)
                        (Dashboard.recordsOf (Dashboard.getRecordsByDay records) day)
                        (map (fun k => (k, 0)) names))
                     name))
             (fun _ => []) Hnd).
  unfold names at 2. rewrite map_map.
  apply map_ext_in. intros mode Hmode. cbn [app]. f_equal.
  apply map_ext. intros day.
  change (fold_left _ (Dashboard.recordsOf (Dashboard.getRecordsByDay records) day)
            (map (fun k => (k, 0)) names))
    with (Dashboard.for_entries
            (Dashboard.recordsOf (Dashboard.getRecordsByDay records) day)
            Rec.totals_by_feature
            (fun counts f =>
               if JS.mem (Entry.feature f) Dashboard.CHAT_MODES
               then JS.upsert (Dashboard.display (Entry.feature f)) 0
                      (fun v => v + JS.orZero (Entry.user_initiated_interaction_count f))
                      counts
               else counts)
            (map (fun k => (k, 0)) names)).
  rewrite for_entries_flat, recordsOf_filter.
  fold (day_entries records Rec.totals_by_feature day).
  rewrite (table_sum names (fun f => Dashboard.display (Entry.feature f))
             (fun f => JS.mem (Entry.feature f) Dashboard.CHAT_MODES)
             (fun f => JS.orZero (Entry.user_initiated_interaction_count f)))
    by (unfold names; now apply in_map).
  unfold key_total. rewrite total_filter. cbn [JS.orZero].
  apply total_ext. intros f. now rewrite chat_mode_selects.
Qed.

(** X19.  [aggregateRequestsPerChatMode] returns the sorted days and one
    series per chat mode, in the order of [CHAT_MODES] and under the mode's
    display name; the value of a series on a day is the sum of the
    interactions of the day's entries of that mode. *)
Theorem aggregateRequestsPerChatMode_series (records : list Rec.t) :
  let s := Dashboard.aggregateRequestsPerChatMode records in
  DaySeries.days s = Dashboard.getSortedDays records
  /\ DaySeries.series s
     = map
         (fun mode =>
            (Dashboard.display mode,
             map
               (fun day =>
                  key_total Entry.feature interactions_of
                    (day_entries records Rec.totals_by_feature day) mode)
               (Dashboard.getSortedDays records)))
         Dashboard.CHAT_MODES.
Proof.
  intros s. split; [reflexivity|apply chat_mode_series].
Qed.

(** *** The rows of [aggregateByDay] *)

Lemma filter_filter_and {A : Type} (p q : A -> bool) (l : list A) :
  filter p (filter q l) = filter (fun x => q x && p x) l.
Proof.
  induction l as [|x l IH]; simpl; [reflexivity|].
  destruct (q x); simpl; [destruct (p x)|]; now rewrite IH.
Qed.

Lemma mem_in (k : string) (l : list string) : JS.mem k l = true <-> In k l.
Proof.
  unfold JS.mem. rewrite existsb_exists. split.
  - intros [x [Hx Hk]]. apply String.eqb_eq in Hk. now subst x.
  - intros H. exists k. split; [assumption|apply String.eqb_refl].
Qed.

(** The keys of a dictionary filled by upserts are the first occurrences of
    the keys, in order. *)
Lemma keys_grouped_from {A V : Type} (key : A -> string) (init : V)
    (f : A -> V -> V) (l : list A) (o : JS.obj V) :
  JS.keys (fold_left (fun o e => JS.upsert (key e) init (f e) o) l o)
  = JS.keys o
    ++ filter (fun k => negb (JS.mem k (JS.keys o))) (JS.dedup (map key l)).
Proof.
  revert o. induction l as [|x l IH]; intros o; simpl.
  - now rewrite app_nil_r.
  - rewrite IH.
    destruct (in_dec String.string_dec (key x) (JS.keys o)) as [Hin|Hnin].
    + rewrite keys_upsert_in by assumption.
      apply (proj2 (mem_in _ _)) in Hin. rewrite Hin. simpl. f_equal.
      rewrite filter_filter_and. apply filter_ext. intros y.
      destruct (String.eqb_spec (key x) y) as [<-|_]; simpl; [|reflexivity].
      now rewrite Hin.
    + rewrite upsert_fresh by assumption.
      assert (Hm : JS.mem (key x) (JS.keys o) = false).
      { destruct (JS.mem (key x) (JS.keys o)) eqn:E; [|reflexivity].
        apply mem_in in E. contradiction. }
      rewrite Hm. simpl. unfold JS.keys at 1 2. rewrite map_app. simpl.
      rewrite <- app_assoc. simpl. f_equal. f_equal.
      rewrite filter_filter_and. apply filter_ext. intros y.
      unfold JS.mem. rewrite existsb_app. simpl.
      rewrite orb_false_r, negb_orb, (String.eqb_sym y (key x)).
      apply andb_comm.
Qed.

Lemma keys_grouped {A V : Type} (key : A -> string) (init : V)
    (f : A -> V -> V) (l : list A) :
  JS.keys (fold_left (fun o e => JS.upsert (key e) init (f e) o) l [])
  = JS.dedup (map key l).
Proof.
  rewrite keys_grouped_from. simpl.
  induction (JS.dedup (map key l)) as [|k ks IH]; simpl; [reflexivity|].
  now rewrite IH.
Qed.

Lemma fold_upsert_map {A V W : Type} (g : V -> W) (key : A -> string)
    (init : V) (f : A -> V -> V) (init' : A -> W) (f' : A -> W -> W)
    (l : list A) :
  (forall e, g (f e init) = f' e (init' e)) ->
  (forall e v, g (f e v) = f' e (g v)) ->
  map (fun kv => (fst kv, g (snd kv)))
    (fold_left (fun o e => JS.upsert (key e) init (f e) o) l [])
  = fold_left (fun o e => JS.upsert (key e) (init' e) (f' e) o) l [].
Proof.
  intros Hi Hf.
  induction l as [|x l IH] using rev_ind; [reflexivity|].
  rewrite !fold_left_app. simpl. rewrite <- IH.
  apply (upsert_map g); [apply Hi|apply Hf].
Qed.

(** X20.  [aggregateByDay] returns one row per day, in the order of
    [getSortedDays]; the interactions, generated code and added lines of a
    row are the sums over the records of its day, and its active users are
    those of the last record of the day.  When no two records share a day,
    the active users of the rows are the raw daily series of
    [aggregateDailyActiveUsers], which reads the first record of a day. *)
Theorem aggregateByDay_rows (records : list Rec.t) :
  let rows := Dashboard.aggregateByDay records in
  map DayRow.day rows = Dashboard.getSortedDays records
  /\ (forall row, In row rows ->
        let day := DayRow.day row in
        DayRow.interactions row
        = key_total Rec.day
            (fun r => JS.orZero (Rec.user_initiated_interaction_count r)) records day
        /\ DayRow.codeGenerated row
           = key_total Rec.day
               (fun r => JS.orZero (Rec.code_generation_activity_count r)) records day
        /\ DayRow.locAdded row
           = key_total Rec.day (fun r => JS.orZero (Rec.loc_added_sum r)) records day
        /\ DayRow.activeUsers row = rawDau records day)
  /\ (NoDup (map Rec.day records) ->
      map (fun row => DauPoint.mk (DayRow.day row) (DayRow.activeUsers row)) rows
      = Dashboard.aggregateDailyActiveUsers records).
Proof.
  intros rows.
  enough (H : map DayRow.day rows = Dashboard.getSortedDays records
              /\ forall row, In row rows ->
                   let day := DayRow.day row in
                   DayRow.interactions row
                   = key_total Rec.day
                       (fun r => JS.orZero (Rec.user_initiated_interaction_count r))
                       records day
                   /\ DayRow.codeGenerated row
                      = key_total Rec.day
                          (fun r => JS.orZero (Rec.code_generation_activity_count r))
                          records day
                   /\ DayRow.locAdded row
                      = key_total Rec.day (fun r => JS.orZero (Rec.loc_added_sum r))
                          records day
                   /\ DayRow.activeUsers row = rawDau records day).
  { destruct H as [Hdays Hvals]. split; [exact Hdays|]. split; [exact Hvals|].
    intros Hnd. unfold Dashboard.aggregateDailyActiveUsers.
    rewrite <- Hdays, map_map. apply map_ext_in. intros row Hrow.
    destruct (Hvals row Hrow) as [_ [_ [_ Ha]]]. cbv zeta in Ha.
    rewrite Ha. unfold rawDau. now rewrite find_rev_unique. }
  unfold rows, Dashboard.aggregateByDay.
  set (f := fun (r : Rec.t) (t : Z * Z * Z * Z) =>
              let '(i, c, l, _) := t in
              (i + JS.orZero (Rec.user_initiated_interaction_count r),
               c + JS.orZero (Rec.code_generation_activity_count r),
               l + JS.orZero (Rec.loc_added_sum r),
               JS.orZero (Rec.daily_active_users r))).
  set (dict := fold_left (fun o r => JS.upsert (Rec.day r) (0, 0, 0, 0) (f r) o)
                 records []).
  match goal with
  | |- context [fold_left ?b records []] => change (fold_left b records []) with dict
  end.
  set (mk := fun '(day, (i, c, l, a)) => DayRow.mk day i c l a).
  destruct (grouped_keys Rec.day (0, 0, 0, 0) f records) as [Hnd _].
  fold dict in Hnd.
  split.
  - rewrite (sort_map DayRow.day _ JS.str_cmp) by reflexivity.
    unfold Dashboard.getSortedDays. f_equal.
    rewrite map_map.
    rewrite <- (keys_grouped Rec.day (0, 0, 0, 0) f records). fold dict.
    unfold JS.keys. apply map_ext. intros [k [[[i c] l] a]]. reflexivity.
  - intros row Hrow. apply sort_in in Hrow. apply in_map_iff in Hrow.
    destruct Hrow as [[k [[[i c] l] a]] [<- Hin]]. simpl.
    split; [|split; [|split]].
    + apply (grouped_component (fun t : Z * Z * Z * Z => fst (fst (fst t))) Rec.day
               (fun r => JS.orZero (Rec.user_initiated_interaction_count r))
               (0, 0, 0, 0) f records k (i, c, l, a)); auto.
      intros e [[[x y] z] w]. reflexivity.
    + apply (grouped_component (fun t : Z * Z * Z * Z => snd (fst (fst t))) Rec.day
               (fun r => JS.orZero (Rec.code_generation_activity_count r))
               (0, 0, 0, 0) f records k (i, c, l, a)); auto.
      intros e [[[x y] z] w]. reflexivity.
    + apply (grouped_component (fun t : Z * Z * Z * Z => snd (fst t)) Rec.day
               (fun r => JS.orZero (Rec.loc_added_sum r))
               (0, 0, 0, 0) f records k (i, c, l, a)); auto.
      intros e [[[x y] z] w]. reflexivity.
    + rewrite <- dauByDay_raw.
      assert (Hmap : map (fun kv => (fst kv, snd (snd kv))) dict
                     = Dashboard.dauByDay records).
      { unfold dict, Dashboard.dauByDay, JS.put.
        apply (fold_upsert_map (fun t : Z * Z * Z * Z => snd t) Rec.day (0, 0, 0, 0) f
                 (fun r => JS.orZero (Rec.daily_active_users r))
                 (fun r _ => JS.orZero (Rec.daily_active_users r))).
        - reflexivity.
        - intros e [[[x y] z] w]. reflexivity. }
      rewrite <- Hmap, (get_map (fun t : Z * Z * Z * Z => snd t)).
      now rewrite (in_get _ _ _ Hnd Hin).
Qed.

(** *** Distributions and the split of code changes *)

Lemma values_upsert_total {V : Type} (g : V -> Z) (k : string) (init : V)
    (f : V -> V) (c : Z) (o : JS.obj V) :
  g init = 0 -> (forall v, g (f v) = g v + c) ->
  total g (JS.values (JS.upsert k init f o)) = total g (JS.values o) + c.
Proof.
  intros Hi Hf. unfold JS.values, total.
  induction o as [|[k' v] o IH]; simpl.
  - rewrite Hf, Hi. lia.
  - destruct (String.eqb k k'); simpl; [rewrite Hf|rewrite IH]; lia.
Qed.

(** What a dictionary of sums filled by the kept entries adds up to. *)
Lemma grouped_total_if {A V : Type} (g : V -> Z) (key : A -> string)
    (keep : A -> bool) (c : A -> Z) (init : V) (f : A -> V -> V) (es : list A) :
  g init = 0 ->
  (forall e v, g (f e v) = g v + c e) ->
  total g
    (JS.values
       (fold_left
          (fun o e => if keep e then JS.upsert (key e) init (f e) o else o) es []))
  = total (fun e => if keep e then c e else 0) es.
Proof.
  intros Hi Hf. induction es as [|e es IH] using rev_ind; [reflexivity|].
  rewrite fold_left_app, total_app. simpl. unfold total at 3. simpl.
  destruct (keep e).
  - rewrite (values_upsert_total g _ _ _ (c e)) by auto. rewrite IH. lia.
  - rewrite IH. lia.
Qed.


Lemma total_split {A : Type} (p : A -> bool) (c : A -> Z) (l : list A) :
  total (fun e => if negb (p e) then c e else 0) l
  + total (fun e => if p e then c e else 0) l
  = total c l.
Proof.
  unfold total. induction l as [|x l IH]; simpl; [reflexivity|].
  destruct (p x); simpl; lia.
Qed.

Lemma desc_map {A B : Type} (f : A -> B) (key : B -> Z) (l : list A) :
  desc (fun x => key (f x)) l -> desc key (map f l).
Proof.
  unfold desc. induction 1 as [|x l Hs IH Hx]; simpl; constructor; [assumption|].
  apply Forall_map. exact Hx.
Qed.

Lemma StronglySorted_ext_desc {A : Type} (k1 k2 : A -> Z) (l : list A) :
  (forall x, k2 x = k1 x) -> desc k1 l -> desc k2 l.
Proof.
  intros H. unfold desc. induction 1 as [|x l Hs IH Hx]; constructor; [assumption|].
  eapply Forall_impl; [|exact Hx]. intros y Hy. simpl in Hy. rewrite !H. exact Hy.
Qed.


Lemma fold_left_filter {A S : Type} (keep : A -> bool) (body : S -> A -> S)
    (es : list A) (init : S) :
  fold_left (fun o e => if keep e then body o e else o) es init
  = fold_left body (filter keep es) init.
Proof.
  revert init. induction es as [|e es IH]; intros init; simpl; [reflexivity|].
  destruct (keep e); simpl; apply IH.
Qed.

Lemma codeChangesBy_table (records : list Rec.t)
    (field : Rec.t -> option (list Entry.t)) (keep : Entry.t -> bool)
    (key : Entry.t -> string) (x y : Entry.t -> option Z) :
  table_of fst (fun r => fst (snd r)) (fun r => snd (snd r))
    (Dashboard.codeChangesBy records field keep key x y)
    key (fun e => JS.orZero (x e)) (fun e => JS.orZero (y e))
    (filter keep (all_entries records field)).
Proof.
  unfold Dashboard.codeChangesBy, table_of.
  rewrite for_entries_flat. fold (all_entries records field).
  set (f := fun (e : Entry.t) (t : Z * Z) =>
              let '(a, b) := t in (a + JS.orZero (x e), b + JS.orZero (y e))).
  rewrite (fold_left_filter keep (fun o e => JS.upsert (key e) (0, 0) (f e) o)).
  set (es := filter keep (all_entries records field)).
  set (dict := fold_left (fun o e => JS.upsert (key e) (0, 0) (f e) o) es []).
  destruct (grouped_keys key (0, 0) f es) as [Hnd Hkeys].
  fold dict in Hnd, Hkeys.
  set (cmp := fun a b : string * (Z * Z) =>
                fst (snd b) + snd (snd b) - (fst (snd a) + snd (snd a))).
  assert (Hperm : Permutation (map fst (JS.sort cmp dict)) (JS.keys dict)).
  { unfold JS.keys. apply Permutation_map, sort_perm. }
  split; [|split; [|split]].
  - eapply Permutation_NoDup; [symmetry; exact Hperm|exact Hnd].
  - intros k. rewrite <- Hkeys. split; apply Permutation_in;
      [exact Hperm|symmetry; exact Hperm].
  - intros [k [a b]] Hrow. apply sort_in in Hrow. cbn [fst snd]. split.
    + apply (grouped_component (fun t : Z * Z => fst t) key
               (fun e => JS.orZero (x e)) (0, 0) f es k (a, b));
        [reflexivity|intros e [u v]; reflexivity|exact Hrow].
    + apply (grouped_component (fun t : Z * Z => snd t) key
               (fun e => JS.orZero (y e)) (0, 0) f es k (a, b));
        [reflexivity|intros e [u v]; reflexivity|exact Hrow].
  - apply (sort_desc (fun r : string * (Z * Z) => fst (snd r) + snd (snd r))).
Qed.

(** A table keeps its description when its rows are rebuilt field by field. *)
Lemma table_of_map {Row : Type} (mk : string * (Z * Z) -> Row)
    (name : Row -> string) (x y : Row -> Z) (rows : list (string * (Z * Z)))
    (key : Entry.t -> string) (cx cy : Entry.t -> Z) (es : list Entry.t) :
  (forall r, name (mk r) = fst r) ->
  (forall r, x (mk r) = fst (snd r)) ->
  (forall r, y (mk r) = snd (snd r)) ->
  table_of fst (fun r => fst (snd r)) (fun r => snd (snd r)) rows key cx cy es ->
  table_of name x y (map mk rows) key cx cy es.
Proof.
  intros Hn Hx Hy [Hnd [Hkeys [Hvals Hdesc]]].
  assert (Hnames : map name (map mk rows) = map fst rows).
  { rewrite map_map. apply map_ext. exact Hn. }
  unfold table_of. rewrite Hnames.
  split; [exact Hnd|]. split; [exact Hkeys|]. split.
  - intros row Hrow. apply in_map_iff in Hrow. destruct Hrow as [r [<- Hr]].
    rewrite Hn, Hx, Hy. now apply Hvals.
  - apply desc_map.
    eapply StronglySorted_ext_desc; [|exact Hdesc].
    intros r. simpl. now rewrite Hx, Hy.
Qed.

(** X22.  The code changes by model and by language are split between the
    user table and the agent table without loss.  An entry counts in the
    agent table when its feature is an agent feature and in the user table
    otherwise: the agent table is the table of the agent entries, the user
    table the table of all other entries, each with one row per model (or
    language) of its entries, the columns being sums over the entries of the
    row, and the rows descending by the sum of both columns.  So the added
    lines of both tables together are the added lines of all entries. *)
Theorem code_changes_split (records : list Rec.t) :
  let ms := all_entries records Rec.totals_by_model_feature in
  let ls := all_entries records Rec.totals_by_language_feature in
  table_of ModelSA.model ModelSA.suggested ModelSA.added
    (Dashboard.aggregateUserCodeChangesByModel records)
    Entry.model suggested_of added_of (user_entries ms)
  /\ table_of ModelAD.model ModelAD.added ModelAD.deleted
       (Dashboard.aggregateAgentCodeChangesByModel records)
       Entry.model added_of deleted_of (agent_entries ms)
  /\ table_of LanguageSA.language LanguageSA.suggested LanguageSA.added
       (Dashboard.aggregateUserCodeChangesByLanguage records)
       Entry.language suggested_of added_of (user_entries ls)
  /\ table_of LanguageAD.language LanguageAD.added LanguageAD.deleted
       (Dashboard.aggregateAgentCodeChangesByLanguage records)
       Entry.language added_of deleted_of (agent_entries ls)
  /\ total ModelSA.added (Dashboard.aggregateUserCodeChangesByModel records)
     + total ModelAD.added (Dashboard.aggregateAgentCodeChangesByModel records)
     = total added_of ms
  /\ total LanguageSA.added (Dashboard.aggregateUserCodeChangesByLanguage records)
     + total LanguageAD.added (Dashboard.aggregateAgentCodeChangesByLanguage records)
     = total added_of ls.
Proof.
  intros ms ls.
  assert (T : forall field keep key (x y : Entry.t -> option Z) (g : Z * Z -> Z)
                (c : Entry.t -> Z),
            g (0, 0) = 0 ->
            (forall e v,
                g (let '(a, b) := v in (a + JS.orZero (x e), b + JS.orZero (y e)))
                = g v + c e) ->
            total (fun kv => g (snd kv))
              (Dashboard.codeChangesBy records field keep key x y)
            = total (fun e => if keep e then c e else 0) (all_entries records field)).
  { intros field keep key x y g c Hi Hf. unfold Dashboard.codeChangesBy.
    rewrite (total_perm _ _ _ (sort_perm _ _)).
    rewrite for_entries_flat. fold (all_entries records field).
    rewrite <- (total_map g snd).
    exact (grouped_total_if g key keep c (0, 0)
             (fun e '(a, b) => (a + JS.orZero (x e), b + JS.orZero (y e)))
             (all_entries records field) Hi Hf). }
  split; [|split; [|split; [|split; [|split]]]].
  - unfold Dashboard.aggregateUserCodeChangesByModel.
    apply table_of_map; try (intros [k [a b]]; reflexivity).
    apply codeChangesBy_table.
  - unfold Dashboard.aggregateAgentCodeChangesByModel.
    apply table_of_map; try (intros [k [a b]]; reflexivity).
    apply codeChangesBy_table.
  - unfold Dashboard.aggregateUserCodeChangesByLanguage.
    apply table_of_map; try (intros [k [a b]]; reflexivity).
    apply codeChangesBy_table.
  - unfold Dashboard.aggregateAgentCodeChangesByLanguage.
    apply table_of_map; try (intros [k [a b]]; reflexivity).
    apply codeChangesBy_table.
  - unfold Dashboard.aggregateUserCodeChangesByModel,
      Dashboard.aggregateAgentCodeChangesByModel.
    rewrite !total_map.
    rewrite (total_ext _ (fun kv => snd (snd kv))) by (intros [k [a b]]; reflexivity).
    rewrite (T _ _ _ _ _ (fun v => snd v) added_of)
      by (try reflexivity; intros e [a b]; reflexivity).
    rewrite (total_ext (fun x => ModelAD.added _) (fun kv => fst (snd kv)))
      by (intros [k [a b]]; reflexivity).
    rewrite (T _ _ _ _ _ (fun v => fst v) added_of)
      by (try reflexivity; intros e [a b]; reflexivity).
    apply total_split.
  - unfold Dashboard.aggregateUserCodeChangesByLanguage,
      Dashboard.aggregateAgentCodeChangesByLanguage.
    rewrite !total_map.
    rewrite (total_ext _ (fun kv => snd (snd kv))) by (intros [k [a b]]; reflexivity).
    rewrite (T _ _ _ _ _ (fun v => snd v) added_of)
      by (try reflexivity; intros e [a b]; reflexivity).
    rewrite (total_ext (fun x => LanguageAD.added _) (fun kv => fst (snd kv)))
      by (intros [k [a b]]; reflexivity).
    rewrite (T _ _ _ _ _ (fun v => fst v) added_of)
      by (try reflexivity; intros e [a b]; reflexivity).
    apply total_split.
Qed.

(** *** The MCP chat-mode figures and the daily series *)

Lemma get_chat_table {V : Type} (h : string -> V) (m : string) :
  In m Dashboard.CHAT_MODES ->
  JS.get (map (fun mode => (Dashboard.display mode, h mode)) Dashboard.CHAT_MODES)
    (Dashboard.display m)
  = Some (h m).
Proof.
  intros Hm. simpl in Hm.
  repeat (destruct Hm as [<-|Hm]; [reflexivity|]). contradiction.
Qed.

(** The values of a chat mode's daily series add up to the interactions of
    all entries of the mode. *)
Lemma chat_series_total (records : list Rec.t) (m : string) :
  total (fun v => v)
    (map
       (fun day =>
          key_total Entry.feature interactions_of
            (day_entries records Rec.totals_by_feature day) m)
       (Dashboard.getSortedDays records))
  = key_total Entry.feature interactions_of
      (all_entries records Rec.totals_by_feature) m.
Proof.
  rewrite total_map. unfold key_total, day_entries, all_entries.
  rewrite total_filter, total_flat_map.
  rewrite <- (by_day_total records).
  apply total_ext. intros day.
  now rewrite total_filter, total_flat_map, recordsOf_filter.
Qed.

(** X23.  The MCP server's [getChatModeStats] against the dashboard's daily
    chat-mode series: the rows are distinct display names of chat modes,
    ordered by descending interactions, and the interactions of a row are the
    sum of the dashboard's daily series of that name. *)
Theorem getChatModeStats_sums_series (records : list Rec.t) :
  let rows := Mcp.getChatModeStats records in
  let s := Dashboard.aggregateRequestsPerChatMode records in
  desc Mcp.ModeRow.interactions rows
  /\ NoDup (map Mcp.ModeRow.mode rows)
  /\ forall row, In row rows ->
       exists values,
         JS.get (DaySeries.series s) (Mcp.ModeRow.mode row) = Some values
         /\ Mcp.ModeRow.interactions row = total (fun v => v) values.
Proof.
  intros rows s. unfold rows, s, Mcp.getChatModeStats.
  rewrite for_entries_flat. fold (all_entries records Rec.totals_by_feature).
  set (es := all_entries records Rec.totals_by_feature).
  set (keep := fun f : Entry.t => JS.mem (Entry.feature f) Dashboard.CHAT_MODES).
  set (kf := fun f : Entry.t => Dashboard.display (Entry.feature f)).
  set (f := fun (e : Entry.t) (t : Z * Z) =>
              let '(i, c) := t in
              (i + JS.orZero (Entry.user_initiated_interaction_count e),
               c + JS.orZero (Entry.code_generation_activity_count e))).
  rewrite (fold_left_filter keep (fun o e => JS.upsert (kf e) (0, 0) (f e) o)).
  set (dict := fold_left (fun o e => JS.upsert (kf e) (0, 0) (f e) o)
                 (filter keep es) []).
  set (mk := fun '(mode, (i, c)) => Mcp.ModeRow.mk mode i c).
  destruct (grouped_keys kf (0, 0) f (filter keep es)) as [Hnd Hkeys].
  fold dict in Hnd, Hkeys.
  assert (Hk : map Mcp.ModeRow.mode (map mk dict) = JS.keys dict).
  { rewrite map_map. apply map_ext. intros [k [i c]]. reflexivity. }
  split; [apply sort_desc|]. split.
  - eapply Permutation_NoDup; [|exact Hnd]. rewrite <- Hk.
    symmetry. apply Permutation_map, sort_perm.
  - intros row Hrow. apply sort_in in Hrow. apply in_map_iff in Hrow.
    destruct Hrow as [[k [i c]] [<- Hin]].
    unfold mk. cbn [Mcp.ModeRow.mode Mcp.ModeRow.interactions].
    assert (Hkin : In k (JS.keys dict)).
    { unfold JS.keys. apply in_map_iff. now exists (k, (i, c)). }
    apply Hkeys in Hkin. destruct Hkin as [e [He Hke]].
    apply filter_In in He. destruct He as [_ Hkeep].
    unfold keep in Hkeep. apply mem_in in Hkeep.
    unfold kf in Hke. subst k.
    rewrite chat_mode_series, (get_chat_table _ _ Hkeep).
    eexists. split; [reflexivity|].
    rewrite chat_series_total. fold es.
    assert (Hi : i = key_total kf interactions_of (filter keep es)
                       (Dashboard.display (Entry.feature e))).
    { apply (grouped_component (fun t : Z * Z => fst t) kf interactions_of
               (0, 0) f (filter keep es) (Dashboard.display (Entry.feature e)) (i, c));
        [reflexivity|intros x [a b]; reflexivity|exact Hin]. }
    rewrite Hi. unfold key_total. rewrite filter_filter_and, !total_filter.
    apply total_ext. intros x. unfold keep, kf.
    now rewrite chat_mode_selects.
Qed.
